(** * lazycommit: a shallow embedding of cmd/lazycommit/main.go

    The program is one Go file.  Everything it imports that is not part of
    the repository (the operating system, the file system, the spawned
    [git], [jj] and [llm] processes, the TOML decoder, the tiktoken codec)
    is gathered in a record [World]; the pieces of Go's standard library
    whose exact behaviour the properties depend on ([strconv.Atoi],
    [utf8.DecodeRuneInString], [regexp], [bufio.Scanner], the field
    actions of [text/template]) are written out as executable functions.

    Go strings are byte sequences: they are modelled as [string], one
    [ascii] per byte.  Go's [int] is modelled as [Z]; no arithmetic is
    performed on it by the program, so no wrap-around is needed. *)

From Stdlib Require Import ZArith NArith List String Ascii Bool Lia DecimalString.
Import ListNotations.
Local Open Scope string_scope.
Local Open Scope Z_scope.

(** ** Go values *)

(** A Go [(T, error)] pair: either the value with a nil error, or an error,
    kept as its message. *)
Inductive Result (A : Type) : Type :=
| Ok (a : A)
| Err (e : string).
Arguments Ok {A} a.
Arguments Err {A} e.

(** How a call ends: it returns, it panics, or it calls [os.Exit]. *)
Inductive Outcome (A : Type) : Type :=
| Return (a : A)
| Panic (msg : string)
| Exit (code : Z).
Arguments Return {A} a.
Arguments Panic {A} msg.
Arguments Exit {A} code.

Definition chr (n : nat) : string := String (ascii_of_nat n) "".
Definition LF : string := chr 10.
Definition CR : ascii := ascii_of_nat 13.
Definition ESC : string := chr 27.
Definition DQUOTE : string := chr 34.

Definition byteZ (c : ascii) : Z := Z.of_N (N_of_ascii c).

(** [fmt.Sprintf("%d", n)] *)
Definition itoa (n : Z) : string := NilZero.string_of_int (Z.to_int n).

(** [len(s)] of a slice, as a Go [int] *)
Definition len {A : Type} (l : list A) : Z := Z.of_nat (List.length l).

(** [strings.Contains], as a proposition and as a test *)
Definition contains (s sub : string) : Prop :=
  exists pre post, s = pre ++ sub ++ post.

Fixpoint Contains (s sub : string) : bool :=
  prefix sub s ||
  match s with
  | EmptyString => false
  | String _ s' => Contains s' sub
  end.

Fixpoint dropBytes (n : nat) (s : string) : string :=
  match n, s with
  | O, _ => s
  | S n', String _ s' => dropBytes n' s'
  | S _, EmptyString => EmptyString
  end.

Fixpoint takeBytes (n : nat) (s : string) : string :=
  match n, s with
  | O, _ => EmptyString
  | S n', String c s' => String c (takeBytes n' s')
  | S _, EmptyString => EmptyString
  end.

(** ** strconv *)
Module strconv.

Definition isDigit (c : ascii) : bool :=
  (48 <=? byteZ c) && (byteZ c <=? 57).

(** The digit loop: [n = n*10 + int(ch - '0')], a syntax error on any other
    byte. *)
Fixpoint digits (acc : Z) (s : string) : option Z :=
  match s with
  | EmptyString => Some acc
  | String c s' =>
      if isDigit c then digits (acc * 10 + (byteZ c - 48)) s' else None
  end.

Definition maxInt : Z := 2 ^ 63 - 1.
Definition minInt : Z := - 2 ^ 63.

(** [strconv.Atoi]: an optional sign, at least one decimal digit, nothing
    else, and a value that fits an [int]; [None] is any non-nil error
    (syntax or range). *)
Definition Atoi (s : string) : option Z :=
  match s with
  | EmptyString => None
  | String c s' =>
      let neg := Ascii.eqb c "-" in
      let body := if neg || Ascii.eqb c "+" then s' else s in
      match body with
      | EmptyString => None
      | _ =>
          match digits 0 body with
          | None => None
          | Some n =>
              let v := if neg then - n else n in
              if (minInt <=? v) && (v <=? maxInt) then Some v else None
          end
      end
  end.

End strconv.

(** ** tiktoken-go/tokenizer *)

(** The codec interface of the tokenizer library.  [Encode] also returns the
    token strings, which the program discards; only the ids are kept here.
    Token ids are Go [uint]s. *)
Record Codec : Type := {
  Encode : string -> Result (list N);
  Decode : list N -> Result string
}.

Definition string_of_tokens (toks : list N) : string :=
  string_of_list_ascii (map ascii_of_N toks).

(** A codec of one token per byte, which never fails; used to run the
    program's functions on concrete inputs. *)
Definition byteCodec : Codec := {|
  Encode := fun s => Ok (map N_of_ascii (list_ascii_of_string s));
  Decode := fun toks => Ok (string_of_tokens toks)
|}.

(** Cl100kBase on one text: [hello world] is two tokens, 15339 for [hello]
    and 1917 for [ world].  Decoding joins the texts of the tokens and fails
    on a token that is not in the vocabulary. *)
Definition pieceOf (token : N) : option string :=
  if (token =? 15339)%N then Some "hello"
  else if (token =? 1917)%N then Some " world"
  else None.

Fixpoint decodePieces (tokens : list N) : Result string :=
  match tokens with
  | [] => Ok ""
  | token :: tokens' =>
      match pieceOf token with
      | None => Err "invalid token"
      | Some piece =>
          match decodePieces tokens' with
          | Ok s => Ok (piece ++ s)
          | Err e => Err e
          end
      end
  end.

Definition cl100kSample : Codec := {|
  Encode := fun s =>
    if String.eqb s "hello world" then Ok [15339; 1917]%N
    else Err "text outside the sample";
  Decode := decodePieces
|}.

(** ** truncateDiff *)

(** The slice expression [tokens[:n]]: a run-time panic unless
    [0 <= n <= cap(tokens)].  The only use is in a branch where
    [n < len(tokens)], so the capacity is never the bound that matters and
    [len] stands for it. *)
Definition sliceTo {A : Type} (tokens : list A) (n : Z) : Outcome (list A) :=
  if (n <? 0) || (len tokens <? n)
  then Panic ("runtime error: slice bounds out of range [:" ++ itoa n ++ "]")
  else Return (firstn (Z.to_nat n) tokens).

Definition truncationNotice (maxTokens : Z) : string :=
  LF ++ LF ++ "[Diff truncated due to size - showing first "
     ++ itoa maxTokens ++ " tokens]".

(** [get] is the result of [tokenizer.Get(tokenizer.Cl100kBase)]. *)
Definition truncateDiff (get : Result Codec) (diff : string) (maxTokens : Z)
  : Outcome (Result string) :=
  match get with
  | Err err => Return (Err ("failed to get tokenizer: " ++ err))
  | Ok enc =>
      match Encode enc diff with
      | Err err => Return (Err ("failed to encode diff: " ++ err))
      | Ok tokens =>
          if len tokens <=? maxTokens then Return (Ok diff)
          else
            match sliceTo tokens maxTokens with
            | Panic msg => Panic msg
            | Exit code => Exit code
            | Return truncatedTokens =>
                match Decode enc truncatedTokens with
                | Err err =>
                    Return (Err ("failed to decode truncated tokens: " ++ err))
                | Ok truncatedDiff =>
                    Return (Ok (truncatedDiff ++ truncationNotice maxTokens))
                end
            end
      end
  end.

(** ** unicode/utf8 *)
Module utf8.

Definition RuneError : Z := 65533.

Definition inRange (lo hi : Z) (c : ascii) : bool :=
  (lo <=? byteZ c) && (byteZ c <=? hi).

(** Continuation bytes are [0x80..0xBF]. *)
Definition cont (c : ascii) : bool := inRange 128 191 c.

Definition low6 (c : ascii) : Z := Z.land (byteZ c) 63.

(** The [first] table of the decoder: for a leading byte, the length of the
    sequence it starts and the range accepted for the second byte. *)
Definition lead (b : Z) : option (nat * Z * Z) :=
  if (194 <=? b) && (b <=? 223) then Some (2%nat, 128, 191)
  else if b =? 224 then Some (3%nat, 160, 191)
  else if (225 <=? b) && (b <=? 236) then Some (3%nat, 128, 191)
  else if b =? 237 then Some (3%nat, 128, 159)
  else if (238 <=? b) && (b <=? 239) then Some (3%nat, 128, 191)
  else if b =? 240 then Some (4%nat, 144, 191)
  else if (241 <=? b) && (b <=? 243) then Some (4%nat, 128, 191)
  else if b =? 244 then Some (4%nat, 128, 143)
  else None.

(** [utf8.DecodeRuneInString]: the first rune of [s] and its width in bytes;
    an invalid or truncated sequence is [RuneError] of width 1, the empty
    string is [RuneError] of width 0. *)
Definition DecodeRuneInString (s : string) : Z * nat :=
  match s with
  | EmptyString => (RuneError, 0%nat)
  | String s0 t =>
      if byteZ s0 <? 128 then (byteZ s0, 1%nat)
      else
        match lead (byteZ s0) with
        | None => (RuneError, 1%nat)
        | Some (sz, lo, hi) =>
            match t with
            | EmptyString => (RuneError, 1%nat)
            | String s1 t1 =>
                if negb (inRange lo hi s1) then (RuneError, 1%nat)
                else if (sz <=? 2)%nat
                then (Z.lor (Z.shiftl (Z.land (byteZ s0) 31) 6) (low6 s1), 2%nat)
                else
                  match t1 with
                  | EmptyString => (RuneError, 1%nat)
                  | String s2 t2 =>
                      if negb (cont s2) then (RuneError, 1%nat)
                      else if (sz <=? 3)%nat
                      then (Z.lor (Z.shiftl (Z.land (byteZ s0) 15) 12)
                              (Z.lor (Z.shiftl (low6 s1) 6) (low6 s2)), 3%nat)
                      else
                        match t2 with
                        | EmptyString => (RuneError, 1%nat)
                        | String s3 _ =>
                            if negb (cont s3) then (RuneError, 1%nat)
                            else (Z.lor (Z.shiftl (Z.land (byteZ s0) 7) 18)
                                    (Z.lor (Z.shiftl (low6 s1) 12)
                                       (Z.lor (Z.shiftl (low6 s2) 6) (low6 s3))),
                                  4%nat)
                        end
                  end
            end
        end
  end.

End utf8.

(** ** regexp *)
Module regexp.

(** One step of the matcher's input: a rune and the bytes it was decoded
    from. *)
Record item : Type := { rune : Z; raw : string }.

(** The input of a match: the string cut into runes, left to right, as
    [utf8.DecodeRuneInString] steps through it.  [fuel] bounds the number of
    runes; the length of the string is always enough. *)
Fixpoint runesFuel (fuel : nat) (s : string) : list item :=
  match fuel with
  | O => []
  | S fuel' =>
      match utf8.DecodeRuneInString s with
      | (_, O) => []
      | (r, w) => {| rune := r; raw := takeBytes w s |} :: runesFuel fuel' (dropBytes w s)
      end
  end.

Definition runes (s : string) : list item := runesFuel (String.length s) s.

Definition text (l : list item) : string := String.concat "" (map raw l).

(** Character classes: [.] (any rune but a newline), the Perl class [\s]
    (tab, newline, form feed, carriage return, space), a bracket set of
    listed ASCII characters, and negation. *)
Inductive cclass : Type :=
| Dot
| Space
| Chars (cs : string)
| Neg (c : cclass).

Definition isSpace (r : Z) : bool :=
  (r =? 9) || (r =? 10) || (r =? 12) || (r =? 13) || (r =? 32).

Fixpoint classMatches (c : cclass) (r : Z) : bool :=
  match c with
  | Dot => negb (r =? 10)
  | Space => isSpace r
  | Chars cs => existsb (fun a => byteZ a =? r) (list_ascii_of_string cs)
  | Neg c' => negb (classMatches c' r)
  end.

(** The fragment of the syntax the program's pattern is written in.  The
    repetitions are the greedy ones and range over one character class. *)
Inductive regex : Type :=
| Empty
| BeginText                 (* ^ *)
| Lit (l : string)          (* ASCII text *)
| One (c : cclass)          (* c *)
| Star (c : cclass)         (* c* *)
| Plus (c : cclass)         (* c+ *)
| Cat (a b : regex)
| Group (r : regex).        (* ( r ), the first capturing group *)

Definition seq (rs : list regex) : regex := fold_right Cat Empty rs.

(** A thread of the backtracking search: how many runes of the text lie
    before it, what is left to read, and what group 1 has captured. *)
Record thread : Type := {
  pos : nat;
  rest : list item;
  cap1 : option (list item)
}.

Definition advance (t : thread) : option (item * thread) :=
  match rest t with
  | [] => None
  | it :: tl => Some (it, {| pos := S (pos t); rest := tl; cap1 := cap1 t |})
  end.

Fixpoint litFrom (l : list ascii) (t : thread) : list thread :=
  match l with
  | [] => [t]
  | a :: l' =>
      match advance t with
      | Some (it, t') => if rune it =? byteZ a then litFrom l' t' else []
      | None => []
      end
  end.

(** Greedy repetition: the longest run is tried first, then each shorter
    one. *)
Fixpoint starFrom (c : cclass) (p : nat) (cap : option (list item))
  (l : list item) : list thread :=
  let here := {| pos := p; rest := l; cap1 := cap |} in
  match l with
  | it :: tl =>
      if classMatches c (rune it) then (starFrom c (S p) cap tl ++ [here])%list
      else [here]
  | [] => [here]
  end.

Definition oneFrom (c : cclass) (t : thread) : list thread :=
  match advance t with
  | Some (it, t') => if classMatches c (rune it) then [t'] else []
  | None => []
  end.

(** All the ways [r] matches at thread [t], in the order a backtracking
    matcher tries them: the head of the list is the match Go reports
    (leftmost-first semantics). *)
Fixpoint run (r : regex) (t : thread) : list thread :=
  match r with
  | Empty => [t]
  | BeginText => if (pos t =? 0)%nat then [t] else []
  | Lit l => litFrom (list_ascii_of_string l) t
  | One c => oneFrom c t
  | Star c => starFrom c (pos t) (cap1 t) (rest t)
  | Plus c => flat_map (fun t' => starFrom c (pos t') (cap1 t') (rest t')) (oneFrom c t)
  | Cat a b => flat_map (run b) (run a t)
  | Group r' =>
      map (fun t' => {| pos := pos t'; rest := rest t';
                        cap1 := Some (firstn (pos t' - pos t) (rest t)) |})
          (run r' t)
  end.

(** The unanchored search: the leftmost start at which the pattern matches.
    The result is Go's slice of submatches, [[whole; group1]], or the empty
    (nil) slice. *)
Fixpoint search (r : regex) (p : nat) (l : list item) : list string :=
  match run r {| pos := p; rest := l; cap1 := None |} with
  | t :: _ =>
      [ text (firstn (pos t - p) l);
        match cap1 t with Some g => text g | None => "" end ]
  | [] =>
      match l with
      | [] => []
      | _ :: tl => search r (S p) tl
      end
  end.

Definition FindStringSubmatch (r : regex) (s : string) : list string :=
  search r 0 (runes s).

End regexp.

(** ** bufio *)
Module bufio.

Definition MaxScanTokenSize : Z := 65536.
Definition ErrTooLong : string := "bufio.Scanner: token too long".

(** The bytes of the current line are accumulated in reverse. *)
Definition dropCR (revLine : list ascii) : list ascii :=
  match revLine with
  | c :: tl => if Ascii.eqb c CR then tl else revLine
  | [] => []
  end.

Definition token (revLine : list ascii) : string :=
  string_of_list_ascii (rev (dropCR revLine)).

(** A [Scanner] with the [ScanLines] split function run to the end of
    [content]: the lines it delivers and the value of [Err()].  [cur] holds
    the [n] bytes read since the last newline.  A line ends at a newline, a
    carriage return before it is dropped, and a last line without newline is
    delivered as well.  The buffer holds [MaxScanTokenSize] bytes, so once
    that many bytes are read without a newline the scan stops with
    [ErrTooLong]. *)
Fixpoint scanFrom (content : string) (cur : list ascii) (n : Z)
  : list string * option string :=
  match content with
  | EmptyString => (if n =? 0 then [] else [token cur], None)
  | String c tl =>
      if Ascii.eqb c (ascii_of_nat 10)
      then let (lines, err) := scanFrom tl [] 0 in (token cur :: lines, err)
      else if MaxScanTokenSize <=? n + 1 then ([], Some ErrTooLong)
      else scanFrom tl (c :: cur) (n + 1)
  end.

Definition scanLines (content : string) : list string * option string :=
  scanFrom content [] 0.

End bufio.

(** ** The program's types and constants *)

Record Config : Type := {
  MaxDiffSize : Z;
  PromptPath : string;
  UserContext : string;
  IsGit : bool;
  ModelName : string
}.

Record AppConfig : Type := {
  MaxDiffTokens : Z;
  AppPromptPath : string;
  AppModelName : string
}.

Definition DefaultConfig : AppConfig := {|
  MaxDiffTokens := 12500;
  AppPromptPath := "";
  AppModelName := ""
|}.

Record PromptData : Type := {
  Branch : string;
  DataUserContext : string
}.

Definition DefaultPromptTemplate : string :=
  String.concat LF [
    "You are an expert programmer helping to write concise, informative git commit messages. ";
    "The user will provide you with a git diff, and you will respond with ONLY a commit message.";
    "";
    "Here are the characteristics of a good commit message:";
    "- Start with a short summary line (50-72 characters)";
    "- Use the imperative mood (" ++ DQUOTE ++ "Add feature" ++ DQUOTE
       ++ " not " ++ DQUOTE ++ "Added feature" ++ DQUOTE ++ ")";
    "- Optionally include a more detailed explanatory paragraph after the summary, separated by a blank line";
    "- Explain WHAT changed and WHY, but not HOW (that's in the diff)";
    "- Reference relevant issue numbers if applicable (e.g. " ++ DQUOTE
       ++ "Fixes #123" ++ DQUOTE ++ ")";
    "";
    "Current branch: {{.Branch}}";
    "User context: {{.UserContext}}";
    "";
    "Respond with ONLY the commit message, no additional explanations, introductions, or notes."
  ].

(** ** text/template *)
Module template.

(** The templates made of text and field actions [{{.Name}}] are executed
    here; the embedded default template is one.  Any other construct of the
    template language is left to the library.  A field node keeps its
    position, the byte offset of its dot in the template text: execution
    errors name the line and the column of the node. *)
Inductive node : Type :=
| TextNode (s : string)
| FieldNode (pos : nat) (name : string).

(** Cut [s] at the first occurrence of the two bytes [a b]. *)
Fixpoint cut (a b : ascii) (s : string) : option (string * string) :=
  match s with
  | EmptyString => None
  | String c s' =>
      match s' with
      | EmptyString => None
      | String d s'' =>
          if Ascii.eqb c a && Ascii.eqb d b then Some (EmptyString, s'')
          else match cut a b s' with
               | Some (x, y) => Some (String c x, y)
               | None => None
               end
      end
  end.

Definition isBlank (c : ascii) : bool :=
  Ascii.eqb c " " || Ascii.eqb c (ascii_of_nat 9)
  || Ascii.eqb c (ascii_of_nat 13) || Ascii.eqb c (ascii_of_nat 10).

Definition isLetter (c : ascii) : bool :=
  ((65 <=? byteZ c) && (byteZ c <=? 90))
  || ((97 <=? byteZ c) && (byteZ c <=? 122)) || Ascii.eqb c "_".

Definition isAlphaNumeric (c : ascii) : bool :=
  isLetter c || strconv.isDigit c.

Fixpoint trimLeft (s : string) : string :=
  match s with
  | String c s' => if isBlank c then trimLeft s' else s
  | EmptyString => EmptyString
  end.

Definition trimBlanks (s : string) : string :=
  let r := trimLeft (string_of_list_ascii (rev (list_ascii_of_string s))) in
  trimLeft (string_of_list_ascii (rev (list_ascii_of_string r))).

(** The blanks an action starts with, before its first token. *)
Fixpoint blanks (s : string) : nat :=
  match s with
  | String c s' => if isBlank c then S (blanks s') else O
  | EmptyString => O
  end.

(** The body of an action that is one field of the data: a dot, then an
    identifier. *)
Definition fieldName (body : string) : option string :=
  match trimBlanks body with
  | String "." (String c name) =>
      if isLetter c && forallb isAlphaNumeric (list_ascii_of_string name)
      then Some (String c name) else None
  | _ => None
  end.

Definition textNode (s : string) : list node :=
  match s with EmptyString => [] | _ => [TextNode s] end.

(** [off] is the offset of [s] in the template text. *)
Fixpoint parseFuel (fuel : nat) (off : nat) (s : string) : option (list node) :=
  match fuel with
  | O => None
  | S fuel' =>
      match cut "{" "{" s with
      | None => Some (textNode s)
      | Some (txt, after) =>
          match cut "}" "}" after with
          | None => None
          | Some (body, tl) =>
              let inside := (off + String.length txt + 2)%nat in
              match fieldName body,
                    parseFuel fuel' (inside + String.length body + 2)%nat tl with
              | Some name, Some ns =>
                  Some (textNode txt
                          ++ FieldNode (inside + blanks body)%nat name :: ns)%list
              | _, _ => None
              end
          end
      end
  end.

Definition parse (s : string) : option (list node) :=
  parseFuel (S (String.length s)) 0 s.

(** The line (counted from 1) and the byte in the line (counted from 0) that
    follow [s], starting from the line and byte given. *)
Fixpoint lineByte (s : string) (line byte : nat) : nat * nat :=
  match s with
  | EmptyString => (line, byte)
  | String c s' =>
      if Ascii.eqb c (ascii_of_nat 10) then lineByte s' (S line) 0
      else lineByte s' line (S byte)
  end.

(** [Tree.ErrorContext]: the location [name:line:byte] of the node at [pos]
    in the text of the template named [prompt]. *)
Definition location (text : string) (pos : nat) : string :=
  let (line, byte) := lineByte (takeBytes pos text) 1 0 in
  "prompt:" ++ itoa (Z.of_nat line) ++ ":" ++ itoa (Z.of_nat byte).

(** A field of [PromptData], printed as it is; any other name is an
    execution error, which says where the field node is and what it is. *)
Definition field (text : string) (pos : nat) (data : PromptData)
  (name : string) : Result string :=
  if String.eqb name "Branch" then Ok (Branch data)
  else if String.eqb name "UserContext" then Ok (DataUserContext data)
  else Err ("template: " ++ location text pos ++ ": executing "
            ++ DQUOTE ++ "prompt" ++ DQUOTE ++ " at <." ++ name
            ++ ">: can't evaluate field " ++ name
            ++ " in type main.PromptData").

Fixpoint execute (text : string) (ns : list node) (data : PromptData)
  (buf : string) : Result string :=
  match ns with
  | [] => Ok buf
  | TextNode s :: ns' => execute text ns' data (buf ++ s)
  | FieldNode pos name :: ns' =>
      match field text pos data name with
      | Ok v => execute text ns' data (buf ++ v)
      | Err e => Err e
      end
  end.

End template.

(** ** The world outside main.go *)

(** What a decoded TOML file sets: the keys it holds, among the three the
    [toml] tags of [AppConfig] name. *)
Record TomlDoc : Type := {
  max_diff_tokens : option Z;
  prompt_path : option string;
  model_name : option string
}.

(** What a spawned process does: what it writes and the error of waiting
    for it (a failure to start or a non-zero exit status), if any. *)
Record ProcResult : Type := {
  procStdout : string;
  procStderr : string;
  procErr : option string
}.

Record World : Type := {
  lookPath : string -> bool;                    (* exec.LookPath finds it *)
  statOk : string -> bool;                      (* os.Stat succeeds *)
  readFile : string -> Result string;           (* os.ReadFile / os.Open and read *)
  userHomeDir : Result string;                  (* os.UserHomeDir *)
  getenv : string -> string;                    (* os.Getenv *)
  osArgs : list string;                         (* os.Args *)
  joinPath : list string -> string;             (* filepath.Join *)
  trimSpace : string -> string;                 (* strings.TrimSpace *)
  tomlDecodeFile : string -> Result TomlDoc;    (* toml.DecodeFile *)
  tokenizerGet : Result Codec;                  (* tokenizer.Get(Cl100kBase) *)
  templateParse : string -> Result (PromptData -> Result string);
                   (* text/template on what is not text and field actions:
                      Parse, then what Execute gives *)
  process : string -> list string -> string -> ProcResult
                   (* a command, its arguments and its standard input *)
}.

(** ** Output and the commands spawned *)

Record Invocation : Type := {
  cmdName : string;
  cmdArgs : list string;
  cmdStdin : string
}.

Record Output : Type := {
  stdout : string;
  stderr : string;
  spawned : list Invocation
}.

Definition emptyOutput : Output :=
  {| stdout := ""; stderr := ""; spawned := [] |}.

Definition IO (A : Type) : Type := Output -> Outcome A * Output.

Definition ret {A : Type} (a : A) : IO A := fun o => (Return a, o).

Definition bind {A B : Type} (m : IO A) (k : A -> IO B) : IO B :=
  fun o =>
    match m o with
    | (Return a, o') => k a o'
    | (Panic msg, o') => (Panic msg, o')
    | (Exit code, o') => (Exit code, o')
    end.

Notation "'let*' x ':=' m 'in' k" := (bind m (fun x => k))
  (at level 10, x pattern, m at level 100, k at level 200).

Definition lift {A : Type} (x : Outcome A) : IO A := fun o => (x, o).

(** [fmt.Printf] *)
Definition printOut (s : string) : IO unit :=
  fun o => (Return tt, {| stdout := stdout o ++ s; stderr := stderr o;
                          spawned := spawned o |}).

(** [fmt.Fprintf(os.Stderr, ...)] *)
Definition printErr (s : string) : IO unit :=
  fun o => (Return tt, {| stdout := stdout o; stderr := stderr o ++ s;
                          spawned := spawned o |}).

Definition osExit {A : Type} (code : Z) : IO A := fun o => (Exit code, o).

Definition spawn (w : World) (name : string) (args : list string)
  (stdin : string) : IO ProcResult :=
  fun o => (Return (process w name args stdin),
            {| stdout := stdout o; stderr := stderr o;
               spawned := (spawned o ++
                 [{| cmdName := name; cmdArgs := args; cmdStdin := stdin |}])%list |}).

(** [cmd.Run()] with no streams attached: only the error is seen. *)
Definition execRun (w : World) (name : string) (args : list string)
  : IO (option string) :=
  let* r := spawn w name args "" in ret (procErr r).

(** [cmd.Output()] *)
Definition execOutput (w : World) (name : string) (args : list string)
  : IO (Result string) :=
  let* r := spawn w name args "" in
  ret (match procErr r with
       | Some err => Err err
       | None => Ok (procStdout r)
       end).

(** [cmd.Run()] with [Stdin] a reader of [stdin], [Stdout = os.Stdout] and
    [Stderr = os.Stderr]: what the process writes goes straight to the
    program's own streams, whatever its exit status. *)
Definition execRunInherit (w : World) (name : string) (args : list string)
  (stdin : string) : IO (option string) :=
  let* r := spawn w name args stdin in
  let* _ := printOut (procStdout r) in
  let* _ := printErr (procStderr r) in
  ret (procErr r).

Definition red (s : string) : string :=
  ESC ++ "[0;31m" ++ s ++ ESC ++ "[0m" ++ LF.

(** ** The program *)

Definition fileExists (w : World) (path : string) : bool := statOk w path.

Definition commandExists (w : World) (cmd : string) : bool := lookPath w cmd.

Definition isGitRepo (w : World) : IO bool :=
  if statOk w ".git" then ret true
  else
    let* err := execRun w "git" ["rev-parse"; "--is-inside-work-tree"] in
    ret (match err with None => true | Some _ => false end).

Definition isJJRepo (w : World) : IO bool :=
  let* err := execRun w "jj" ["status"; "--quiet"] in
  ret (match err with None => true | Some _ => false end).

Definition getBranchName (w : World) (isGit : bool) : IO string :=
  let* r :=
    if isGit then execOutput w "git" ["rev-parse"; "--abbrev-ref"; "HEAD"]
    else execOutput w "jj"
           ["log"; "--no-graph"; "-T"; "local_bookmarks"; "--limit"; "1"] in
  ret (match r with
       | Err _ => ""
       | Ok output => trimSpace w output
       end).

(** [^([^#][^\s]+)\s+.*linguist-generated\s*=\s*true] *)
Definition re : regexp.regex :=
  regexp.seq
    [ regexp.BeginText;
      regexp.Group
        (regexp.seq [ regexp.One (regexp.Neg (regexp.Chars "#"));
                      regexp.Plus (regexp.Neg regexp.Space) ]);
      regexp.Plus regexp.Space;
      regexp.Star regexp.Dot;
      regexp.Lit "linguist-generated";
      regexp.Star regexp.Space;
      regexp.Lit "=";
      regexp.Star regexp.Space;
      regexp.Lit "true" ].

(** The body of the scan loop: [patterns] after one more [line]. *)
Definition scanStep (patterns : list string) (line : string) : list string :=
  let matches := regexp.FindStringSubmatch re line in
  if 1 <? len matches then (patterns ++ [nth 1 matches ""])%list
  else patterns.

Definition getGeneratedFilesFromGitattributes (w : World)
  : Result (list string) :=
  match readFile w ".gitattributes" with
  | Err err => Err err
  | Ok content =>
      let (lines, scanErr) := bufio.scanLines content in
      let patterns := fold_left scanStep lines [] in
      match scanErr with
      | Some err => Err err
      | None => Ok patterns
      end
  end.

Definition commonExcludes : list string :=
  [ "pnpm-lock.yaml"; "yarn.lock"; "package-lock.json" ].

(** The first half of [getDiff]: the value of [excludePatterns] when the
    command line is built. *)
Definition excludePatterns (w : World) (config : Config)
  : Result (list string) :=
  let excludePatterns : list string := [] in
  if IsGit config && fileExists w ".gitattributes" then
    match getGeneratedFilesFromGitattributes w with
    | Err err => Err ("failed to parse .gitattributes: " ++ err)
    | Ok generatedPatterns =>
        Ok ((excludePatterns ++ generatedPatterns) ++ commonExcludes)%list
    end
  else Ok (excludePatterns ++ commonExcludes)%list.

(** The command [getDiff] runs for a list of patterns. *)
Definition diffCommand (config : Config) (patterns : list string)
  : string * list string :=
  if IsGit config
  then ("git", ["diff"; "--cached"; "--"; "."]
                 ++ map (fun pattern => (":(exclude)" ++ pattern)%string) patterns)%list
  else ("jj", ["diff"; "--git"]
                ++ map (fun pattern => ("~" ++ pattern)%string) patterns)%list.

Definition getDiff (w : World) (config : Config) : IO (Result string) :=
  match excludePatterns w config with
  | Err err => ret (Err err)
  | Ok patterns =>
      let (name, args) := diffCommand config patterns in
      let* r := execOutput w name args in
      ret (match r with
           | Err err => Err ("failed to get diff: " ++ err)
           | Ok output => Ok output
           end)
  end.

(** [template.New("prompt").Parse(tmplContent)] followed by [Execute] into a
    buffer.  A parsed template is what executing it gives for each data. *)
Definition parseAndExecute (w : World) (tmplContent : string)
  (data : PromptData) : Result string :=
  let parsed : Result (PromptData -> Result string) :=
    match template.parse tmplContent with
    | Some ns => Ok (fun d => template.execute tmplContent ns d "")
    | None => templateParse w tmplContent
    end in
  match parsed with
  | Err err => Err ("failed to parse template: " ++ err)
  | Ok tmpl =>
      match tmpl data with
      | Err err => Err ("failed to execute template: " ++ err)
      | Ok s => Ok s
      end
  end.

Definition renderPromptTemplate (w : World) (templatePath : string)
  (data : PromptData) : IO (Result string) :=
  if negb (String.eqb templatePath "") && fileExists w templatePath then
    match readFile w templatePath with
    | Err err => ret (Err ("failed to read template file: " ++ err))
    | Ok content =>
        let* _ := printErr ("Using template from: " ++ templatePath ++ LF) in
        ret (parseAndExecute w content data)
    end
  else
    let* _ := printErr ("Using default embedded template" ++ LF) in
    ret (parseAndExecute w DefaultPromptTemplate data).

(** The error returned is [None] for Go's [nil]. *)
Definition generateCommitMessage (w : World) (config : Config)
  : IO (option string) :=
  let* branch := getBranchName w (IsGit config) in
  let promptData :=
    {| Branch := branch; DataUserContext := UserContext config |} in
  let* rendered := renderPromptTemplate w (PromptPath config) promptData in
  match rendered with
  | Err err => ret (Some ("failed to render prompt template: " ++ err))
  | Ok prompt =>
      let* collected := getDiff w config in
      match collected with
      | Err err => ret (Some ("failed to get diff: " ++ err))
      | Ok diff =>
          let* truncated :=
            lift (truncateDiff (tokenizerGet w) diff (MaxDiffSize config)) in
          let* truncatedDiff :=
            match truncated with
            | Err err =>
                let* _ := printErr ("Warning: Failed to tokenize diff: " ++ err
                                    ++ ". Using raw diff." ++ LF) in
                ret diff
            | Ok t => ret t
            end in
          let* args :=
            if negb (String.eqb (ModelName config) "") then
              let* _ := printErr ("Using model: " ++ ModelName config ++ LF) in
              ret ["-m"; ModelName config; "-s"; prompt]
            else
              let* _ := printErr ("Using default llm model" ++ LF) in
              ret ["-s"; prompt] in
          execRunInherit w "llm" args truncatedDiff
      end
  end.

(** [toml.DecodeFile(path, &config)]: the keys the file holds overwrite the
    fields, the others keep their value. *)
Definition decodeInto (doc : TomlDoc) (config : AppConfig) : AppConfig := {|
  MaxDiffTokens :=
    match max_diff_tokens doc with Some n => n | None => MaxDiffTokens config end;
  AppPromptPath :=
    match prompt_path doc with Some p => p | None => AppPromptPath config end;
  AppModelName :=
    match model_name doc with Some m => m | None => AppModelName config end
|}.

(** The loop over [configPaths]: the first file that exists is decoded and
    ends the loop.  The boolean is [configLoaded]. *)
Fixpoint loadFirst (w : World) (configPaths : list string) (config : AppConfig)
  : IO (Result (AppConfig * bool)) :=
  match configPaths with
  | [] => ret (Ok (config, false))
  | path :: paths =>
      if fileExists w path then
        match tomlDecodeFile w path with
        | Err err =>
            ret (Err ("error loading config from " ++ path ++ ": " ++ err))
        | Ok doc =>
            let* _ := printErr ("Loaded configuration from " ++ path ++ LF) in
            ret (Ok (decodeInto doc config, true))
        end
      else loadFirst w paths config
  end.

(** On an error the caller discards the configuration returned with it, so
    only the error is kept. *)
Definition loadConfig (w : World) : IO (Result AppConfig) :=
  let config := DefaultConfig in
  match userHomeDir w with
  | Err err => ret (Err ("could not determine home directory: " ++ err))
  | Ok homeDir =>
      let xdgConfigHome := getenv w "XDG_CONFIG_HOME" in
      let xdgConfigHome :=
        if String.eqb xdgConfigHome "" then joinPath w [homeDir; ".config"]
        else xdgConfigHome in
      let configPaths :=
        [ joinPath w [xdgConfigHome; "lazycommit"; "config.toml"];
          joinPath w [homeDir; ".lazycommit.toml"] ] in
      let* loaded := loadFirst w configPaths config in
      match loaded with
      | Err err => ret (Err err)
      | Ok (config, configLoaded) =>
          let* _ :=
            if configLoaded then ret tt
            else printErr ("No configuration file found, using defaults" ++ LF) in
          let envMaxTokens := getenv w "LAZYCOMMIT_MAX_TOKENS" in
          let* config :=
            if negb (String.eqb envMaxTokens "") then
              match strconv.Atoi envMaxTokens with
              | Some maxTokens =>
                  let* _ := printErr ("Using max tokens from environment: "
                                      ++ itoa maxTokens ++ LF) in
                  ret {| MaxDiffTokens := maxTokens;
                         AppPromptPath := AppPromptPath config;
                         AppModelName := AppModelName config |}
              | None => ret config
              end
            else ret config in
          let envPromptPath := getenv w "LAZYCOMMIT_TEMPLATE" in
          let* config :=
            if negb (String.eqb envPromptPath "") then
              let* _ := printErr ("Using template path from environment: "
                                  ++ envPromptPath ++ LF) in
              ret {| MaxDiffTokens := MaxDiffTokens config;
                     AppPromptPath := envPromptPath;
                     AppModelName := AppModelName config |}
            else ret config in
          let envModelName := getenv w "LAZYCOMMIT_MODEL" in
          let* config :=
            if negb (String.eqb envModelName "") then
              let* _ := printErr ("Using model from environment: "
                                  ++ envModelName ++ LF) in
              ret {| MaxDiffTokens := MaxDiffTokens config;
                     AppPromptPath := AppPromptPath config;
                     AppModelName := envModelName |}
            else ret config in
          ret (Ok config)
      end
  end.

(** The configuration [main] hands to [generateCommitMessage]. *)
Definition resolveConfig (w : World) (useGit : bool) : IO Config :=
  let userContext := if 1 <? len (osArgs w) then nth 1 (osArgs w) "" else "" in
  let* loaded := loadConfig w in
  let* appConfig :=
    match loaded with
    | Err err =>
        let* _ := printOut (red ("Warning: Error loading configuration: "
                                 ++ err ++ ". Using defaults.")) in
        ret DefaultConfig
    | Ok appConfig => ret appConfig
    end in
  ret {| MaxDiffSize := MaxDiffTokens appConfig;
         PromptPath := AppPromptPath appConfig;
         UserContext := userContext;
         IsGit := useGit;
         ModelName := AppModelName appConfig |}.

Definition main (w : World) : IO unit :=
  if negb (commandExists w "llm") then
    let* _ := printOut (red "Error: 'llm' command is not installed. Please install it and try again.") in
    osExit 1
  else
    let* isGit := isGitRepo w in
    let* isJJ := isJJRepo w in
    if negb isGit && negb isJJ then
      let* _ := printOut (red "Error: Neither Git nor Jujutsu repository detected.") in
      osExit 1
    else
      let useGit := isGit && negb isJJ in
      let* config := resolveConfig w useGit in
      let* _ :=
        if useGit then printErr ("Using Git for version control" ++ LF)
        else printErr ("Using Jujutsu for version control" ++ LF) in
      let* err := generateCommitMessage w config in
      match err with
      | Some e =>
          let* _ := printOut (red ("Error: " ++ e)) in
          osExit 1
      | None => ret tt
      end.

(** ** Worlds to run the program in *)

Definition lookup {A : Type} (k : string) (l : list (string * A)) : option A :=
  match find (fun kv => String.eqb (fst kv) k) l with
  | Some kv => Some (snd kv)
  | None => None
  end.

(** A small world: environment variables, readable files, TOML files (each
    with what decoding it gives), whether [jj status] succeeds, what the
    diff command and the [llm] command print and how they end.  The
    directory holds a [.git]. *)
Definition sampleWorld (env : list (string * string))
  (files : list (string * string)) (tomls : list (string * Result TomlDoc))
  (jj : bool) (diff : ProcResult) (llm : ProcResult) (codec : Result Codec)
  : World := {|
  lookPath := fun cmd => String.eqb cmd "llm";
  statOk := fun path =>
    String.eqb path ".git"
    || match lookup path files with Some _ => true | None => false end
    || match lookup path tomls with Some _ => true | None => false end;
  readFile := fun path =>
    match lookup path files with
    | Some content => Ok content
    | None => Err ("open " ++ path ++ ": no such file or directory")
    end;
  userHomeDir := Ok "/home/dev";
  getenv := fun name =>
    match lookup name env with Some v => v | None => "" end;
  osArgs := ["lazycommit"];
  joinPath := String.concat "/";
  trimSpace := template.trimBlanks;
  tomlDecodeFile := fun path =>
    match lookup path tomls with
    | Some r => r
    | None => Err ("open " ++ path ++ ": no such file or directory")
    end;
  tokenizerGet := codec;
  templateParse := fun _ => Err "template: prompt:1: unexpected action";
  process := fun name args _ =>
    if String.eqb name "llm" then llm
    else if match args with a :: _ => String.eqb a "diff" | [] => false end
    then diff
    else if String.eqb name "jj" && negb jj
    then {| procStdout := ""; procStderr := ""; procErr := Some "exit status 1" |}
    else {| procStdout := "main" ++ LF; procStderr := ""; procErr := None |}
|}.

Definition succeeds (out : string) : ProcResult :=
  {| procStdout := out; procStderr := ""; procErr := None |}.

Definition fails (out : string) (err : string) : ProcResult :=
  {| procStdout := out; procStderr := ""; procErr := Some err |}.

Definition sampleConfig (isGit : bool) (maxTokens : Z) : Config := {|
  MaxDiffSize := maxTokens;
  PromptPath := "";
  UserContext := "";
  IsGit := isGit;
  ModelName := ""
|}.

(** ** What the properties are stated with *)

Definition vcsName (isGit : bool) : string := if isGit then "git" else "jj".

(** The patterns one line of [.gitattributes] adds. *)
Definition contribution (line : string) : list string := scanStep [] line.

(** The embedded default template with the two fields filled in. *)
Definition renderedDefault (data : PromptData) : string :=
  String.concat LF [
    "You are an expert programmer helping to write concise, informative git commit messages. ";
    "The user will provide you with a git diff, and you will respond with ONLY a commit message.";
    "";
    "Here are the characteristics of a good commit message:";
    "- Start with a short summary line (50-72 characters)";
    "- Use the imperative mood (" ++ DQUOTE ++ "Add feature" ++ DQUOTE
       ++ " not " ++ DQUOTE ++ "Added feature" ++ DQUOTE ++ ")";
    "- Optionally include a more detailed explanatory paragraph after the summary, separated by a blank line";
    "- Explain WHAT changed and WHY, but not HOW (that's in the diff)";
    "- Reference relevant issue numbers if applicable (e.g. " ++ DQUOTE
       ++ "Fixes #123" ++ DQUOTE ++ ")";
    "";
    "Current branch: " ++ Branch data;
    "User context: " ++ DataUserContext data;
    "";
    "Respond with ONLY the commit message, no additional explanations, introductions, or notes."
  ].

(** The two places a configuration file is looked for, in order. *)
Definition configPathsOf (w : World) (homeDir : string) : list string :=
  let xdg := getenv w "XDG_CONFIG_HOME" in
  let xdg := if String.eqb xdg "" then joinPath w [homeDir; ".config"] else xdg in
  [ joinPath w [xdg; "lazycommit"; "config.toml"];
    joinPath w [homeDir; ".lazycommit.toml"] ].

(** The precedence rule for the token budget, in words: loading fails (no
    home directory, or the first configuration file that exists does not
    decode) and the default stands whatever the environment says; otherwise
    the environment variable when it holds an integer; otherwise the key of
    the first configuration file that exists; otherwise the default. *)
Definition budgetByPrecedence (w : World) : Z :=
  match userHomeDir w with
  | Err _ => 12500
  | Ok homeDir =>
      let fromEnv (fallback : Z) : Z :=
        match strconv.Atoi (getenv w "LAZYCOMMIT_MAX_TOKENS") with
        | Some n => n
        | None => fallback
        end in
      match find (fileExists w) (configPathsOf w homeDir) with
      | None => fromEnv 12500
      | Some path =>
          match tomlDecodeFile w path with
          | Err _ => 12500
          | Ok doc =>
              fromEnv (match max_diff_tokens doc with
                       | Some m => m
                       | None => 12500
                       end)
          end
      end
  end.

(** A step that returns, writes nothing to standard output and spawns the
    commands [sp]. *)
Definition quiet {A : Type} (m : IO A) (o : Output) (a : A)
  (sp : list Invocation) : Prop :=
  exists o', m o = (Return a, o')
             /\ stdout o' = stdout o /\ spawned o' = (spawned o ++ sp)%list.

Definition llmInvocation (args : list string) (stdin : string) : Invocation :=
  {| cmdName := "llm"; cmdArgs := args; cmdStdin := stdin |}.

(** A string of white space only, as [\s] sees it. *)
Definition allSpace (s : string) : bool :=
  forallb (fun c => regexp.isSpace (byteZ c)) (list_ascii_of_string s).

(** The attribute the pattern looks for: [linguist-generated], an equals
    sign and [true], with any white space around the equals sign. *)
Definition hasGeneratedAttr (line : string) : Prop :=
  exists pre ws1 ws2 post,
    line = pre ++ "linguist-generated" ++ ws1 ++ "=" ++ ws2 ++ "true" ++ post
    /\ allSpace ws1 = true /\ allSpace ws2 = true.

Import regexp.

(** A rune below 128 was decoded from the one byte of that value. *)
Definition plain (it : item) : Prop :=
  rune it < 128 -> exists c, raw it = String c "" /\ byteZ c = rune it.

(** The runes of an ASCII text. *)
Definition codes (s : string) : list Z := map byteZ (list_ascii_of_string s).

Definition asc (c : ascii) : item := {| rune := byteZ c; raw := String c "" |}.

Definition isAscii (s : string) : bool :=
  forallb (fun a => byteZ a <? 128) (list_ascii_of_string s).

Definition noSpace (s : string) : bool :=
  forallb (fun a => negb (isSpace (byteZ a))) (list_ascii_of_string s).

Definition isLF (c : ascii) : bool := Ascii.eqb c (ascii_of_nat 10).

(** A line as a text file holds it: no newline inside, no carriage return
    at the end, shorter than the scanner's buffer. *)
Definition plainLine (l : string) : Prop :=
  forallb (fun c => negb (isLF c)) (list_ascii_of_string l) = true
  /\ bufio.dropCR (rev (list_ascii_of_string l)) = rev (list_ascii_of_string l)
  /\ Z.of_nat (String.length l) < bufio.MaxScanTokenSize.

(** The file made of the given lines, each ended by a newline. *)
Definition unlines (lines : list string) : string :=
  fold_right (fun l acc => l ++ LF ++ acc) "" lines.

(** A pattern without capturing group. *)
Fixpoint groupFree (r : regex) : bool :=
  match r with
  | Cat a b => groupFree a && groupFree b
  | Group _ => false
  | _ => true
  end.

(** What one step of the decoder yields: the bytes of a rune start with an
    ASCII byte, which is then the rune and stands alone, or hold no ASCII
    byte at all. *)
Definition highBytes (s : string) : bool :=
  forallb (fun b => 128 <=? byteZ b) (list_ascii_of_string s).

Definition decoded (it : item) : Prop :=
  exists c tl,
    raw it = String c tl
    /\ ((byteZ c < 128 /\ rune it = byteZ c /\ tl = "")
        \/ (128 <= byteZ c /\ highBytes tl = true)).

(** The characters of a text, as the matcher counts them: one for each
    UTF-8 sequence, one for each byte that belongs to none. *)
Definition runeCount (s : string) : nat := List.length (runes s).

Definition noNewline (s : string) : bool :=
  forallb (fun c => negb (isLF c)) (list_ascii_of_string s).

(** What follows the path and one white space on a line that sets the
    attribute: anything without a line break, then [linguist-generated], an
    equals sign and [true] with any white space around the equals sign, then
    anything. *)
Definition setsGenerated (attrs : string) : Prop :=
  exists pre ws1 ws2 post,
    attrs = pre ++ "linguist-generated" ++ ws1 ++ "=" ++ ws2 ++ "true" ++ post
    /\ noNewline pre = true /\ allSpace ws1 = true /\ allSpace ws2 = true.

(** The pattern [r], started at thread [t], has a match that leaves [tl]
    unread. *)
Definition reaches (r : regex) (t : thread) (tl : list item) : Prop :=
  exists t', In t' (run r t) /\ rest t' = tl.

Definition TAB : string := chr 9.

(** The two bytes of a Latin small letter e with acute, U+00E9. *)
Definition eAcute : string := chr 195 ++ chr 169.

(** ** Particular worlds *)

Definition brokenConfigWorld : World :=
  sampleWorld [("LAZYCOMMIT_MAX_TOKENS", "5000")] []
    [("/home/dev/.config/lazycommit/config.toml",
      Err "toml: line 1: expected key separator")]
    false (succeeds "") (succeeds "") (Ok byteCodec).

Definition wordyEnvWorld : World :=
  sampleWorld [("LAZYCOMMIT_MAX_TOKENS", "12k")] []
    [("/home/dev/.config/lazycommit/config.toml",
      Ok {| max_diff_tokens := Some 800; prompt_path := None;
            model_name := None |})]
    false (succeeds "") (succeeds "") (Ok byteCodec).

Definition noTokenizerWorld : World :=
  sampleWorld [] [] [] false
    (succeeds "diff --git a/main.go b/main.go") (succeeds "Fix parser")
    (Err "unknown encoding").

Definition failingLlmWorld : World :=
  sampleWorld [] [] [] false
    (succeeds "diff --git a/main.go b/main.go")
    (fails "Add parser for" "exit status 1") (Ok byteCodec).

Definition bothReposWorld : World :=
  sampleWorld [] [] [] true
    (succeeds "diff --git a/main.go b/main.go") (succeeds "Fix parser")
    (Ok byteCodec).

Definition attributesWorld (content : string) : World :=
  sampleWorld [] [(".gitattributes", content)] [] false
    (succeeds "") (succeeds "") (Ok byteCodec).

Definition lockFileMarkedWorld : World :=
  sampleWorld []
    [(".gitattributes",
      unlines ["dist/app.js linguist-generated=true";
               "yarn.lock linguist-generated=true"])]
    [] false (succeeds "") (succeeds "") (Ok byteCodec).

(** A budget of zero from the environment, and a diff of two tokens. *)
Definition zeroBudgetWorld : World :=
  sampleWorld [("LAZYCOMMIT_MAX_TOKENS", "0")] [] [] false
    (succeeds "hello world") (succeeds "Fix parser") (Ok cl100kSample).

Ltac io_unfold :=
  unfold bind, ret, lift, printErr, printOut, osExit, execRun, execOutput,
    execRunInherit, spawn in *.

(** ** What the further properties are stated with *)

(** What the world answers to a command. *)
Definition resultOf (w : World) (i : Invocation) : ProcResult :=
  process w (cmdName i) (cmdArgs i) (cmdStdin i).

(** The command [getBranchName] runs. *)
Definition branchCommand (isGit : bool) : Invocation :=
  if isGit
  then {| cmdName := "git"; cmdArgs := ["rev-parse"; "--abbrev-ref"; "HEAD"];
          cmdStdin := "" |}
  else {| cmdName := "jj";
          cmdArgs := ["log"; "--no-graph"; "-T"; "local_bookmarks";
                      "--limit"; "1"];
          cmdStdin := "" |}.

(** The branch name the prompt is given. *)
Definition branchOf (w : World) (isGit : bool) : string :=
  match procErr (resultOf w (branchCommand isGit)) with
  | Some _ => ""
  | None => trimSpace w (procStdout (resultOf w (branchCommand isGit)))
  end.

(** The command [getDiff] runs for a list of patterns. *)
Definition diffInvocation (config : Config) (patterns : list string)
  : Invocation :=
  {| cmdName := fst (diffCommand config patterns);
     cmdArgs := snd (diffCommand config patterns);
     cmdStdin := "" |}.

Definition gitProbe : Invocation :=
  {| cmdName := "git"; cmdArgs := ["rev-parse"; "--is-inside-work-tree"];
     cmdStdin := "" |}.

Definition jjProbe : Invocation :=
  {| cmdName := "jj"; cmdArgs := ["status"; "--quiet"]; cmdStdin := "" |}.

(** [o] with more written and more spawned. *)
Definition after (o : Output) (out err : string) (sp : list Invocation)
  : Output :=
  {| stdout := stdout o ++ out; stderr := stderr o ++ err;
     spawned := (spawned o ++ sp)%list |}.

Definition brokenTemplateWorld : World :=
  sampleWorld [] [("/home/dev/prompt.txt", "On {{.Brunch}}: {{.UserContext}}")]
    [] false (succeeds "diff --git a/main.go b/main.go") (succeeds "Fix parser")
    (Ok byteCodec).

Definition templateConfig (path : string) : Config := {|
  MaxDiffSize := 100;
  PromptPath := path;
  UserContext := "";
  IsGit := true;
  ModelName := ""
|}.

Definition failingDiffWorld : World :=
  sampleWorld [] [] [] false (fails "" "exit status 128")
    (succeeds "Fix parser") (Ok byteCodec).

Definition unreadableAttributesWorld : World := {|
  lookPath := fun cmd => String.eqb cmd "llm";
  statOk := fun path => String.eqb path ".git" || String.eqb path ".gitattributes";
  readFile := fun path => Err ("open " ++ path ++ ": permission denied");
  userHomeDir := Ok "/home/dev";
  getenv := fun _ => "";
  osArgs := ["lazycommit"];
  joinPath := String.concat "/";
  trimSpace := template.trimBlanks;
  tomlDecodeFile := fun path =>
    Err ("open " ++ path ++ ": no such file or directory");
  tokenizerGet := Ok byteCodec;
  templateParse := fun _ => Err "template: prompt:1: unexpected action";
  process := fun _ _ _ => succeeds ""
|}.

Definition noRepoWorld : World := {|
  lookPath := fun cmd => String.eqb cmd "llm";
  statOk := fun _ => false;
  readFile := fun path => Err ("open " ++ path ++ ": no such file or directory");
  userHomeDir := Ok "/home/dev";
  getenv := fun _ => "";
  osArgs := ["lazycommit"];
  joinPath := String.concat "/";
  trimSpace := template.trimBlanks;
  tomlDecodeFile := fun path =>
    Err ("open " ++ path ++ ": no such file or directory");
  tokenizerGet := Ok byteCodec;
  templateParse := fun _ => Err "template: prompt:1: unexpected action";
  process := fun _ _ _ => fails "" "exit status 1"
|}.

Definition negativeBudgetWorld : World :=
  sampleWorld [("LAZYCOMMIT_MAX_TOKENS", "-1")] [] [] false
    (succeeds "diff --git a/main.go b/main.go") (succeeds "Fix parser")
    (Ok byteCodec).

(** The file stage of [loadConfig]: the defaults, overwritten by the first
    configuration file that exists. *)
Definition loadedFile (w : World) : Result AppConfig :=
  match userHomeDir w with
  | Err err => Err ("could not determine home directory: " ++ err)
  | Ok homeDir =>
      match find (fileExists w) (configPathsOf w homeDir) with
      | None => Ok DefaultConfig
      | Some path =>
          match tomlDecodeFile w path with
          | Err err =>
              Err ("error loading config from " ++ path ++ ": " ++ err)
          | Ok doc => Ok (decodeInto doc DefaultConfig)
          end
      end
  end.

(** An environment variable when it is set to something, the fallback
    otherwise. *)
Definition orEnv (w : World) (name fallback : string) : string :=
  if String.eqb (getenv w name) "" then fallback else getenv w name.

Definition overridesWorld : World :=
  sampleWorld [("LAZYCOMMIT_MODEL", "gpt-4o-mini")] []
    [("/home/dev/.lazycommit.toml",
      Ok {| max_diff_tokens := None;
            prompt_path := Some "/home/dev/prompt.txt";
            model_name := Some "claude-3.7-sonnet" |})]
    false (succeeds "") (succeeds "") (Ok byteCodec).

Definition twoConfigFilesWorld : World :=
  sampleWorld [("LAZYCOMMIT_MODEL", "gpt-4o-mini")] []
    [("/home/dev/.config/lazycommit/config.toml",
      Err "toml: line 3: expected value");
     ("/home/dev/.lazycommit.toml",
      Ok {| max_diff_tokens := Some 800; prompt_path := None;
            model_name := None |})]
    false (succeeds "") (succeeds "") (Ok byteCodec).

(** The arguments [llm] is given. *)
Definition llmArgs (config : Config) (prompt : string) : list string :=
  if String.eqb (ModelName config) "" then ["-s"; prompt]
  else ["-m"; ModelName config; "-s"; prompt].

(** The line logged before [llm] is started. *)
Definition modelLine (config : Config) : string :=
  if String.eqb (ModelName config) "" then "Using default llm model" ++ LF
  else "Using model: " ++ ModelName config ++ LF.

Definition modelConfig : Config := {|
  MaxDiffSize := 4;
  PromptPath := "";
  UserContext := "";
  IsGit := true;
  ModelName := "gpt-4o-mini"
|}.

(** [s] written [2 ^ n] times. *)
Fixpoint doubled (n : nat) (s : string) : string :=
  match n with
  | O => s
  | S n' => doubled n' (s ++ s)
  end.

(** A [.gitattributes] whose second line is 64 KiB long. *)
Definition longLineWorld : World :=
  attributesWorld
    (unlines ["dist/app.js linguist-generated=true"] ++ doubled 16 "x" ++ "").

Definition CRLF : string := String CR LF.

(** The file made of the given lines, each ended by a carriage return and a
    newline. *)
Definition unlinesCRLF (lines : list string) : string :=
  fold_right (fun l acc => l ++ CRLF ++ acc) "" lines.

(** A line of such a file: no newline inside, and room for the carriage
    return in the scanner's buffer. *)
Definition crlfLine (l : string) : Prop :=
  forallb (fun c => negb (isLF c)) (list_ascii_of_string l) = true
  /\ Z.of_nat (String.length l) + 1 < bufio.MaxScanTokenSize.

Definition plainTemplateWorld : World :=
  sampleWorld [] [("/home/dev/prompt.txt", "Write a commit message. Be brief.")]
    [] false (succeeds "") (succeeds "") (Ok byteCodec).

(** A template spelled out: a text, then field actions each followed by a
    text. *)
Fixpoint spell (l : list (string * string)) : string :=
  match l with
  | [] => ""
  | (f, t) :: l' => "{{." ++ f ++ "}}" ++ t ++ spell l'
  end.

(** The same with each action replaced by the value of its field; the first
    field the data does not have is the error of executing its node.
    [text] is the whole template and [off] the offset in it of what is
    spelled: an action is five bytes and its name, the dot is its third
    byte. *)
Fixpoint fill (text : string) (off : nat) (data : PromptData)
  (l : list (string * string)) : Result string :=
  match l with
  | [] => Ok ""
  | (f, t) :: l' =>
      match template.field text (off + 2) data f with
      | Err e => Err e
      | Ok v =>
          match fill text (off + 5 + String.length f + String.length t)
                  data l' with
          | Ok r => Ok (v ++ t ++ r)
          | Err e => Err e
          end
      end
  end.

(** A text that cannot be taken for the start of an action: no [{{] in it,
    no [{] at its end. *)
Definition braceSafe (t : string) : bool := negb (Contains (t ++ "{") "{{").

(** A field name: a letter or underscore, then letters, digits and
    underscores. *)
Definition isIdent (f : string) : bool :=
  match f with
  | String c n =>
      template.isLetter c
      && forallb template.isAlphaNumeric (list_ascii_of_string n)
  | EmptyString => false
  end.

Definition segmentOk (ft : string * string) : bool :=
  isIdent (fst ft) && braceSafe (snd ft).

Definition customTemplateWorld : World :=
  sampleWorld []
    [("/home/dev/prompt.txt",
      "Branch " ++ spell [("Branch", ". Context: "); ("UserContext", ".")])]
    [] false (succeeds "") (succeeds "") (Ok byteCodec).

(** A template of three lines whose last names a field the data does not
    have. *)
Definition misspeltTemplateWorld : World :=
  sampleWorld []
    [("/home/dev/prompt.txt",
      ("Write a commit message." ++ LF ++ "Branch: ")
      ++ spell [("Branch", LF ++ "Note: "); ("Context", ".")])]
    [] false (succeeds "") (succeeds "") (Ok byteCodec).

(** The first command-line argument, or nothing. *)
Definition userContextOf (w : World) : string :=
  if 1 <? len (osArgs w) then nth 1 (osArgs w) "" else "".

Definition gitDiffDefault : Invocation :=
  {| cmdName := "git";
     cmdArgs := ["diff"; "--cached"; "--"; ".";
                 ":(exclude)pnpm-lock.yaml"; ":(exclude)yarn.lock";
                 ":(exclude)package-lock.json"];
     cmdStdin := "" |}.

Definition plainGitWorld : World :=
  sampleWorld [] [] [] false
    (succeeds "diff --git a/main.go b/main.go") (succeeds "Fix parser")
    (Ok byteCodec).

(** * Properties *)

(** ** Strings *)

Lemma append_nil_r (s : string) : s ++ "" = s.
Proof. induction s as [|c s IH]; simpl; [reflexivity | now rewrite IH]. Qed.

Lemma append_assoc (a b c : string) : (a ++ b) ++ c = a ++ (b ++ c).
Proof. induction a as [|x a IH]; simpl; [reflexivity | now rewrite IH]. Qed.

Lemma contains_suffix (a b : string) : contains (a ++ b) b.
Proof. exists a, "". now rewrite append_nil_r. Qed.

Lemma contains_app_l (s t sub : string) :
  contains s sub -> contains (s ++ t) sub.
Proof.
  intros (pre & post & ->). exists pre, (post ++ t).
  now rewrite !append_assoc.
Qed.

(** ** truncateDiff *)

Section Truncate.

Variable enc : Codec.
Variable diff : string.
Variable tokens : list N.
Hypothesis encoded : Encode enc diff = Ok tokens.

(** C4: a diff whose token count is at most [maxTokens] is returned
    unchanged. *)
Theorem truncateDiff_within_budget_is_identity (maxTokens : Z) :
  len tokens <= maxTokens ->
  truncateDiff (Ok enc) diff maxTokens = Return (Ok diff).
Proof.
  intro Hle. unfold truncateDiff. rewrite encoded.
  apply Z.leb_le in Hle. now rewrite Hle.
Qed.

Lemma sliceTo_in_range (maxTokens : Z) :
  0 <= maxTokens -> maxTokens < len tokens ->
  sliceTo tokens maxTokens = Return (firstn (Z.to_nat maxTokens) tokens).
Proof.
  intros H0 Hlt. unfold sliceTo.
  replace (maxTokens <? 0) with false by (symmetry; apply Z.ltb_ge; lia).
  replace (len tokens <? maxTokens) with false
    by (symmetry; apply Z.ltb_ge; lia).
  reflexivity.
Qed.

Lemma len_firstn (maxTokens : Z) :
  0 <= maxTokens -> maxTokens < len tokens ->
  len (firstn (Z.to_nat maxTokens) tokens) = maxTokens.
Proof.
  unfold len. intros H0 Hlt. rewrite length_firstn. lia.
Qed.

(** C1, as the code has it: over budget, the first [maxTokens] tokens are
    kept, decoded, and the notice naming [maxTokens] is appended after the
    cut; the budget bounds the tokens kept, the notice comes on top. *)
Theorem truncateDiff_over_budget (maxTokens : Z) (kept : string) :
  0 <= maxTokens ->
  maxTokens < len tokens ->
  Decode enc (firstn (Z.to_nat maxTokens) tokens) = Ok kept ->
  truncateDiff (Ok enc) diff maxTokens
    = Return (Ok (kept ++ truncationNotice maxTokens))
  /\ len (firstn (Z.to_nat maxTokens) tokens) = maxTokens
  /\ contains (kept ++ truncationNotice maxTokens) (truncationNotice maxTokens)
  /\ contains (truncationNotice maxTokens)
       ("showing first " ++ itoa maxTokens ++ " tokens").
Proof.
  intros H0 Hlt Hdec. repeat split.
  - unfold truncateDiff. rewrite encoded.
    replace (len tokens <=? maxTokens) with false
      by (symmetry; apply Z.leb_gt; lia).
    rewrite sliceTo_in_range by assumption. now rewrite Hdec.
  - now apply len_firstn.
  - apply contains_suffix.
  - exists (LF ++ LF ++ "[Diff truncated due to size - "), "]".
    unfold truncationNotice. rewrite !append_assoc. reflexivity.
Qed.

(** C9: with at least one token and a negative [maxTokens] the size check
    fails, the slice expression is out of bounds and the call panics; with
    [maxTokens >= 0] the call returns (a text or an error). *)
Theorem truncateDiff_panics_iff_negative (maxTokens : Z) :
  1 <= len tokens ->
  (maxTokens < 0 ->
   truncateDiff (Ok enc) diff maxTokens
     = Panic ("runtime error: slice bounds out of range [:"
              ++ itoa maxTokens ++ "]"))
  /\ (0 <= maxTokens ->
      exists r, truncateDiff (Ok enc) diff maxTokens = Return r).
Proof.
  intro H1. split; intro Hm; unfold truncateDiff; rewrite encoded.
  - replace (len tokens <=? maxTokens) with false
      by (symmetry; apply Z.leb_gt; lia).
    unfold sliceTo.
    replace (maxTokens <? 0) with true by (symmetry; apply Z.ltb_lt; lia).
    reflexivity.
  - destruct (len tokens <=? maxTokens) eqn:Hc; [eauto|].
    apply Z.leb_gt in Hc. rewrite sliceTo_in_range by lia.
    destruct (Decode enc _); eauto.
Qed.

End Truncate.

(** Without any assumption on the tokenizer: a non-negative [maxTokens]
    never panics. *)
Lemma truncateDiff_total (get : Result Codec) (diff : string) (maxTokens : Z) :
  0 <= maxTokens -> exists r, truncateDiff get diff maxTokens = Return r.
Proof.
  intro H0. destruct get as [enc|e]; [|simpl; eauto].
  destruct (Encode enc diff) as [tokens|e] eqn:He.
  - destruct (Z.le_gt_cases (len tokens) maxTokens) as [Hle|Hgt].
    + unfold truncateDiff. rewrite He.
      apply Z.leb_le in Hle. rewrite Hle. eauto.
    + unfold truncateDiff. rewrite He.
      replace (len tokens <=? maxTokens) with false
        by (symmetry; apply Z.leb_gt; lia).
      rewrite sliceTo_in_range by lia. destruct (Decode enc _); eauto.
  - unfold truncateDiff. rewrite He. eauto.
Qed.

Lemma truncateDiff_within_budget_is_identity_witness :
  Encode byteCodec "abc" = Ok [97; 98; 99]%N
  /\ len [97; 98; 99]%N <= 5
  /\ truncateDiff (Ok byteCodec) "abc" 5 = Return (Ok "abc").
Proof.
  split; [reflexivity|]. split; [unfold len; simpl; lia|].
  apply (truncateDiff_within_budget_is_identity byteCodec "abc"
           [97; 98; 99]%N eq_refl 5).
  unfold len; simpl; lia.
Defined.

Lemma truncateDiff_over_budget_witness :
  truncateDiff (Ok cl100kSample) "hello world" 1
    = Return (Ok ("hello" ++ truncationNotice 1))
  /\ len (firstn (Z.to_nat 1) [15339; 1917]%N) = 1
  /\ contains ("hello" ++ truncationNotice 1) (truncationNotice 1)
  /\ contains (truncationNotice 1) ("showing first " ++ itoa 1 ++ " tokens").
Proof.
  apply (truncateDiff_over_budget cl100kSample "hello world"
           [15339; 1917]%N eq_refl 1 "hello").
  - lia.
  - unfold len; simpl; lia.
  - reflexivity.
Defined.

Lemma truncateDiff_panics_iff_negative_witness :
  truncateDiff (Ok byteCodec) "abc" (-1)
    = Panic "runtime error: slice bounds out of range [:-1]"
  /\ exists r, truncateDiff (Ok byteCodec) "abc" 2 = Return r.
Proof.
  assert (H1 : 1 <= len [97; 98; 99]%N) by (unfold len; simpl; lia).
  split.
  - apply (proj1 (truncateDiff_panics_iff_negative byteCodec "abc"
                    [97; 98; 99]%N eq_refl (-1) H1)). lia.
  - apply (proj2 (truncateDiff_panics_iff_negative byteCodec "abc"
                    [97; 98; 99]%N eq_refl 2 H1)). lia.
Defined.

(** At a budget of zero every diff of at least one token is over budget, and
    what is returned is what no token decodes to, followed by the notice:
    a text that is not empty.  This holds for every codec, the one of the
    program included. *)
Lemma truncateDiff_zero_budget_returns_notice (enc : Codec) (diff : string)
  (tokens : list N) (out : string) :
  Encode enc diff = Ok tokens ->
  0 < len tokens ->
  truncateDiff (Ok enc) diff 0 = Return (Ok out) ->
  (exists kept, Decode enc [] = Ok kept /\ out = kept ++ truncationNotice 0)
  /\ out <> "".
Proof.
  intros Henc Hpos. unfold truncateDiff. rewrite Henc.
  replace (len tokens <=? 0) with false by (symmetry; apply Z.leb_gt; lia).
  unfold sliceTo.
  replace (len tokens <? 0) with false by (symmetry; apply Z.ltb_ge; lia).
  cbn [Z.ltb Z.compare orb Z.to_nat firstn].
  destruct (Decode enc []) as [kept|e]; [|discriminate].
  intro H. injection H as <-. split; [now exists kept|].
  destruct kept; discriminate.
Qed.

(** C1 as the specification words it fails.  With a budget of zero the text
    [hello world], two tokens of Cl100kBase, comes back as the notice alone,
    which is not empty; and whatever the diff of at least one token, a
    tokenizer that gives no token to the empty text only (as Cl100kBase
    does: every byte of a text belongs to one of its tokens) never
    re-encodes the text returned within the budget. *)
Lemma truncateDiff_result_exceeds_budget :
  truncateDiff (Ok cl100kSample) "hello world" 0
    = Return (Ok (truncationNotice 0))
  /\ truncationNotice 0 <> ""
  /\ ~ (exists (enc : Codec) (diff out : string) (tokens toks : list N),
          (forall s, Encode enc s = Ok [] -> s = "")
          /\ Encode enc diff = Ok tokens
          /\ 0 < len tokens
          /\ truncateDiff (Ok enc) diff 0 = Return (Ok out)
          /\ Encode enc out = Ok toks
          /\ len toks <= 0).
Proof.
  split; [reflexivity|]. split; [discriminate|].
  intros (enc & diff & out & tokens & toks & Hempty & Henc & Hpos & Hrun
          & Hout & Hlen).
  destruct (truncateDiff_zero_budget_returns_notice enc diff tokens out
              Henc Hpos Hrun) as (_ & Hne).
  destruct toks as [|t toks]; [|unfold len in Hlen; simpl in Hlen; lia].
  now apply Hne, Hempty.
Qed.

(** A budget of zero is one the program can be given: with
    [LAZYCOMMIT_MAX_TOKENS=0] and the diff [hello world], [llm] is handed
    the notice and nothing of the diff. *)
Lemma zero_budget_run :
  exists o',
    main zeroBudgetWorld emptyOutput = (Return tt, o')
    /\ map cmdName (spawned o') = ["jj"; "git"; "git"; "llm"]
    /\ map cmdStdin (spawned o') = [""; ""; ""; truncationNotice 0].
Proof. eexists. split; [vm_compute; reflexivity|]. split; reflexivity. Qed.

(** ** Running the program: what each step leaves on the streams *)

Lemma loadFirst_run (w : World) (paths : list string) (config : AppConfig)
  (o : Output) :
  quiet (loadFirst w paths config) o
    (match find (fileExists w) paths with
     | None => Ok (config, false)
     | Some path =>
         match tomlDecodeFile w path with
         | Err err => Err ("error loading config from " ++ path ++ ": " ++ err)
         | Ok doc => Ok (decodeInto doc config, true)
         end
     end) [].
Proof.
  unfold quiet. induction paths as [|path paths IH]; simpl.
  - eexists; repeat split. simpl. now rewrite app_nil_r.
  - destruct (fileExists w path); [|exact IH].
    destruct (tomlDecodeFile w path); io_unfold; simpl;
      eexists; repeat split; simpl; now rewrite app_nil_r.
Qed.

Lemma atoi_empty : strconv.Atoi "" = None.
Proof. reflexivity. Qed.

Lemma loadConfig_run (w : World) (o : Output) :
  exists r, quiet (loadConfig w) o r []
    /\ match r with
       | Ok config => MaxDiffTokens config = budgetByPrecedence w
       | Err _ => budgetByPrecedence w = 12500
       end.
Proof.
  unfold loadConfig, budgetByPrecedence, quiet.
  destruct (userHomeDir w) as [homeDir|e].
  2:{ eexists; split; [eexists; repeat split; simpl; now rewrite app_nil_r|].
      reflexivity. }
  fold (configPathsOf w homeDir).
  destruct (loadFirst_run w (configPathsOf w homeDir) DefaultConfig o)
    as (o1 & Hrun & Hout & Hsp).
  unfold bind at 1. rewrite Hrun.
  destruct (find (fileExists w) (configPathsOf w homeDir)) as [path|].
  - destruct (tomlDecodeFile w path) as [doc|e].
    + destruct (String.eqb (getenv w "LAZYCOMMIT_MAX_TOKENS") "") eqn:Henv.
      * apply String.eqb_eq in Henv. rewrite Henv, atoi_empty.
        destruct (String.eqb (getenv w "LAZYCOMMIT_TEMPLATE") "");
          destruct (String.eqb (getenv w "LAZYCOMMIT_MODEL") "");
          io_unfold; simpl;
          (eexists; split; [eexists; repeat split; simpl; eassumption|]);
          simpl; reflexivity.
      * destruct (strconv.Atoi (getenv w "LAZYCOMMIT_MAX_TOKENS"));
          destruct (String.eqb (getenv w "LAZYCOMMIT_TEMPLATE") "");
          destruct (String.eqb (getenv w "LAZYCOMMIT_MODEL") "");
          io_unfold; simpl;
          (eexists; split; [eexists; repeat split; simpl; eassumption|]);
          simpl; reflexivity.
    + io_unfold. eexists; split; [eexists; repeat split; eassumption|].
      reflexivity.
  - destruct (String.eqb (getenv w "LAZYCOMMIT_MAX_TOKENS") "") eqn:Henv.
    + apply String.eqb_eq in Henv. rewrite Henv, atoi_empty.
      destruct (String.eqb (getenv w "LAZYCOMMIT_TEMPLATE") "");
        destruct (String.eqb (getenv w "LAZYCOMMIT_MODEL") "");
        io_unfold; simpl;
        (eexists; split; [eexists; repeat split; simpl; eassumption|]);
        simpl; reflexivity.
    + destruct (strconv.Atoi (getenv w "LAZYCOMMIT_MAX_TOKENS"));
        destruct (String.eqb (getenv w "LAZYCOMMIT_TEMPLATE") "");
        destruct (String.eqb (getenv w "LAZYCOMMIT_MODEL") "");
        io_unfold; simpl;
        (eexists; split; [eexists; repeat split; simpl; eassumption|]);
        simpl; reflexivity.
Qed.

(** ** Configuration *)

Lemma resolveConfig_run (w : World) (useGit : bool) (o : Output) :
  exists config o',
    resolveConfig w useGit o = (Return config, o')
    /\ MaxDiffSize config = budgetByPrecedence w
    /\ IsGit config = useGit
    /\ spawned o' = spawned o.
Proof.
  unfold resolveConfig.
  destruct (loadConfig_run w o) as (r & (o1 & Hrun & Hout & Hsp) & Hr).
  unfold bind at 1. rewrite Hrun. rewrite app_nil_r in Hsp.
  destruct r as [appConfig|e]; io_unfold; simpl;
    do 2 eexists; (split; [reflexivity|]); simpl; repeat split;
    try assumption.
  now rewrite Hr.
Qed.

(** C6, as the code has it: the budget handed to the generator follows
    [budgetByPrecedence]: an integer in the environment variable wins over
    the configuration file, which wins over 12500, as long as loading does
    not fail; when it fails, 12500 stands. *)
Theorem token_budget_precedence (w : World) (useGit : bool) (o : Output) :
  exists config o',
    resolveConfig w useGit o = (Return config, o')
    /\ MaxDiffSize config = budgetByPrecedence w.
Proof.
  destruct (resolveConfig_run w useGit o) as (config & o' & H1 & H2 & _).
  now exists config, o'.
Qed.

(** The rule, case by case. *)
Lemma budget_environment_wins (w : World) (homeDir : string) (n : Z) :
  userHomeDir w = Ok homeDir ->
  (forall path, find (fileExists w) (configPathsOf w homeDir) = Some path ->
                exists doc, tomlDecodeFile w path = Ok doc) ->
  strconv.Atoi (getenv w "LAZYCOMMIT_MAX_TOKENS") = Some n ->
  budgetByPrecedence w = n.
Proof.
  intros Hh Hf He. unfold budgetByPrecedence. rewrite Hh, He.
  destruct (find (fileExists w) (configPathsOf w homeDir)) as [path|];
    [|reflexivity].
  destruct (Hf path eq_refl) as (doc & ->). reflexivity.
Qed.

Lemma budget_file_is_next (w : World) (homeDir path : string) (doc : TomlDoc)
  (m : Z) :
  userHomeDir w = Ok homeDir ->
  find (fileExists w) (configPathsOf w homeDir) = Some path ->
  tomlDecodeFile w path = Ok doc ->
  max_diff_tokens doc = Some m ->
  strconv.Atoi (getenv w "LAZYCOMMIT_MAX_TOKENS") = None ->
  budgetByPrecedence w = m.
Proof.
  intros Hh Hf Hd Hm He. unfold budgetByPrecedence.
  now rewrite Hh, Hf, Hd, He, Hm.
Qed.

Lemma budget_default_is_last (w : World) (homeDir : string) :
  userHomeDir w = Ok homeDir ->
  find (fileExists w) (configPathsOf w homeDir) = None ->
  strconv.Atoi (getenv w "LAZYCOMMIT_MAX_TOKENS") = None ->
  budgetByPrecedence w = 12500.
Proof.
  intros Hh Hf He. unfold budgetByPrecedence. now rewrite Hh, Hf, He.
Qed.

Lemma budget_default_when_loading_fails (w : World) (homeDir path : string)
  (e : string) :
  userHomeDir w = Ok homeDir ->
  find (fileExists w) (configPathsOf w homeDir) = Some path ->
  tomlDecodeFile w path = Err e ->
  budgetByPrecedence w = 12500.
Proof.
  intros Hh Hf Hd. unfold budgetByPrecedence. now rewrite Hh, Hf, Hd.
Qed.

(** C6 as the specification words it fails twice.  The variable is set to
    5000 and the configuration file does not decode: the budget is 12500.
    The variable is set to [12k] and the file says 800: the budget is 800. *)
Lemma env_budget_does_not_always_win :
  (getenv brokenConfigWorld "LAZYCOMMIT_MAX_TOKENS" = "5000"
   /\ exists config o',
        resolveConfig brokenConfigWorld true emptyOutput = (Return config, o')
        /\ MaxDiffSize config = 12500)
  /\ (getenv wordyEnvWorld "LAZYCOMMIT_MAX_TOKENS" = "12k"
      /\ exists config o',
           resolveConfig wordyEnvWorld true emptyOutput = (Return config, o')
           /\ MaxDiffSize config = 800).
Proof.
  split; (split; [reflexivity|]); do 2 eexists; split;
    try (vm_compute; reflexivity); reflexivity.
Qed.

(** ** The prompt *)

Lemma parseAndExecute_default (w : World) (data : PromptData) :
  parseAndExecute w DefaultPromptTemplate data = Ok (renderedDefault data).
Proof.
  unfold parseAndExecute.
  set (p := template.parse DefaultPromptTemplate). vm_compute in p. subst p.
  destruct data as [branch ctx].
  unfold renderedDefault, DQUOTE, LF, chr. cbn.
  rewrite !append_assoc. reflexivity.
Qed.

(** C10: with an empty path, or a path at which no file exists, rendering
    succeeds with the embedded default template filled in, exactly as with
    no path. *)
Theorem renderPromptTemplate_falls_back_to_default (w : World)
  (templatePath : string) (data : PromptData) (o : Output) :
  templatePath = "" \/ fileExists w templatePath = false ->
  renderPromptTemplate w templatePath data o
    = (Return (Ok (renderedDefault data)),
       {| stdout := stdout o;
          stderr := stderr o ++ "Using default embedded template" ++ LF;
          spawned := spawned o |})
  /\ renderPromptTemplate w templatePath data o
     = renderPromptTemplate w "" data o.
Proof.
  intro H.
  assert (Hc : negb (String.eqb templatePath "") && fileExists w templatePath
               = false).
  { destruct H as [-> | ->]; [reflexivity | apply andb_false_r]. }
  unfold renderPromptTemplate. rewrite Hc. simpl.
  io_unfold. rewrite parseAndExecute_default. split; reflexivity.
Qed.

Lemma renderPromptTemplate_falls_back_to_default_witness :
  let w := sampleWorld [] [] [] false (succeeds "") (succeeds "") (Ok byteCodec) in
  let data := {| Branch := "main"; DataUserContext := "fix typo" |} in
  fileExists w "/no/such/template.txt" = false
  /\ renderPromptTemplate w "/no/such/template.txt" data emptyOutput
     = renderPromptTemplate w "" data emptyOutput.
Proof.
  split; [reflexivity|].
  apply (renderPromptTemplate_falls_back_to_default
           (sampleWorld [] [] [] false (succeeds "") (succeeds "") (Ok byteCodec))
           "/no/such/template.txt"
           {| Branch := "main"; DataUserContext := "fix typo" |} emptyOutput).
  right. reflexivity.
Defined.

(** ** Generating the message *)

Lemma getBranchName_run (w : World) (isGit : bool) (o : Output) :
  exists branch inv,
    quiet (getBranchName w isGit) o branch [inv]
    /\ cmdName inv = vcsName isGit.
Proof.
  unfold getBranchName, quiet. destruct isGit; io_unfold; simpl;
    do 2 eexists; (split; [eexists; repeat split|]); reflexivity.
Qed.

Lemma renderPromptTemplate_run (w : World) (path : string) (data : PromptData)
  (o : Output) :
  exists r, quiet (renderPromptTemplate w path data) o r [].
Proof.
  unfold renderPromptTemplate, quiet.
  destruct (negb (String.eqb path "") && fileExists w path).
  - destruct (readFile w path); io_unfold; simpl;
      eexists; eexists; repeat split; simpl; now rewrite app_nil_r.
  - io_unfold; simpl. eexists; eexists; repeat split; simpl.
    now rewrite app_nil_r.
Qed.

Lemma getDiff_run (w : World) (config : Config) (o : Output) :
  exists r sp,
    quiet (getDiff w config) o r sp
    /\ Forall (fun i => cmdName i = vcsName (IsGit config)) sp.
Proof.
  unfold getDiff, quiet.
  destruct (excludePatterns w config) as [patterns|e].
  - unfold diffCommand. destruct (IsGit config); io_unfold; simpl;
      do 2 eexists; (split; [eexists; repeat split|]); simpl;
      try reflexivity; repeat constructor.
  - io_unfold. exists (Err e), []. split; [|constructor].
    eexists; repeat split. simpl. now rewrite app_nil_r.
Qed.

Lemma generateCommitMessage_run (w : World) (config : Config) (o : Output) :
  exists r o' inv sp,
    generateCommitMessage w config o = (r, o')
    /\ spawned o' = (spawned o ++ inv :: sp)%list
    /\ cmdName inv = vcsName (IsGit config)
    /\ ((stdout o' = stdout o
         /\ Forall (fun i => cmdName i = vcsName (IsGit config)) sp
         /\ r <> Return None)
        \/ (exists args stdin pre,
              sp = (pre ++ [llmInvocation args stdin])%list
              /\ Forall (fun i => cmdName i = vcsName (IsGit config)) pre
              /\ r = Return (procErr (process w "llm" args stdin))
              /\ stdout o' = stdout o ++ procStdout (process w "llm" args stdin))).
Proof.
  unfold generateCommitMessage.
  destruct (getBranchName_run w (IsGit config) o)
    as (branch & inv & (o1 & E1 & S1 & P1) & Hinv).
  unfold bind at 1. rewrite E1.
  destruct (renderPromptTemplate_run w (PromptPath config)
              {| Branch := branch; DataUserContext := UserContext config |} o1)
    as (rendered & (o2 & E2 & S2 & P2)).
  unfold bind at 1. rewrite E2. rewrite app_nil_r in P2.
  destruct rendered as [prompt|e].
  2:{ exists (Return (Some ("failed to render prompt template: " ++ e))), o2, inv, [].
      unfold ret. repeat split; try congruence.
      left. repeat split; try congruence. constructor. }
  destruct (getDiff_run w config o2) as (collected & sp & (o3 & E3 & S3 & P3) & Hsp).
  unfold bind at 1. rewrite E3.
  assert (P3' : spawned o3 = (spawned o ++ inv :: sp)%list).
  { rewrite P3, P2, P1, <- app_assoc. reflexivity. }
  destruct collected as [diff|e].
  2:{ exists (Return (Some ("failed to get diff: " ++ e))), o3, inv, sp.
      unfold ret. repeat split; try congruence.
      left. repeat split; try congruence. }
  unfold bind at 1, lift.
  destruct (truncateDiff (tokenizerGet w) diff (MaxDiffSize config))
    as [truncated|msg|code].
  2:{ exists (Panic msg), o3, inv, sp. repeat split; try congruence.
      left. repeat split; try congruence. }
  2:{ exists (Exit code), o3, inv, sp. repeat split; try congruence.
      left. repeat split; try congruence. }
  destruct truncated as [t|e];
    destruct (negb (String.eqb (ModelName config) ""));
    io_unfold; simpl;
    do 2 eexists; exists inv; eexists;
    (split; [reflexivity|]); simpl;
    (split; [rewrite P3', <- app_assoc; reflexivity|]);
    (split; [assumption|]);
    right; do 2 eexists; exists sp;
    (split; [reflexivity|]); (split; [assumption|]);
    (split; [reflexivity|]); unfold llmInvocation; simpl; congruence.
Qed.

(** The three ways [truncateDiff] returns an error. *)
Lemma truncateDiff_error_cases (get : Result Codec) (diff : string)
  (maxTokens : Z) (err : string) :
  truncateDiff get diff maxTokens = Return (Err err) ->
  (exists e, get = Err e)
  \/ (exists enc e, get = Ok enc /\ Encode enc diff = Err e)
  \/ (exists enc tokens e,
        get = Ok enc /\ Encode enc diff = Ok tokens
        /\ Decode enc (firstn (Z.to_nat maxTokens) tokens) = Err e).
Proof.
  unfold truncateDiff. destruct get as [enc|e]; [|eauto].
  destruct (Encode enc diff) as [tokens|e] eqn:He; [|eauto 6].
  destruct (len tokens <=? maxTokens); [discriminate|].
  unfold sliceTo. destruct ((maxTokens <? 0) || (len tokens <? maxTokens));
    [discriminate|].
  destruct (Decode enc _) eqn:Hd; [discriminate|]. intros _. eauto 8.
Qed.

(** C8: when [truncateDiff] returns an error, the generator warns on
    standard error and goes on: [llm] is started with the whole diff on its
    standard input, and the result of the run is the result of [llm]. *)
Theorem tokenization_failure_falls_back_to_raw_diff
  (w : World) (config : Config) (o o1 o2 o3 : Output)
  (branch prompt diff err : string) :
  getBranchName w (IsGit config) o = (Return branch, o1) ->
  renderPromptTemplate w (PromptPath config)
    {| Branch := branch; DataUserContext := UserContext config |} o1
    = (Return (Ok prompt), o2) ->
  getDiff w config o2 = (Return (Ok diff), o3) ->
  truncateDiff (tokenizerGet w) diff (MaxDiffSize config) = Return (Err err) ->
  exists args o',
    generateCommitMessage w config o
      = (Return (procErr (process w "llm" args diff)), o')
    /\ spawned o' = (spawned o3 ++ [llmInvocation args diff])%list
    /\ contains (stderr o')
         ("Warning: Failed to tokenize diff: " ++ err ++ ". Using raw diff." ++ LF)
    /\ stdout o' = stdout o3 ++ procStdout (process w "llm" args diff).
Proof.
  intros E1 E2 E3 E4. unfold generateCommitMessage.
  unfold bind at 1. rewrite E1.
  unfold bind at 1. rewrite E2.
  unfold bind at 1. rewrite E3.
  unfold bind at 1, lift. rewrite E4.
  destruct (negb (String.eqb (ModelName config) "")); io_unfold;
    cbv beta iota; do 2 eexists; (split; [reflexivity|]);
    cbn [stdout stderr spawned];
    (split; [reflexivity|]); (split; [|reflexivity]);
    do 2 apply contains_app_l; apply contains_suffix.
Qed.

Lemma tokenization_failure_falls_back_to_raw_diff_witness :
  exists args o',
    generateCommitMessage noTokenizerWorld (sampleConfig true 10) emptyOutput
      = (Return (procErr (process noTokenizerWorld "llm" args
                            "diff --git a/main.go b/main.go")), o')
    /\ spawned o'
       = (spawned
            (snd (getDiff noTokenizerWorld (sampleConfig true 10)
                    (snd (renderPromptTemplate noTokenizerWorld ""
                            {| Branch := "main"; DataUserContext := "" |}
                            (snd (getBranchName noTokenizerWorld true
                                    emptyOutput))))))
          ++ [llmInvocation args "diff --git a/main.go b/main.go"])%list
    /\ contains (stderr o')
         ("Warning: Failed to tokenize diff: "
          ++ "failed to get tokenizer: unknown encoding"
          ++ ". Using raw diff." ++ LF)
    /\ stdout o'
       = stdout
           (snd (getDiff noTokenizerWorld (sampleConfig true 10)
                   (snd (renderPromptTemplate noTokenizerWorld ""
                           {| Branch := "main"; DataUserContext := "" |}
                           (snd (getBranchName noTokenizerWorld true
                                   emptyOutput))))))
         ++ procStdout (process noTokenizerWorld "llm" args
                          "diff --git a/main.go b/main.go").
Proof.
  apply (tokenization_failure_falls_back_to_raw_diff
           noTokenizerWorld (sampleConfig true 10) emptyOutput
           (snd (getBranchName noTokenizerWorld true emptyOutput))
           (snd (renderPromptTemplate noTokenizerWorld ""
                   {| Branch := "main"; DataUserContext := "" |}
                   (snd (getBranchName noTokenizerWorld true emptyOutput))))
           (snd (getDiff noTokenizerWorld (sampleConfig true 10)
                   (snd (renderPromptTemplate noTokenizerWorld ""
                           {| Branch := "main"; DataUserContext := "" |}
                           (snd (getBranchName noTokenizerWorld true
                                   emptyOutput))))))
           "main"
           (renderedDefault {| Branch := "main"; DataUserContext := "" |})
           "diff --git a/main.go b/main.go"
           "failed to get tokenizer: unknown encoding");
    vm_compute; reflexivity.
Defined.

(** C3, as the code has it: when the generator returns an error, either it
    failed before [llm] was started and it wrote nothing to standard output,
    or [llm] itself failed and standard output carries what [llm] wrote
    until then. *)
Theorem failed_generation_output (w : World) (config : Config)
  (o o' : Output) (e : string) :
  generateCommitMessage w config o = (Return (Some e), o') ->
  (exists sp,
      spawned o' = (spawned o ++ sp)%list
      /\ Forall (fun i => cmdName i <> "llm") sp
      /\ stdout o' = stdout o)
  \/ (exists args stdin pre,
        spawned o' = (spawned o ++ pre ++ [llmInvocation args stdin])%list
        /\ procErr (process w "llm" args stdin) = Some e
        /\ stdout o' = stdout o ++ procStdout (process w "llm" args stdin)).
Proof.
  intro H.
  destruct (generateCommitMessage_run w config o)
    as (r & o1 & inv & sp & E & Hsp & Hinv & Hcase).
  rewrite H in E. injection E as <- <-.
  destruct Hcase as [(Hout & Hall & _) | (args & stdin & pre & -> & _ & Hr & Hout)].
  - left. exists (inv :: sp). repeat split; try assumption.
    constructor.
    + rewrite Hinv. destruct (IsGit config); discriminate.
    + eapply Forall_impl; [|exact Hall]. intros i ->.
      destruct (IsGit config); discriminate.
  - right. exists args, stdin, (inv :: pre). repeat split; try assumption.
    now injection Hr.
Qed.

Lemma failed_generation_output_witness :
  (exists sp,
      spawned (snd (generateCommitMessage
                      (sampleWorld [] [] [] false (fails "" "exit status 128")
                         (succeeds "") (Ok byteCodec))
                      (sampleConfig true 100) emptyOutput))
        = (spawned emptyOutput ++ sp)%list
      /\ Forall (fun i => cmdName i <> "llm") sp
      /\ stdout (snd (generateCommitMessage
                        (sampleWorld [] [] [] false (fails "" "exit status 128")
                           (succeeds "") (Ok byteCodec))
                        (sampleConfig true 100) emptyOutput))
         = stdout emptyOutput)
  \/ (exists args stdin pre,
        spawned (snd (generateCommitMessage
                        (sampleWorld [] [] [] false (fails "" "exit status 128")
                           (succeeds "") (Ok byteCodec))
                        (sampleConfig true 100) emptyOutput))
          = (spawned emptyOutput ++ pre ++ [llmInvocation args stdin])%list
        /\ procErr (process
                      (sampleWorld [] [] [] false (fails "" "exit status 128")
                         (succeeds "") (Ok byteCodec)) "llm" args stdin)
           = Some "failed to get diff: failed to get diff: exit status 128"
        /\ stdout (snd (generateCommitMessage
                          (sampleWorld [] [] [] false (fails "" "exit status 128")
                             (succeeds "") (Ok byteCodec))
                          (sampleConfig true 100) emptyOutput))
           = stdout emptyOutput
             ++ procStdout (process
                              (sampleWorld [] [] [] false
                                 (fails "" "exit status 128")
                                 (succeeds "") (Ok byteCodec))
                              "llm" args stdin)).
Proof.
  apply (failed_generation_output
           (sampleWorld [] [] [] false (fails "" "exit status 128")
              (succeeds "") (Ok byteCodec))
           (sampleConfig true 100) emptyOutput _
           "failed to get diff: failed to get diff: exit status 128").
  vm_compute. reflexivity.
Defined.

(** C3 as the specification words it fails: [llm] writes the beginning of a
    message and then exits with status 1; the generator returns the error,
    [main] exits with status 1, and standard output carries the partial
    message (followed by the error line, which [main] prints there too). *)
Lemma partial_message_on_failure :
  exists o',
    generateCommitMessage failingLlmWorld (sampleConfig true 100) emptyOutput
      = (Return (Some "exit status 1"), o')
    /\ stdout o' = "Add parser for"
    /\ exists o'',
         main failingLlmWorld emptyOutput = (Exit 1, o'')
         /\ stdout o'' = "Add parser for" ++ red "Error: exit status 1".
Proof.
  eexists. split; [vm_compute; reflexivity|].
  split; [reflexivity|].
  eexists. split; [vm_compute; reflexivity|]. reflexivity.
Qed.

(** ** Choosing between Git and Jujutsu *)

Lemma main_after_detection (w : World) (useGit : bool) (o r' : Output)
  (r : Outcome unit) :
  (let* config := resolveConfig w useGit in
   let* _ :=
     if useGit then printErr ("Using Git for version control" ++ LF)
     else printErr ("Using Jujutsu for version control" ++ LF) in
   let* err := generateCommitMessage w config in
   match err with
   | Some e => let* _ := printOut (red ("Error: " ++ e)) in osExit 1
   | None => ret tt
   end) o = (r, r') ->
  exists inv sp,
    spawned r' = (spawned o ++ inv :: sp)%list
    /\ cmdName inv = vcsName useGit
    /\ Forall (fun i => cmdName i = vcsName useGit \/ cmdName i = "llm") sp.
Proof.
  destruct (resolveConfig_run w useGit o) as (config & o1 & E1 & _ & Hg & P1).
  unfold bind at 1. rewrite E1.
  unfold bind at 1.
  set (o2 := {| stdout := stdout o1;
                stderr := stderr o1 ++ (if useGit
                                        then "Using Git for version control" ++ LF
                                        else "Using Jujutsu for version control" ++ LF);
                spawned := spawned o1 |}).
  assert (E2 : (if useGit then printErr ("Using Git for version control" ++ LF)
                else printErr ("Using Jujutsu for version control" ++ LF)) o1
               = (Return tt, o2)) by (destruct useGit; reflexivity).
  rewrite E2.
  destruct (generateCommitMessage_run w config o2)
    as (r0 & o3 & inv & sp & E3 & P3 & Hinv & Hcase).
  unfold bind at 1. rewrite E3. rewrite Hg in *.
  assert (Hall : Forall (fun i => cmdName i = vcsName useGit \/ cmdName i = "llm") sp).
  { destruct Hcase as [(_ & Hall & _) | (args & stdin & pre & -> & Hall & _)].
    - eapply Forall_impl; [|exact Hall]. intros i Hi. now left.
    - apply Forall_app. split.
      + eapply Forall_impl; [|exact Hall]. intros i Hi. now left.
      + constructor; [now right | constructor]. }
  assert (P : spawned o3 = (spawned o ++ inv :: sp)%list).
  { rewrite P3. unfold o2. cbn [spawned]. now rewrite P1. }
  intro H. exists inv, sp.
  destruct r0 as [[e|]|msg|code]; io_unfold; cbv beta iota in H;
    injection H as <- <-; cbn [spawned]; auto.
Qed.

(** C7: once at least one repository is detected, every version-control
    command [main] runs is a [jj] command whenever Jujutsu is detected, also
    when Git is detected too; a [git] command is run only when Git is
    detected and Jujutsu is not. *)
Theorem main_prefers_jujutsu (w : World) (o o1 o2 o' : Output)
  (isGit isJJ : bool) (r : Outcome unit) :
  commandExists w "llm" = true ->
  isGitRepo w o = (Return isGit, o1) ->
  isJJRepo w o1 = (Return isJJ, o2) ->
  isGit || isJJ = true ->
  main w o = (r, o') ->
  exists inv sp,
    spawned o' = (spawned o2 ++ inv :: sp)%list
    /\ cmdName inv = (if isJJ then "jj" else "git")
    /\ Forall (fun i => cmdName i = (if isJJ then "jj" else "git")
                        \/ cmdName i = "llm") sp
    /\ (forall i, In i (inv :: sp) -> cmdName i = "git" ->
        isGit = true /\ isJJ = false).
Proof.
  intros Hllm E1 E2 Hdet. unfold main. rewrite Hllm. cbn [negb].
  unfold bind at 1. rewrite E1. unfold bind at 1. rewrite E2.
  assert (Hname : vcsName (isGit && negb isJJ) = if isJJ then "jj" else "git").
  { destruct isGit, isJJ; try reflexivity. discriminate Hdet. }
  replace (negb isGit && negb isJJ) with false
    by (destruct isGit, isJJ; try reflexivity; discriminate Hdet).
  intro H. apply main_after_detection in H.
  destruct H as (inv & sp & P & Hinv & Hall). rewrite Hname in *.
  exists inv, sp. repeat split; try assumption.
  - destruct isGit; [reflexivity|]. destruct isJJ; [|discriminate Hdet].
    destruct H as [<- | Hin]; [congruence|].
    rewrite Forall_forall in Hall. destruct (Hall i Hin); congruence.
  - destruct isJJ; [|reflexivity].
    destruct H as [<- | Hin]; [congruence|].
    rewrite Forall_forall in Hall. destruct (Hall i Hin); congruence.
Qed.

Lemma main_prefers_jujutsu_witness :
  isGitRepo bothReposWorld emptyOutput = (Return true, emptyOutput)
  /\ fst (isJJRepo bothReposWorld emptyOutput) = Return true
  /\ exists inv sp,
       spawned (snd (main bothReposWorld emptyOutput))
         = (spawned (snd (isJJRepo bothReposWorld emptyOutput)) ++ inv :: sp)%list
       /\ cmdName inv = "jj"
       /\ Forall (fun i => cmdName i = "jj" \/ cmdName i = "llm") sp
       /\ (forall i, In i (inv :: sp) -> cmdName i = "git" ->
           true = true /\ true = false).
Proof.
  split; [reflexivity|]. split; [reflexivity|].
  apply (main_prefers_jujutsu bothReposWorld emptyOutput emptyOutput
           (snd (isJJRepo bothReposWorld emptyOutput))
           (snd (main bothReposWorld emptyOutput)) true true
           (fst (main bothReposWorld emptyOutput)));
    vm_compute; reflexivity.
Defined.

(** ** Runes *)

Lemma take_drop_bytes (n : nat) (s : string) :
  takeBytes n s ++ dropBytes n s = s.
Proof.
  revert s. induction n as [|n IH]; intros [|c s]; simpl; try reflexivity.
  now rewrite IH.
Qed.

Lemma length_dropBytes (n : nat) (s : string) :
  String.length (dropBytes n s) = (String.length s - n)%nat.
Proof.
  revert s. induction n as [|n IH]; intros [|c s]; simpl; try lia.
  apply IH.
Qed.

Lemma decode_width_pos (c : ascii) (t : string) (r : Z) (w : nat) :
  utf8.DecodeRuneInString (String c t) = (r, w) -> (1 <= w)%nat.
Proof.
  unfold utf8.DecodeRuneInString.
  repeat match goal with
         | |- context [match ?x with _ => _ end] => destruct x
         end; intro H; injection H as <- <-; lia.
Qed.

Lemma lor_ge_128 (a b : Z) : 0 <= b -> 128 <= a -> 128 <= Z.lor a b.
Proof.
  intros Hb Ha.
  assert (H0 : 0 <= Z.lor a b) by (apply Z.lor_nonneg; lia).
  assert (Hl : 7 <= Z.log2 (Z.lor a b)).
  { rewrite Z.log2_lor by lia.
    assert (7 <= Z.log2 a) by (apply (Z.log2_le_pow2 a 7); lia). lia. }
  apply (Z.log2_le_pow2 (Z.lor a b) 7) in Hl; [exact Hl|].
  destruct (Z.eq_dec (Z.lor a b) 0) as [E|E]; [|lia].
  rewrite E in Hl. simpl in Hl. lia.
Qed.

Lemma byteZ_range (c : ascii) : 0 <= byteZ c < 256.
Proof.
  unfold byteZ. pose proof (N_ascii_bounded c). lia.
Qed.

Lemma byteZ_inj (a b : ascii) : byteZ a = byteZ b -> a = b.
Proof.
  unfold byteZ. intro H. apply N2Z.inj in H.
  rewrite <- (ascii_N_embedding a), <- (ascii_N_embedding b). now rewrite H.
Qed.

Lemma low6_range (c : ascii) : 0 <= utf8.low6 c < 64.
Proof.
  unfold utf8.low6. change 63 with (Z.ones 6).
  rewrite Z.land_ones by lia. apply Z.mod_pos_bound. lia.
Qed.

Lemma lead_inv (b : Z) (sz : nat) (lo hi : Z) :
  utf8.lead b = Some (sz, lo, hi) ->
  hi <= 191
  /\ ((sz = 2%nat /\ 194 <= b <= 223)
      \/ (sz = 3%nat /\ 224 <= b <= 239 /\ (b = 224 -> lo = 160))
      \/ (sz = 4%nat /\ 240 <= b <= 244 /\ (b = 240 -> lo = 144))).
Proof.
  unfold utf8.lead.
  repeat match goal with
         | |- context [if ?c then _ else _] => destruct c eqn:?
         end; intro H; inversion H; subst; clear H;
    repeat match goal with
           | H : (_ && _) = true |- _ => apply andb_true_iff in H; destruct H
           | H : (_ <=? _) = true |- _ => apply Z.leb_le in H
           | H : (_ =? _) = true |- _ => apply Z.eqb_eq in H
           | H : (_ =? _) = false |- _ => apply Z.eqb_neq in H
           end; lia.
Qed.

Lemma rune2_ge (b0 x : Z) :
  194 <= b0 <= 223 -> 0 <= x ->
  128 <= Z.lor (Z.shiftl (Z.land b0 31) 6) x.
Proof.
  intros Hb Hx. apply lor_ge_128; [assumption|].
  change 31 with (Z.ones 5). rewrite Z.land_ones, Z.shiftl_mul_pow2 by lia.
  change (2 ^ 5) with 32. change (2 ^ 6) with 64.
  assert (b0 mod 32 = b0 - 192); [|lia].
  symmetry. apply (Z.mod_unique b0 32 6); lia.
Qed.

Lemma rune3_ge (b0 b1 x : Z) :
  224 <= b0 <= 239 -> (b0 = 224 -> 160 <= b1 <= 191) -> 0 <= x ->
  0 <= b1 ->
  128 <= Z.lor (Z.shiftl (Z.land b0 15) 12)
           (Z.lor (Z.shiftl (Z.land b1 63) 6) x).
Proof.
  intros Hb H1 Hx Hb1.
  assert (Hm : 0 <= Z.shiftl (Z.land b1 63) 6).
  { apply Z.shiftl_nonneg, Z.land_nonneg. now left. }
  destruct (Z.eq_dec b0 224) as [->|Hne].
  - change (Z.land 224 15) with 0. rewrite Z.shiftl_0_l, Z.lor_0_l.
    apply lor_ge_128; [assumption|].
    change 63 with (Z.ones 6). rewrite Z.land_ones, Z.shiftl_mul_pow2 by lia.
    change (2 ^ 6) with 64.
    assert (b1 mod 64 = b1 - 128); [|lia].
    symmetry. apply (Z.mod_unique b1 64 2); lia.
  - apply lor_ge_128; [apply Z.lor_nonneg; lia|].
    change 15 with (Z.ones 4). rewrite Z.land_ones, Z.shiftl_mul_pow2 by lia.
    change (2 ^ 4) with 16. change (2 ^ 12) with 4096.
    assert (b0 mod 16 = b0 - 224); [|lia].
    symmetry. apply (Z.mod_unique b0 16 14); lia.
Qed.

Lemma rune4_ge (b0 b1 x : Z) :
  240 <= b0 <= 244 -> (b0 = 240 -> 144 <= b1 <= 191) -> 0 <= x ->
  0 <= b1 ->
  128 <= Z.lor (Z.shiftl (Z.land b0 7) 18)
           (Z.lor (Z.shiftl (Z.land b1 63) 12) x).
Proof.
  intros Hb H1 Hx Hb1.
  assert (Hm : 0 <= Z.shiftl (Z.land b1 63) 12).
  { apply Z.shiftl_nonneg, Z.land_nonneg. now left. }
  destruct (Z.eq_dec b0 240) as [->|Hne].
  - change (Z.land 240 7) with 0. rewrite Z.shiftl_0_l, Z.lor_0_l.
    apply lor_ge_128; [assumption|].
    change 63 with (Z.ones 6). rewrite Z.land_ones, Z.shiftl_mul_pow2 by lia.
    change (2 ^ 6) with 64. change (2 ^ 12) with 4096.
    assert (b1 mod 64 = b1 - 128); [|lia].
    symmetry. apply (Z.mod_unique b1 64 2); lia.
  - apply lor_ge_128; [apply Z.lor_nonneg; lia|].
    change 7 with (Z.ones 3). rewrite Z.land_ones, Z.shiftl_mul_pow2 by lia.
    change (2 ^ 3) with 8. change (2 ^ 18) with 262144.
    assert (b0 mod 8 = b0 - 240); [|lia].
    symmetry. apply (Z.mod_unique b0 8 30); lia.
Qed.

Lemma inRange_true (lo hi : Z) (c : ascii) :
  negb (utf8.inRange lo hi c) = false -> lo <= byteZ c <= hi.
Proof.
  unfold utf8.inRange. intro H. apply negb_false_iff, andb_true_iff in H.
  destruct H as [H1 H2]. apply Z.leb_le in H1, H2. lia.
Qed.

Lemma decode_ascii_inv (s : string) (r : Z) (w : nat) :
  utf8.DecodeRuneInString s = (r, w) -> r < 128 ->
  exists c t, s = String c t /\ byteZ c = r /\ w = 1%nat.
Proof.
  assert (clash : forall x, 128 <= x -> x < 128 -> False) by (intros; lia).
  destruct s as [|s0 t]; unfold utf8.DecodeRuneInString.
  - intros H; injection H as <- <-. unfold utf8.RuneError. lia.
  - destruct (byteZ s0 <? 128) eqn:Ha.
    + intros H _. injection H as <- <-. eauto.
    + intros H Hr. exfalso.
      destruct (utf8.lead (byteZ s0)) as [[[sz lo] hi]|] eqn:Hlead.
      2:{ injection H as <- <-. unfold utf8.RuneError in Hr. lia. }
      apply lead_inv in Hlead.
      destruct t as [|s1 t1].
      { injection H as <- <-. unfold utf8.RuneError in Hr. lia. }
      destruct (negb (utf8.inRange lo hi s1)) eqn:Hin.
      { injection H as <- <-. unfold utf8.RuneError in Hr. lia. }
      apply inRange_true in Hin.
      pose proof (byteZ_range s1) as R1.
      pose proof (low6_range s1) as L1.
      destruct (sz <=? 2)%nat eqn:Hsz.
      { injection H as <- <-. apply Nat.leb_le in Hsz.
        refine (clash _ _ Hr). apply rune2_ge; lia. }
      apply Nat.leb_gt in Hsz.
      destruct t1 as [|s2 t2].
      { injection H as <- <-. unfold utf8.RuneError in Hr. lia. }
      destruct (negb (utf8.cont s2)).
      { injection H as <- <-. unfold utf8.RuneError in Hr. lia. }
      pose proof (low6_range s2) as L2.
      destruct (sz <=? 3)%nat eqn:Hsz3.
      { injection H as <- <-. apply Nat.leb_le in Hsz3.
        refine (clash _ _ Hr). unfold utf8.low6 at 1. apply rune3_ge; lia. }
      apply Nat.leb_gt in Hsz3.
      destruct t2 as [|s3 t3].
      { injection H as <- <-. unfold utf8.RuneError in Hr. lia. }
      destruct (negb (utf8.cont s3)).
      { injection H as <- <-. unfold utf8.RuneError in Hr. lia. }
      injection H as <- <-.
      pose proof (low6_range s3) as L3.
      refine (clash (Z.lor (Z.shiftl (Z.land (byteZ s0) 7) 18)
                       (Z.lor (Z.shiftl (Z.land (byteZ s1) 63) 12)
                          (Z.lor (Z.shiftl (utf8.low6 s2) 6) (utf8.low6 s3))))
                _ Hr).
      apply rune4_ge; try lia.
      apply Z.lor_nonneg. split; [|lia].
      apply Z.shiftl_nonneg. lia.
Qed.


Lemma text_cons (it : item) (l : list item) : text (it :: l) = raw it ++ text l.
Proof.
  unfold text. destruct l as [|x l]; simpl; [now rewrite append_nil_r|].
  reflexivity.
Qed.

Lemma text_app (a b : list item) : text (a ++ b) = text a ++ text b.
Proof.
  induction a as [|it a IH]; [reflexivity|].
  simpl app. now rewrite !text_cons, IH, append_assoc.
Qed.

Lemma text_runesFuel (n : nat) (s : string) :
  (String.length s <= n)%nat -> text (runesFuel n s) = s.
Proof.
  revert s. induction n as [|n IH]; intros s Hn.
  - destruct s; [reflexivity | simpl in Hn; lia].
  - cbn [runesFuel].
    destruct (utf8.DecodeRuneInString s) as [r w] eqn:Hd.
    destruct w as [|w].
    + destruct s as [|c t]; [reflexivity|].
      apply decode_width_pos in Hd. lia.
    + rewrite text_cons. cbn [raw]. rewrite IH.
      * apply take_drop_bytes.
      * rewrite length_dropBytes. lia.
Qed.

Lemma text_runes (s : string) : text (runes s) = s.
Proof. apply text_runesFuel. lia. Qed.

Lemma runesFuel_plain (n : nat) (s : string) : Forall plain (runesFuel n s).
Proof.
  revert s. induction n as [|n IH]; intro s; [constructor|].
  cbn [runesFuel].
  destruct (utf8.DecodeRuneInString s) as [r w] eqn:Hd.
  destruct w as [|w]; constructor; [|apply IH].
  intro Hr. cbn [rune raw] in *.
  destruct (decode_ascii_inv s r (S w) Hd Hr) as (c & t & -> & Hc & Hw).
  exists c. rewrite Hw. split; [reflexivity | assumption].
Qed.

Lemma plain_literal (l : list ascii) (used : list item) :
  Forall plain used ->
  Forall (fun a => byteZ a < 128) l ->
  map rune used = map byteZ l ->
  text used = string_of_list_ascii l.
Proof.
  revert used. induction l as [|a l IH]; intros [|it used] Hp Hl Hm;
    try discriminate; [reflexivity|].
  inversion Hp as [|? ? Hit Hp']; subst. inversion Hl as [|? ? Ha Hl']; subst.
  simpl in Hm. injection Hm as Hr Hm.
  rewrite text_cons. cbn [string_of_list_ascii].
  destruct Hit as (c & Hraw & Hc); [lia|].
  rewrite Hraw. rewrite Hr in Hc. apply byteZ_inj in Hc. subst c.
  simpl. f_equal. now apply IH.
Qed.

Lemma isSpace_small (r : Z) : isSpace r = true -> r < 128.
Proof.
  unfold isSpace. intro H.
  repeat (apply orb_true_iff in H; destruct H as [H|H]);
    apply Z.eqb_eq in H; lia.
Qed.

Lemma plain_spaces (used : list item) :
  Forall plain used ->
  Forall (fun it => classMatches Space (rune it) = true) used ->
  allSpace (text used) = true.
Proof.
  induction used as [|it used IH]; intros Hp Hs; [reflexivity|].
  inversion Hp as [|? ? Hit Hp']; subst. inversion Hs as [|? ? Hsp Hs']; subst.
  rewrite text_cons. cbn [classMatches] in Hsp.
  destruct Hit as (c & Hraw & Hc); [now apply isSpace_small|].
  rewrite Hraw. unfold allSpace. simpl.
  rewrite Hc, Hsp. apply (IH Hp' Hs').
Qed.

(** ** The matcher reads what it says it reads *)

Lemma advance_inv (t t' : thread) (it : item) :
  advance t = Some (it, t') ->
  rest t = it :: rest t' /\ pos t' = S (pos t) /\ cap1 t' = cap1 t.
Proof.
  unfold advance. destruct (rest t) as [|x tl]; [discriminate|].
  intro H. injection H as <- <-. auto.
Qed.

Lemma litFrom_sound (l : list ascii) (t t' : thread) :
  In t' (litFrom l t) ->
  exists used, rest t = (used ++ rest t')%list /\ map rune used = map byteZ l.
Proof.
  revert t. induction l as [|a l IH]; intros t Hin; simpl in Hin.
  - destruct Hin as [<-|[]]. now exists [].
  - destruct (advance t) as [[it tm]|] eqn:Ha; [|destruct Hin].
    destruct (rune it =? byteZ a) eqn:Hr; [|destruct Hin].
    apply Z.eqb_eq in Hr. apply advance_inv in Ha. destruct Ha as (Ha & _).
    destruct (IH tm Hin) as (used & Hu & Hm).
    exists (it :: used). simpl. rewrite Ha, Hu, Hr, Hm. auto.
Qed.

Lemma starFrom_sound (c : cclass) (l : list item) (p : nat)
  (cap : option (list item)) (t' : thread) :
  In t' (starFrom c p cap l) ->
  exists used,
    l = (used ++ rest t')%list
    /\ Forall (fun it => classMatches c (rune it) = true) used.
Proof.
  revert p. induction l as [|it l IH]; intros p Hin; simpl in Hin.
  - destruct Hin as [<-|[]]. now exists [].
  - destruct (classMatches c (rune it)) eqn:Hc.
    + apply in_app_or in Hin. destruct Hin as [Hin|[<-|[]]].
      * destruct (IH _ Hin) as (used & Hu & Hall).
        exists (it :: used). simpl. rewrite <- Hu. auto.
      * now exists [].
    + destruct Hin as [<-|[]]. now exists [].
Qed.

Lemma oneFrom_sound (c : cclass) (t t' : thread) :
  In t' (oneFrom c t) ->
  exists it, rest t = it :: rest t' /\ classMatches c (rune it) = true.
Proof.
  unfold oneFrom. destruct (advance t) as [[it tm]|] eqn:Ha; [|intros []].
  destruct (classMatches c (rune it)) eqn:Hc; [|intros []].
  intros [<-|[]]. apply advance_inv in Ha. exists it. tauto.
Qed.

Lemma run_sound (r : regex) (t t' : thread) :
  In t' (run r t) -> exists used, rest t = (used ++ rest t')%list.
Proof.
  revert t t'. induction r as [| |l|c|c|c|a IHa b IHb|r IH]; intros t t' Hin;
    cbn [run] in Hin.
  - destruct Hin as [<-|[]]. now exists [].
  - destruct (pos t =? 0)%nat; [|destruct Hin].
    destruct Hin as [<-|[]]. now exists [].
  - apply litFrom_sound in Hin. destruct Hin as (used & Hu & _). eauto.
  - apply oneFrom_sound in Hin. destruct Hin as (it & Hu & _).
    exists [it]. exact Hu.
  - apply starFrom_sound in Hin. destruct Hin as (used & Hu & _). eauto.
  - apply in_flat_map in Hin. destruct Hin as (tm & H1 & H2).
    apply oneFrom_sound in H1. destruct H1 as (it & Hu & _).
    apply starFrom_sound in H2. destruct H2 as (used & Hu2 & _).
    exists (it :: used). rewrite Hu, Hu2. reflexivity.
  - apply in_flat_map in Hin. destruct Hin as (tm & H1 & H2).
    destruct (IHa _ _ H1) as (u1 & Hu1). destruct (IHb _ _ H2) as (u2 & Hu2).
    exists (u1 ++ u2)%list. rewrite Hu1, Hu2, app_assoc. reflexivity.
  - apply in_map_iff in Hin. destruct Hin as (tm & <- & H1).
    cbn [rest]. now apply IH.
Qed.

Lemma run_cat (a b : regex) (t t' : thread) :
  In t' (run (Cat a b) t) -> exists tm, In tm (run a t) /\ In t' (run b tm).
Proof. cbn [run]. intro H. now apply in_flat_map in H. Qed.

Lemma search_sound (r : regex) (l : list item) (p : nat) :
  search r p l <> [] ->
  exists skipped l' p' t',
    l = (skipped ++ l')%list
    /\ In t' (run r {| pos := p'; rest := l'; cap1 := None |}).
Proof.
  revert p. induction l as [|it l IH]; intros p H; cbn [search] in H.
  - destruct (run r {| pos := p; rest := []; cap1 := None |}) as [|t ts] eqn:E;
      [congruence|].
    exists [], [], p, t. rewrite E. split; [reflexivity | now left].
  - destruct (run r {| pos := p; rest := it :: l; cap1 := None |})
      as [|t ts] eqn:E.
    + destruct (IH _ H) as (sk & l' & p' & t' & -> & Hin).
      exists (it :: sk), l', p', t'. auto.
    + exists [], (it :: l), p, t. rewrite E. split; [reflexivity | now left].
Qed.

(** ** The pattern of getGeneratedFilesFromGitattributes *)

Lemma re_sound (t t' : thread) :
  In t' (run re t) ->
  exists a L1 W1 E W2 T,
    rest t = (a ++ L1 ++ W1 ++ E ++ W2 ++ T ++ rest t')%list
    /\ map rune L1 = codes "linguist-generated"
    /\ Forall (fun it => classMatches Space (rune it) = true) W1
    /\ map rune E = codes "="
    /\ Forall (fun it => classMatches Space (rune it) = true) W2
    /\ map rune T = codes "true".
Proof.
  unfold re, seq. cbn [fold_right]. intro H.
  apply run_cat in H. destruct H as (t1 & H1 & H).
  apply run_cat in H. destruct H as (t2 & H2 & H).
  apply run_cat in H. destruct H as (t3 & H3 & H).
  apply run_cat in H. destruct H as (t4 & H4 & H).
  apply run_cat in H. destruct H as (t5 & H5 & H).
  apply run_cat in H. destruct H as (t6 & H6 & H).
  apply run_cat in H. destruct H as (t7 & H7 & H).
  apply run_cat in H. destruct H as (t8 & H8 & H).
  apply run_cat in H. destruct H as (t9 & H9 & H).
  cbn [run] in H. destruct H as [<-|[]].
  apply run_sound in H1, H2, H3, H4.
  destruct H1 as (u1 & E1), H2 as (u2 & E2), H3 as (u3 & E3), H4 as (u4 & E4).
  cbn [run] in H5, H6, H7, H8, H9.
  apply litFrom_sound in H5, H7, H9. apply starFrom_sound in H6, H8.
  destruct H5 as (L1 & E5 & M5), H6 as (W1 & E6 & A6), H7 as (E & E7 & M7),
    H8 as (W2 & E8 & A8), H9 as (T & E9 & M9).
  exists (u1 ++ u2 ++ u3 ++ u4)%list, L1, W1, E, W2, T.
  repeat split; try assumption.
  rewrite E1, E2, E3, E4, E5, E6, E7, E8, E9. now rewrite <- !app_assoc.
Qed.

Lemma literal_small (s : string) :
  forallb (fun a => byteZ a <? 128) (list_ascii_of_string s) = true ->
  Forall (fun a => byteZ a < 128) (list_ascii_of_string s).
Proof.
  intro H. apply Forall_forall. intros a Ha.
  rewrite forallb_forall in H. now apply Z.ltb_lt, H.
Qed.

Lemma plain_text_of_literal (s : string) (used : list item) :
  Forall plain used ->
  forallb (fun a => byteZ a <? 128) (list_ascii_of_string s) = true ->
  map rune used = codes s ->
  text used = s.
Proof.
  intros Hp Hs Hm.
  rewrite (plain_literal (list_ascii_of_string s) used Hp (literal_small s Hs) Hm).
  apply string_of_list_ascii_of_string.
Qed.

Lemma match_has_attr (line : string) :
  FindStringSubmatch re line <> [] -> hasGeneratedAttr line.
Proof.
  unfold FindStringSubmatch. intro H.
  apply search_sound in H. destruct H as (sk & l' & p' & t' & Hl & Hin).
  apply re_sound in Hin. cbn [rest] in Hin.
  destruct Hin as (a & L1 & W1 & E & W2 & T & Hl' & M1 & A1 & M2 & A2 & M3).
  pose proof (runesFuel_plain (String.length line) line) as Hp.
  fold (runes line) in Hp. rewrite Hl, Hl' in Hp.
  repeat (apply Forall_app in Hp;
          let H := fresh "P" in destruct Hp as [H Hp]).
  exists (text sk ++ text a), (text W1), (text W2), (text (rest t')).
  split; [|split; now apply plain_spaces].
  rewrite <- (text_runes line), Hl, Hl', !text_app.
  rewrite (plain_text_of_literal "linguist-generated" L1) by auto.
  rewrite (plain_text_of_literal "=" E) by auto.
  rewrite (plain_text_of_literal "true" T) by auto.
  now rewrite !append_assoc.
Qed.

Lemma scanStep_contribution (patterns : list string) (line : string) :
  scanStep patterns line = (patterns ++ contribution line)%list.
Proof.
  unfold contribution, scanStep.
  destruct (1 <? len (FindStringSubmatch re line)); [reflexivity|].
  now rewrite app_nil_r.
Qed.

Lemma scan_loop (lines : list string) (patterns : list string) :
  fold_left scanStep lines patterns
  = (patterns ++ flat_map contribution lines)%list.
Proof.
  revert patterns. induction lines as [|line lines IH]; intro patterns; simpl.
  - now rewrite app_nil_r.
  - now rewrite IH, scanStep_contribution, <- app_assoc.
Qed.

Lemma no_match_no_contribution (line : string) :
  FindStringSubmatch re line = [] -> contribution line = [].
Proof. unfold contribution, scanStep. now intros ->. Qed.

Lemma runes_cons_ascii (c : ascii) (s : string) :
  byteZ c < 128 ->
  runes (String c s) = {| rune := byteZ c; raw := String c "" |} :: runes s.
Proof.
  intro H. unfold runes. cbn [String.length runesFuel].
  unfold utf8.DecodeRuneInString.
  apply Z.ltb_lt in H. rewrite H. reflexivity.
Qed.

Lemma search_not_at_start (l : list item) (p : nat) :
  search re (S p) l = [].
Proof.
  revert p. induction l as [|it l IH]; intro p; cbn [search].
  - reflexivity.
  - unfold re at 1, seq. cbn [fold_right run pos Nat.eqb flat_map]. apply IH.
Qed.

Lemma comment_line_no_match (tl : string) :
  FindStringSubmatch re (String "#" tl) = [].
Proof.
  unfold FindStringSubmatch. rewrite runes_cons_ascii by reflexivity.
  generalize (runes tl). intro l. cbn [search].
  replace (run re _) with (@nil thread).
  - apply search_not_at_start.
  - unfold re, seq. reflexivity.
Qed.

(** ** What a rune is decoded from, and what the pattern captures *)

Lemma lead_lo (b : Z) (sz : nat) (lo hi : Z) :
  utf8.lead b = Some (sz, lo, hi) -> 128 <= lo.
Proof.
  unfold utf8.lead.
  repeat match goal with
         | |- context [if ?c then _ else _] => destruct c
         end; intro H; inversion H; lia.
Qed.

Lemma cont_high (c : ascii) : negb (utf8.cont c) = false -> 128 <= byteZ c.
Proof. unfold utf8.cont. intro H. apply inRange_true in H. lia. Qed.

Lemma decode_decoded (s : string) (r : Z) (w : nat) :
  utf8.DecodeRuneInString s = (r, S w) ->
  decoded {| rune := r; raw := takeBytes (S w) s |}.
Proof.
  assert (high1 : forall c, 128 <= byteZ c -> highBytes (String c "") = true).
  { intros c Hc. unfold highBytes. cbn. apply andb_true_iff. split; [|reflexivity].
    now apply Z.leb_le. }
  unfold decoded. destruct s as [|s0 t]; unfold utf8.DecodeRuneInString.
  { intro H. discriminate H. }
  destruct (byteZ s0 <? 128) eqn:Ha.
  { intro H. injection H as <- <-. exists s0, "". split; [reflexivity|].
    left. apply Z.ltb_lt in Ha. auto. }
  apply Z.ltb_ge in Ha.
  assert (only : exists c tl, takeBytes 1 (String s0 t) = String c tl
                  /\ (byteZ c < 128 /\ utf8.RuneError = byteZ c /\ tl = ""
                      \/ 128 <= byteZ c /\ highBytes tl = true)).
  { exists s0, "". split; [reflexivity|]. right. split; [lia | reflexivity]. }
  destruct (utf8.lead (byteZ s0)) as [[[sz lo] hi]|] eqn:Hlead.
  2:{ intro H. injection H as <- <-. exact only. }
  apply lead_lo in Hlead.
  destruct t as [|s1 t1]; [intro H; injection H as <- <-; exact only|].
  destruct (negb (utf8.inRange lo hi s1)) eqn:Hin;
    [intro H; injection H as <- <-; exact only|].
  apply inRange_true in Hin.
  assert (H1 : (128 <=? byteZ s1) = true) by (apply Z.leb_le; lia).
  destruct (sz <=? 2)%nat.
  { intro H. injection H as <- <-. exists s0, (String s1 ""). cbn [rune raw].
    split; [reflexivity|]. right. split; [lia|].
    unfold highBytes. cbn. now rewrite H1. }
  destruct t1 as [|s2 t2]; [intro H; injection H as <- <-; exact only|].
  destruct (negb (utf8.cont s2)) eqn:Hc2;
    [intro H; injection H as <- <-; exact only|].
  apply cont_high in Hc2.
  assert (H2 : (128 <=? byteZ s2) = true) by (apply Z.leb_le; lia).
  destruct (sz <=? 3)%nat.
  { intro H. injection H as <- <-. exists s0, (String s1 (String s2 "")).
    cbn [rune raw]. split; [reflexivity|]. right. split; [lia|].
    unfold highBytes. cbn. now rewrite H1, H2. }
  destruct t2 as [|s3 t3]; [intro H; injection H as <- <-; exact only|].
  destruct (negb (utf8.cont s3)) eqn:Hc3;
    [intro H; injection H as <- <-; exact only|].
  apply cont_high in Hc3.
  assert (H3 : (128 <=? byteZ s3) = true) by (apply Z.leb_le; lia).
  intro H. injection H as <- <-.
  exists s0, (String s1 (String s2 (String s3 ""))).
  cbn [rune raw]. split; [reflexivity|]. right. split; [lia|].
  unfold highBytes. cbn. now rewrite H1, H2, H3.
Qed.

Lemma runesFuel_decoded (n : nat) (s : string) :
  Forall decoded (runesFuel n s).
Proof.
  revert s. induction n as [|n IH]; intro s; [constructor|].
  cbn [runesFuel].
  destruct (utf8.DecodeRuneInString s) as [r w] eqn:Hd.
  destruct w as [|w]; constructor; [|apply IH].
  now apply decode_decoded.
Qed.

Lemma list_ascii_app (a b : string) :
  list_ascii_of_string (a ++ b)
  = (list_ascii_of_string a ++ list_ascii_of_string b)%list.
Proof.
  induction a as [|c a IH]; [reflexivity|]. cbn. now rewrite IH.
Qed.

Lemma noSpace_app (a b : string) :
  noSpace (a ++ b) = noSpace a && noSpace b.
Proof. unfold noSpace. now rewrite list_ascii_app, forallb_app. Qed.

Lemma highBytes_noSpace (s : string) : highBytes s = true -> noSpace s = true.
Proof.
  unfold highBytes, noSpace. rewrite !forallb_forall. intros H c Hc.
  specialize (H c Hc). apply Z.leb_le in H.
  destruct (isSpace (byteZ c)) eqn:E; [|reflexivity].
  apply isSpace_small in E. lia.
Qed.

Lemma decoded_noSpace (it : item) :
  decoded it -> classMatches (Neg Space) (rune it) = true ->
  noSpace (raw it) = true.
Proof.
  intros (c & tl & Hraw & [(Hc & Hr & ->) | (Hc & Hh)]) Hcls; rewrite Hraw.
  - cbn [classMatches] in Hcls. rewrite Hr in Hcls.
    unfold noSpace. cbn. now rewrite Hcls.
  - change (String c tl) with (String c "" ++ tl). rewrite noSpace_app.
    apply andb_true_iff. split; [|now apply highBytes_noSpace].
    unfold noSpace. cbn. apply andb_true_iff. split; [|reflexivity].
    destruct (isSpace (byteZ c)) eqn:E; [|reflexivity].
    apply isSpace_small in E. lia.
Qed.

Lemma decoded_text_noSpace (l : list item) :
  Forall decoded l ->
  Forall (fun it => classMatches (Neg Space) (rune it) = true) l ->
  noSpace (text l) = true.
Proof.
  induction l as [|it l IH]; intros Hd Hc; [reflexivity|].
  inversion Hd; inversion Hc; subst.
  rewrite text_cons, noSpace_app. apply andb_true_iff. split.
  - now apply decoded_noSpace.
  - now apply IH.
Qed.

Lemma oneFrom_step (c : cclass) (t t' : thread) :
  In t' (oneFrom c t) ->
  exists it,
    rest t = it :: rest t' /\ classMatches c (rune it) = true
    /\ pos t' = S (pos t) /\ cap1 t' = cap1 t.
Proof.
  unfold oneFrom. destruct (advance t) as [[it tm]|] eqn:Ha; [|intros []].
  destruct (classMatches c (rune it)) eqn:Hc; [|intros []].
  intros [<-|[]]. apply advance_inv in Ha. exists it. tauto.
Qed.

Lemma starFrom_step (c : cclass) (l : list item) (p : nat)
  (cap : option (list item)) (t' : thread) :
  In t' (starFrom c p cap l) ->
  exists used,
    l = (used ++ rest t')%list
    /\ Forall (fun it => classMatches c (rune it) = true) used
    /\ pos t' = (p + List.length used)%nat /\ cap1 t' = cap.
Proof.
  revert p. induction l as [|it l IH]; intros p Hin; simpl in Hin.
  - destruct Hin as [<-|[]]. exists []. cbn. auto.
  - destruct (classMatches c (rune it)) eqn:Hc.
    + apply in_app_or in Hin. destruct Hin as [Hin|[<-|[]]].
      * destruct (IH _ Hin) as (used & Hu & Hall & Hp & Hcap).
        exists (it :: used). cbn [app List.length]. rewrite <- Hu.
        repeat split; auto. lia.
      * exists []. cbn. auto.
    + destruct Hin as [<-|[]]. exists []. cbn. auto.
Qed.

Lemma litFrom_keeps_cap (l : list ascii) (t t' : thread) :
  In t' (litFrom l t) -> cap1 t' = cap1 t.
Proof.
  revert t. induction l as [|a l IH]; intros t Hin; simpl in Hin.
  - now destruct Hin as [<-|[]].
  - destruct (advance t) as [[it tm]|] eqn:Ha; [|destruct Hin].
    destruct (rune it =? byteZ a); [|destruct Hin].
    apply advance_inv in Ha. destruct Ha as (_ & _ & Hc).
    rewrite <- Hc. now apply IH.
Qed.

Lemma run_keeps_cap (r : regex) (t t' : thread) :
  groupFree r = true -> In t' (run r t) -> cap1 t' = cap1 t.
Proof.
  revert t t'. induction r as [| |l|c|c|c|a IHa b IHb|r IH]; intros t t' Hg Hin;
    cbn [run] in Hin; cbn [groupFree] in Hg.
  - now destruct Hin as [<-|[]].
  - destruct (pos t =? 0)%nat; [|destruct Hin]. now destruct Hin as [<-|[]].
  - now apply litFrom_keeps_cap in Hin.
  - apply oneFrom_step in Hin. destruct Hin as (it & _ & _ & _ & H). exact H.
  - apply starFrom_step in Hin. destruct Hin as (u & _ & _ & _ & H). exact H.
  - apply in_flat_map in Hin. destruct Hin as (tm & H1 & H2).
    apply oneFrom_step in H1. destruct H1 as (it & _ & _ & _ & H1).
    apply starFrom_step in H2. destruct H2 as (u & _ & _ & _ & H2).
    congruence.
  - apply andb_true_iff in Hg. destruct Hg as [Ga Gb].
    apply in_flat_map in Hin. destruct Hin as (tm & H1 & H2).
    rewrite (IHb _ _ Gb H2). now apply IHa.
  - discriminate Hg.
Qed.

Lemma re_capture (t0 t : thread) :
  In t (run re t0) ->
  exists it0 it1 used sp more,
    rest t0 = it0 :: it1 :: (used ++ sp :: more)%list
    /\ cap1 t = Some (it0 :: it1 :: used)
    /\ classMatches (Neg (Chars "#")) (rune it0) = true
    /\ classMatches (Neg Space) (rune it1) = true
    /\ Forall (fun it => classMatches (Neg Space) (rune it) = true) used
    /\ classMatches Space (rune sp) = true.
Proof.
  unfold re, seq. cbn [fold_right]. intro H.
  apply run_cat in H. destruct H as (t1 & H1 & H).
  cbn [run] in H1. destruct (pos t0 =? 0)%nat; [|destruct H1].
  destruct H1 as [<-|[]].
  apply run_cat in H. destruct H as (tm & Hgroup & H).
  apply run_cat in H. destruct H as (ts & Hsp & Htail).
  apply run_keeps_cap in Htail; [|reflexivity].
  cbn [run] in Hsp. apply in_flat_map in Hsp. destruct Hsp as (ts1 & Hs1 & Hs2).
  apply oneFrom_step in Hs1. destruct Hs1 as (sp & Rsp & Csp & _ & Ksp).
  apply starFrom_step in Hs2. destruct Hs2 as (_ & _ & _ & _ & Ks2).
  cbn [run] in Hgroup. apply in_map_iff in Hgroup.
  destruct Hgroup as (tg & <- & Hg).
  cbn [rest cap1] in *.
  apply in_flat_map in Hg. destruct Hg as (ta & Ha & Hg).
  apply oneFrom_step in Ha. destruct Ha as (it0 & R0 & C0 & P0 & _).
  apply in_flat_map in Hg. destruct Hg as (tb & Hb & Hg).
  cbn [run] in Hg. destruct Hg as [<-|[]].
  apply in_flat_map in Hb. destruct Hb as (tc & Hc & Hb).
  apply oneFrom_step in Hc. destruct Hc as (it1 & R1 & C1 & P1 & _).
  apply starFrom_step in Hb. destruct Hb as (used & Ru & Cu & Pu & _).
  exists it0, it1, used, sp, (rest ts1).
  split; [rewrite R0, R1, Ru, Rsp; reflexivity|].
  split; [|auto].
  rewrite Htail, Ks2, Ksp. f_equal.
  rewrite Pu, P1, P0, R0, R1, Ru.
  replace (S (S (pos t0)) + List.length used - pos t0)%nat
    with (List.length (it0 :: it1 :: used)) by (cbn [List.length]; lia).
  change (it0 :: it1 :: (used ++ rest tb)%list)
    with ((it0 :: it1 :: used) ++ rest tb)%list.
  rewrite firstn_app, Nat.sub_diag, firstn_all. cbn [firstn].
  now rewrite app_nil_r.
Qed.

(** ** A line that names a path and sets the attribute *)

Lemma runes_ascii_app (p s : string) :
  isAscii p = true ->
  runes (p ++ s) = (map asc (list_ascii_of_string p) ++ runes s)%list.
Proof.
  unfold isAscii. induction p as [|c p IH]; intro H; [reflexivity|].
  simpl in H. apply andb_true_iff in H. destruct H as [Hc Hp].
  cbn [append list_ascii_of_string map app].
  rewrite runes_cons_ascii by now apply Z.ltb_lt.
  now rewrite IH.
Qed.

Lemma decode_width_le (s : string) (r : Z) (w : nat) :
  utf8.DecodeRuneInString s = (r, w) -> (w <= String.length s)%nat.
Proof.
  unfold utf8.DecodeRuneInString.
  repeat match goal with
         | |- context [match ?x with _ => _ end] => destruct x
         end; intro H; injection H as <- <-; cbn [String.length]; lia.
Qed.

Lemma decode_app (x : string) (c : ascii) (tl : string) :
  x <> "" -> byteZ c < 128 ->
  utf8.DecodeRuneInString (x ++ String c tl) = utf8.DecodeRuneInString x.
Proof.
  intros Hx Hc.
  assert (Hr : forall lo hi, 128 <= lo -> utf8.inRange lo hi c = false).
  { intros lo hi Hlo. unfold utf8.inRange. apply andb_false_iff. left.
    apply Z.leb_gt. lia. }
  assert (Hcont : utf8.cont c = false) by (apply Hr; lia).
  destruct x as [|s0 x]; [congruence|]. cbn [append].
  unfold utf8.DecodeRuneInString.
  destruct (byteZ s0 <? 128); [reflexivity|].
  destruct (utf8.lead (byteZ s0)) as [[[sz lo] hi]|] eqn:Hl; [|reflexivity].
  apply lead_lo in Hl.
  destruct x as [|s1 x]; cbn [append].
  { now rewrite (Hr lo hi Hl). }
  destruct (negb (utf8.inRange lo hi s1)); [reflexivity|].
  destruct (sz <=? 2)%nat; [reflexivity|].
  destruct x as [|s2 x]; cbn [append].
  { now rewrite Hcont. }
  destruct (negb (utf8.cont s2)); [reflexivity|].
  destruct (sz <=? 3)%nat; [reflexivity|].
  destruct x as [|s3 x]; cbn [append]; [now rewrite Hcont | reflexivity].
Qed.

Lemma length_append (a b : string) :
  String.length (a ++ b) = (String.length a + String.length b)%nat.
Proof. induction a as [|c a IH]; [reflexivity|]. cbn. now rewrite IH. Qed.

Lemma takeBytes_app (n : nat) (x y : string) :
  (n <= String.length x)%nat -> takeBytes n (x ++ y) = takeBytes n x.
Proof.
  revert x. induction n as [|n IH]; intros [|c x] H; cbn in *;
    try reflexivity; try lia.
  rewrite IH by lia. reflexivity.
Qed.

Lemma dropBytes_app (n : nat) (x y : string) :
  (n <= String.length x)%nat -> dropBytes n (x ++ y) = dropBytes n x ++ y.
Proof.
  revert x. induction n as [|n IH]; intros [|c x] H; cbn in *;
    try reflexivity; try lia.
  apply IH. lia.
Qed.

Lemma runesFuel_enough (n m : nat) (s : string) :
  (String.length s <= n)%nat -> (String.length s <= m)%nat ->
  runesFuel n s = runesFuel m s.
Proof.
  revert m s. induction n as [|n IH]; intros m s Hn Hm.
  - destruct s; [|simpl in Hn; lia]. destruct m; reflexivity.
  - destruct m as [|m].
    + destruct s; [reflexivity | simpl in Hm; lia].
    + cbn [runesFuel].
      destruct (utf8.DecodeRuneInString s) as [r w] eqn:Hd.
      destruct w as [|w]; [reflexivity|].
      apply decode_width_le in Hd.
      f_equal. apply IH; rewrite length_dropBytes; lia.
Qed.

Lemma runesFuel_app (c : ascii) (tl : string) (n : nat) (x : string) :
  byteZ c < 128 ->
  (String.length x <= n)%nat ->
  runesFuel (n + String.length (String c tl)) (x ++ String c tl)
  = (runesFuel n x ++ runes (String c tl))%list.
Proof.
  intro Hc. revert x. induction n as [|n IH]; intros x Hn.
  - destruct x; [|simpl in Hn; lia]. reflexivity.
  - destruct x as [|s0 x].
    + cbn [append runesFuel utf8.DecodeRuneInString app].
      apply runesFuel_enough; lia.
    + cbn [Nat.add runesFuel].
      rewrite decode_app by (assumption || discriminate).
      destruct (utf8.DecodeRuneInString (String s0 x)) as [r w] eqn:Hd.
      pose proof (decode_width_pos _ _ _ _ Hd) as Hpos.
      pose proof (decode_width_le _ _ _ Hd) as Hle.
      destruct w as [|w]; [lia|].
      rewrite takeBytes_app, dropBytes_app by assumption.
      rewrite IH; [reflexivity|].
      rewrite length_dropBytes. cbn [String.length] in *. lia.
Qed.

Lemma runes_app (x : string) (c : ascii) (tl : string) :
  byteZ c < 128 ->
  runes (x ++ String c tl) = (runes x ++ runes (String c tl))%list.
Proof.
  intro Hc. unfold runes at 1 2.
  rewrite <- (runesFuel_app c tl _ x Hc (le_n _)).
  apply runesFuel_enough; rewrite length_append; lia.
Qed.

Lemma allSpace_isAscii (s : string) : allSpace s = true -> isAscii s = true.
Proof.
  unfold allSpace, isAscii. rewrite !forallb_forall. intros H c Hc.
  apply Z.ltb_lt, isSpace_small, H, Hc.
Qed.

(** ** Every way the pattern can match is found *)

Lemma reaches_cat (a b : regex) (t : thread) (mid tl : list item) :
  reaches a t mid ->
  (forall tm, rest tm = mid -> reaches b tm tl) ->
  reaches (Cat a b) t tl.
Proof.
  intros (tm & Hin & Hrest) Hb. destruct (Hb tm Hrest) as (t' & Hin' & Hr').
  exists t'. split; [|assumption]. cbn [run]. apply in_flat_map. eauto.
Qed.

Lemma reaches_one (c : cclass) (t : thread) (it : item) (tl : list item) :
  rest t = it :: tl -> classMatches c (rune it) = true ->
  reaches (One c) t tl.
Proof.
  intros Hr Hc. eexists. cbn [run]. unfold oneFrom, advance. rewrite Hr, Hc.
  split; [now left | reflexivity].
Qed.

Lemma starFrom_complete (c : cclass) (used tl : list item) (p : nat)
  (cap : option (list item)) :
  Forall (fun it => classMatches c (rune it) = true) used ->
  exists t', In t' (starFrom c p cap (used ++ tl)) /\ rest t' = tl.
Proof.
  intro H. revert p. induction H as [|it used Hit _ IH]; intro p.
  - exists {| pos := p; rest := tl; cap1 := cap |}. split; [|reflexivity].
    cbn [app]. destruct tl as [|x tl]; cbn [starFrom]; [now left|].
    destruct (classMatches c (rune x)); [|now left].
    apply in_or_app. right. now left.
  - destruct (IH (S p)) as (t' & Hin & Hr). exists t'. split; [|assumption].
    cbn [app starFrom]. rewrite Hit. apply in_or_app. now left.
Qed.

Lemma reaches_star (c : cclass) (t : thread) (used tl : list item) :
  rest t = (used ++ tl)%list ->
  Forall (fun it => classMatches c (rune it) = true) used ->
  reaches (Star c) t tl.
Proof.
  intros Hr H. unfold reaches. cbn [run]. rewrite Hr.
  now apply starFrom_complete.
Qed.

Lemma reaches_plus (c : cclass) (t : thread) (it : item)
  (used tl : list item) :
  rest t = it :: (used ++ tl)%list ->
  classMatches c (rune it) = true ->
  Forall (fun it => classMatches c (rune it) = true) used ->
  reaches (Plus c) t tl.
Proof.
  intros Hr Hc H. unfold reaches. cbn [run].
  destruct (starFrom_complete c used tl (S (pos t)) (cap1 t) H)
    as (t' & Hin & Hr').
  exists t'. split; [|assumption]. apply in_flat_map.
  eexists. split.
  - unfold oneFrom, advance. rewrite Hr, Hc. now left.
  - exact Hin.
Qed.

Lemma litFrom_complete (l : list ascii) (t : thread) (tl : list item) :
  rest t = (map asc l ++ tl)%list ->
  exists t', In t' (litFrom l t) /\ rest t' = tl.
Proof.
  revert t. induction l as [|a l IH]; intros t Hr.
  - exists t. split; [now left | exact Hr].
  - cbn [litFrom]. unfold advance. rewrite Hr. cbn [map app asc rune].
    rewrite Z.eqb_refl. apply IH. reflexivity.
Qed.

Lemma reaches_lit (l : string) (t : thread) (tl : list item) :
  rest t = (map asc (list_ascii_of_string l) ++ tl)%list ->
  reaches (Lit l) t tl.
Proof. intro Hr. unfold reaches. cbn [run]. now apply litFrom_complete. Qed.

Lemma reaches_group (r : regex) (t : thread) (tl : list item) :
  reaches r t tl -> reaches (Group r) t tl.
Proof.
  intros (t' & Hin & Hr). eexists. split.
  - cbn [run]. apply in_map_iff. exists t'. split; [reflexivity | exact Hin].
  - exact Hr.
Qed.

Lemma reaches_empty (t : thread) : reaches Empty t (rest t).
Proof. exists t. split; [now left | reflexivity]. Qed.

(** ** The runes of a path *)

Lemma nonspace_runes (l : list item) :
  Forall plain l -> noSpace (text l) = true ->
  Forall (fun it => classMatches (Neg Space) (rune it) = true) l.
Proof.
  induction l as [|it l IH]; intros Hp Hn; constructor.
  - inversion Hp as [|? ? Hit _]; subst.
    rewrite text_cons, noSpace_app in Hn. apply andb_true_iff in Hn.
    destruct Hn as [Hn _]. cbn [classMatches].
    destruct (isSpace (rune it)) eqn:E; [|reflexivity].
    destruct (Hit (isSpace_small _ E)) as (c & Hraw & Hc).
    rewrite Hraw in Hn. unfold noSpace in Hn. cbn in Hn.
    rewrite Hc, E in Hn. discriminate Hn.
  - inversion Hp; subst. rewrite text_cons, noSpace_app in Hn.
    apply andb_true_iff in Hn. apply IH; tauto.
Qed.

Lemma nodot_runes (l : list item) :
  Forall plain l -> noNewline (text l) = true ->
  Forall (fun it => classMatches Dot (rune it) = true) l.
Proof.
  induction l as [|it l IH]; intros Hp Hn; constructor.
  - inversion Hp as [|? ? Hit _]; subst.
    rewrite text_cons in Hn. unfold noNewline in Hn.
    rewrite list_ascii_app, forallb_app in Hn. apply andb_true_iff in Hn.
    destruct Hn as [Hn _]. cbn [classMatches].
    destruct (rune it =? 10) eqn:E; [|reflexivity].
    apply Z.eqb_eq in E.
    destruct (Hit ltac:(lia)) as (c & Hraw & Hc).
    rewrite Hraw in Hn. cbn in Hn. unfold isLF in Hn.
    rewrite E in Hc. change 10 with (byteZ (ascii_of_nat 10)) in Hc.
    apply byteZ_inj in Hc. subst c. discriminate Hn.
  - inversion Hp; subst. rewrite text_cons in Hn. unfold noNewline in *.
    rewrite list_ascii_app, forallb_app in Hn.
    apply andb_true_iff in Hn. apply IH; tauto.
Qed.

Lemma path_runes (c0 : ascii) (s : string) :
  c0 <> "#"%char ->
  noSpace s = true ->
  (2 <= runeCount (String c0 s))%nat ->
  exists it0 it1 used,
    runes (String c0 s) = it0 :: it1 :: used
    /\ classMatches (Neg (Chars "#")) (rune it0) = true
    /\ Forall (fun it => classMatches (Neg Space) (rune it) = true)
         (it1 :: used).
Proof.
  intros Hc0 Hns Hcount. unfold runeCount in Hcount.
  pose proof (text_runes (String c0 s)) as Htext.
  pose proof (runesFuel_plain (String.length (String c0 s)) (String c0 s))
    as Hplain.
  pose proof (runesFuel_decoded (String.length (String c0 s)) (String c0 s))
    as Hdec.
  fold (runes (String c0 s)) in Hplain, Hdec.
  destruct (runes (String c0 s)) as [|it0 [|it1 used]];
    cbn [List.length] in Hcount; try lia.
  exists it0, it1, used. split; [reflexivity|].
  apply Forall_cons_iff in Hplain. destruct Hplain as [P0 Hplain].
  apply Forall_cons_iff in Hdec. destruct Hdec as [(c & tl0 & Hraw & _) _].
  rewrite text_cons, Hraw in Htext. cbn [append] in Htext.
  injection Htext as -> Hs. split.
  - cbn [classMatches list_ascii_of_string existsb].
    destruct (byteZ "#" =? rune it0) eqn:E; [|reflexivity].
    apply Z.eqb_eq in E. exfalso.
    destruct (P0 ltac:(rewrite <- E; reflexivity)) as (c' & Hraw' & Hc').
    rewrite Hraw in Hraw'. injection Hraw' as -> _.
    rewrite <- E in Hc'. apply byteZ_inj in Hc'. congruence.
  - apply nonspace_runes; [assumption|].
    rewrite <- Hs, noSpace_app in Hns. apply andb_true_iff in Hns. tauto.
Qed.

Lemma split_unique {A : Type} (P : A -> bool) (a a' b b' : list A) (x x' : A) :
  Forall (fun y => P y = true) a -> P x = false ->
  Forall (fun y => P y = true) a' -> P x' = false ->
  (a ++ x :: b = a' ++ x' :: b')%list -> a = a'.
Proof.
  intros Ha Hx. revert a'. induction Ha as [|y a Hy _ IH]; intros a' Ha' Hx' E.
  - destruct a' as [|y' a']; [reflexivity|]. cbn in E. injection E as -> _.
    inversion Ha'; subst. congruence.
  - destruct a' as [|y' a']; cbn in E; injection E as -> E.
    + congruence.
    + inversion Ha'; subst. f_equal. now apply IH.
Qed.

Lemma path_line_contribution (c0 : ascii) (s : string) (ws : ascii)
  (attrs : string) :
  c0 <> "#"%char ->
  noSpace s = true ->
  (2 <= runeCount (String c0 s))%nat ->
  isSpace (byteZ ws) = true ->
  setsGenerated attrs ->
  contribution (String c0 s ++ String ws attrs) = [String c0 s].
Proof.
  intros Hc0 Hns Hcount Hws (pre & ws1 & ws2 & post & -> & Hpre & H1 & H2).
  destruct (path_runes c0 s Hc0 Hns Hcount)
    as (it0 & it1 & used & Hp & C0 & Cpath).
  set (p := String c0 s) in *.
  set (after2 := runes post).
  set (tail := (runes pre ++ map asc (list_ascii_of_string "linguist-generated")
                ++ map asc (list_ascii_of_string ws1)
                ++ map asc (list_ascii_of_string "=")
                ++ map asc (list_ascii_of_string ws2)
                ++ map asc (list_ascii_of_string "true") ++ after2)%list).
  assert (Hrunes : runes (p ++ String ws (pre ++ "linguist-generated" ++ ws1
                                            ++ "=" ++ ws2 ++ "true" ++ post))
                   = it0 :: it1 :: (used ++ asc ws :: tail)%list).
  { rewrite runes_app by now apply isSpace_small.
    rewrite Hp, runes_cons_ascii by now apply isSpace_small.
    change ("linguist-generated" ++ ws1 ++ "=" ++ ws2 ++ "true" ++ post)
      with (String "l" ("inguist-generated" ++ ws1 ++ "=" ++ ws2 ++ "true" ++ post)).
    rewrite runes_app by reflexivity.
    change (String "l" ("inguist-generated" ++ ws1 ++ "=" ++ ws2 ++ "true" ++ post))
      with ("linguist-generated" ++ ws1 ++ "=" ++ ws2 ++ "true" ++ post).
    rewrite (runes_ascii_app "linguist-generated") by reflexivity.
    rewrite (runes_ascii_app ws1) by now apply allSpace_isAscii.
    rewrite (runes_ascii_app "=") by reflexivity.
    rewrite (runes_ascii_app ws2) by now apply allSpace_isAscii.
    rewrite (runes_ascii_app "true") by reflexivity.
    reflexivity. }
  set (t0 := {| pos := 0; rest := it0 :: it1 :: (used ++ asc ws :: tail)%list;
                cap1 := None |}).
  assert (Hspaces : forall w, allSpace w = true ->
            Forall (fun it => classMatches Space (rune it) = true)
              (map asc (list_ascii_of_string w))).
  { intros w Hw. apply Forall_forall. intros it Hin.
    apply in_map_iff in Hin. destruct Hin as (a & <- & Ha).
    unfold allSpace in Hw. rewrite forallb_forall in Hw. exact (Hw a Ha). }
  assert (Hmatch : reaches re t0 after2).
  { unfold re, seq. cbn [fold_right].
    apply (reaches_cat _ _ _ (rest t0)).
    { exists t0. split; [now left | reflexivity]. }
    intros t1 R1. apply (reaches_cat _ _ _ (asc ws :: tail)).
    { apply reaches_group.
      apply (reaches_cat _ _ _ (it1 :: (used ++ asc ws :: tail)%list)).
      { now apply (reaches_one _ _ it0). }
      intros t2 R2. apply (reaches_cat _ _ _ (asc ws :: tail)).
      { inversion Cpath; subst. now apply (reaches_plus _ _ it1 used). }
      intros t3 R3. rewrite <- R3. apply reaches_empty. }
    intros t2 R2. apply (reaches_cat _ _ _ tail).
    { apply (reaches_plus _ _ (asc ws) []); [exact R2 | exact Hws | constructor]. }
    intros t3 R3. unfold tail in *.
    eapply reaches_cat.
    { apply (reaches_star _ _ (runes pre)); [exact R3|].
      apply nodot_runes; [apply runesFuel_plain | now rewrite text_runes]. }
    intros t4 R4. eapply reaches_cat; [now apply reaches_lit; exact R4|].
    intros t5 R5. eapply reaches_cat.
    { apply (reaches_star _ _ (map asc (list_ascii_of_string ws1)));
        [exact R5 | now apply Hspaces]. }
    intros t6 R6. eapply reaches_cat; [now apply reaches_lit; exact R6|].
    intros t7 R7. eapply reaches_cat.
    { apply (reaches_star _ _ (map asc (list_ascii_of_string ws2)));
        [exact R7 | now apply Hspaces]. }
    intros t8 R8. eapply reaches_cat; [now apply reaches_lit; exact R8|].
    intros t9 R9. rewrite <- R9. apply reaches_empty. }
  destruct Hmatch as (t' & Hin' & _).
  destruct (run re t0) as [|t ts] eqn:Hrun; [destruct Hin'|].
  assert (Hin : In t (run re t0)) by (rewrite Hrun; now left).
  apply re_capture in Hin.
  destruct Hin as (i0 & i1 & u & sp & more & Hl & Hcap & _ & _ & Cu & Csp).
  cbn [rest t0] in Hl. injection Hl as <- <- Hl.
  inversion Cpath as [|? ? _ Cused]; subst.
  assert (Hu : used = u).
  { apply (split_unique (fun it => classMatches (Neg Space) (rune it))
             used u tail more (asc ws) sp); try assumption.
    - cbn [classMatches asc rune]. now rewrite Hws.
    - cbn [classMatches] in *. now rewrite Csp. }
  subst u.
  unfold contribution, scanStep, FindStringSubmatch. rewrite Hrunes.
  cbn [search]. fold t0. rewrite Hrun, Hcap.
  cbn [len List.length Z.of_nat Z.ltb Z.compare Pos.of_succ_nat Pos.succ
       Pos.compare Pos.compare_cont nth app].
  f_equal. rewrite <- Hp. apply text_runes.
Qed.

(** ** Only such lines add a pattern *)

Lemma re_match_shape (t0 t : thread) :
  In t (run re t0) ->
  exists it0 it1 used sp sps dots L1 W1 E W2 T,
    rest t0 = (it0 :: it1 :: used ++ sp :: sps ++ dots ++ L1 ++ W1 ++ E
                 ++ W2 ++ T ++ rest t)%list
    /\ cap1 t = Some (it0 :: it1 :: used)
    /\ classMatches (Neg (Chars "#")) (rune it0) = true
    /\ Forall (fun it => classMatches (Neg Space) (rune it) = true) (it1 :: used)
    /\ classMatches Space (rune sp) = true
    /\ Forall (fun it => classMatches Space (rune it) = true) sps
    /\ Forall (fun it => classMatches Dot (rune it) = true) dots
    /\ map rune L1 = codes "linguist-generated"
    /\ Forall (fun it => classMatches Space (rune it) = true) W1
    /\ map rune E = codes "="
    /\ Forall (fun it => classMatches Space (rune it) = true) W2
    /\ map rune T = codes "true".
Proof.
  intro H. pose proof (re_capture t0 t H)
    as (it0 & it1 & used & sp & more & Hl & Hcap & C0 & C1 & Cu & Csp).
  unfold re, seq in H. cbn [fold_right] in H.
  apply run_cat in H. destruct H as (t1 & H1 & H).
  cbn [run] in H1. destruct (pos t0 =? 0)%nat; [|destruct H1].
  destruct H1 as [<-|[]].
  apply run_cat in H. destruct H as (tm & Hgroup & H).
  apply run_cat in H. destruct H as (ts & Hsp & H).
  apply run_cat in H. destruct H as (t4 & H4 & H).
  apply run_cat in H. destruct H as (t5 & H5 & H).
  apply run_cat in H. destruct H as (t6 & H6 & H).
  apply run_cat in H. destruct H as (t7 & H7 & H).
  apply run_cat in H. destruct H as (t8 & H8 & H).
  apply run_cat in H. destruct H as (t9 & H9 & H).
  cbn [run] in H. destruct H as [<-|[]].
  cbn [run] in Hsp. apply in_flat_map in Hsp. destruct Hsp as (ts1 & Hs1 & Hs2).
  apply oneFrom_step in Hs1. destruct Hs1 as (sp' & Rsp & Csp' & _ & _).
  apply starFrom_step in Hs2. destruct Hs2 as (sps & Rsps & Csps & _ & _).
  cbn [run] in H4, H5, H6, H7, H8, H9.
  apply starFrom_step in H4. destruct H4 as (dots & R4 & C4 & _ & _).
  apply litFrom_sound in H5. destruct H5 as (L1 & R5 & M5).
  apply starFrom_step in H6. destruct H6 as (W1 & R6 & C6 & _ & _).
  apply litFrom_sound in H7. destruct H7 as (E & R7 & M7).
  apply starFrom_step in H8. destruct H8 as (W2 & R8 & C8 & _ & _).
  apply litFrom_sound in H9. destruct H9 as (T & R9 & M9).
  (* the group *)
  cbn [run] in Hgroup. apply in_map_iff in Hgroup.
  destruct Hgroup as (tg & <- & Hg). cbn [rest] in *.
  apply in_flat_map in Hg. destruct Hg as (ta & Ha & Hg).
  apply oneFrom_step in Ha. destruct Ha as (i0 & R0 & _ & _ & _).
  apply in_flat_map in Hg. destruct Hg as (tb & Hb & Hg).
  cbn [run] in Hg. destruct Hg as [<-|[]].
  apply in_flat_map in Hb. destruct Hb as (tc & Hc & Hb).
  apply oneFrom_step in Hc. destruct Hc as (i1 & R1 & _ & _ & _).
  apply starFrom_step in Hb. destruct Hb as (u & Ru & Cu' & _ & _).
  rewrite R0, R1, Ru, Rsp in Hl. injection Hl as -> -> Hl.
  assert (Hu : u = used).
  { apply (split_unique (fun it => classMatches (Neg Space) (rune it))
             u used (rest ts1) more sp' sp); try assumption.
    - cbn [classMatches] in *. now rewrite Csp'.
    - cbn [classMatches] in *. now rewrite Csp. }
  subst u. apply app_inv_head in Hl. injection Hl as -> <-.
  exists it0, it1, used, sp, sps, dots, L1, W1, E, W2, T.
  split.
  { rewrite R0, R1, Ru, Rsp, Rsps, R4, R5, R6, R7, R8, R9. reflexivity. }
  repeat split; try assumption. constructor; assumption.
Qed.

Lemma append_inv_head (a u v : string) : a ++ u = a ++ v -> u = v.
Proof. induction a as [|c a IH]; cbn; intro H; [exact H|]. injection H as H. auto. Qed.

Lemma text_prefix_unique (X A Y B : list item) :
  Forall decoded X -> Forall decoded A ->
  (X ++ Y = A ++ B)%list -> text X = text A -> X = A.
Proof.
  intro HX. revert A. induction HX as [|x X (c & tl & Hraw & _) _ IH];
    intros A HA E Ht.
  - destruct A as [|a A]; [reflexivity|].
    inversion HA as [|? ? (c & tl & Hraw & _) _]; subst.
    rewrite text_cons, Hraw in Ht. discriminate Ht.
  - destruct A as [|a A].
    + rewrite text_cons, Hraw in Ht. discriminate Ht.
    + cbn [app] in E. injection E as <- E. inversion HA; subst.
      rewrite !text_cons in Ht. apply append_inv_head in Ht.
      f_equal. now apply IH.
Qed.

Lemma noNewline_app (a b : string) :
  noNewline (a ++ b) = noNewline a && noNewline b.
Proof. unfold noNewline. now rewrite list_ascii_app, forallb_app. Qed.

Lemma contribution_shape (line p : string) :
  noNewline line = true ->
  In p (contribution line) ->
  exists c0 s ws attrs,
    line = p ++ String ws attrs
    /\ p = String c0 s /\ c0 <> "#"%char /\ noSpace s = true
    /\ (2 <= runeCount p)%nat
    /\ isSpace (byteZ ws) = true
    /\ setsGenerated attrs.
Proof.
  intro Hnl. unfold contribution, scanStep. cbn [app].
  destruct (1 <? len (FindStringSubmatch re line)) eqn:Hlen; [|intros []].
  intros [<-|[]].
  unfold FindStringSubmatch in *.
  pose proof (text_runes line) as Htext.
  pose proof (runesFuel_decoded (String.length line) line) as Hdec.
  pose proof (runesFuel_plain (String.length line) line) as Hplain.
  fold (runes line) in Hdec, Hplain.
  destruct (runes line) as [|x l] eqn:Hrl; cbn [search] in *.
  { replace (run re {| pos := 0; rest := []; cap1 := None |}) with (@nil thread)
      in Hlen by reflexivity.
    discriminate Hlen. }
  destruct (run re {| pos := 0; rest := x :: l; cap1 := None |})
    as [|t ts] eqn:Hrun.
  { rewrite search_not_at_start in Hlen. discriminate Hlen. }
  assert (Hin : In t (run re {| pos := 0; rest := x :: l; cap1 := None |}))
    by (rewrite Hrun; now left).
  apply re_match_shape in Hin. cbn [rest] in Hin.
  destruct Hin as (it0 & it1 & used & sp & sps & dots & L1 & W1 & E & W2 & T
                   & Hl & Hcap & C0 & Cpath & Csp & Csps & Cdots & M1 & CW1
                   & M2 & CW2 & M3).
  cbn [nth]. rewrite Hcap.
  set (A := it0 :: it1 :: used) in *.
  set (more := (sps ++ dots ++ L1 ++ W1 ++ E ++ W2 ++ T ++ rest t)%list) in *.
  assert (Hsplit : x :: l = (A ++ sp :: more)%list) by exact Hl.
  rewrite Hsplit in Hdec, Hplain, Htext, Hrl.
  apply Forall_app in Hdec. destruct Hdec as [DA _].
  apply Forall_app in Hplain. destruct Hplain as [PA Pmore].
  apply Forall_cons_iff in Pmore. destruct Pmore as [Psp Pmore].
  cbn [classMatches] in Csp.
  destruct (Psp (isSpace_small _ Csp)) as (ws & Hws & Hwsr).
  rewrite text_app, text_cons, Hws in Htext. cbn [append] in Htext.
  pose proof DA as DA'. unfold A in DA'.
  apply Forall_cons_iff in DA'. destruct DA' as [(c & tl0 & Hraw0 & _) _].
  assert (Hsmall : byteZ ws < 128) by (rewrite Hwsr; now apply isSpace_small).
  exists c, (tl0 ++ text (it1 :: used)), ws, (text more).
  split; [now rewrite Htext|].
  split; [unfold A; now rewrite text_cons, Hraw0|].
  split; [|split; [|split; [|split]]].
  - intros ->. cbn [classMatches list_ascii_of_string existsb] in C0.
    apply Forall_cons_iff in PA. destruct PA as [P0 _].
    destruct (byteZ "#" =? rune it0) eqn:E0; [discriminate C0|].
    apply Z.eqb_neq in E0.
    destruct (Z_lt_ge_dec (rune it0) 128) as [Hlt|Hge].
    + destruct (P0 Hlt) as (c' & Hraw' & Hc'). rewrite Hraw0 in Hraw'.
      injection Hraw' as <- _. congruence.
    + apply Forall_cons_iff in DA. destruct DA as [(c' & tl' & Hr' & Hk) _].
      rewrite Hraw0 in Hr'. injection Hr' as <- <-.
      destruct Hk as [(_ & Hr & _) | (Hc & _)].
      * rewrite Hr in E0. congruence.
      * cbn in Hc. lia.
  - rewrite noSpace_app. apply andb_true_iff. split.
    + apply Forall_cons_iff in DA. destruct DA as [(c' & tl' & Hr' & Hk) _].
      rewrite Hraw0 in Hr'. injection Hr' as <- <-.
      destruct Hk as [(_ & _ & ->) | (_ & Hh)];
        [reflexivity | now apply highBytes_noSpace].
    + apply decoded_text_noSpace; [|assumption].
      apply Forall_cons_iff in DA. tauto.
  - unfold runeCount.
    assert (HA : runes (text A) = A).
    { apply (text_prefix_unique _ A (asc ws :: runes (text more)) (sp :: more));
        [apply runesFuel_decoded | assumption | | apply text_runes].
      rewrite <- Hrl, <- Htext, runes_app by assumption.
      now rewrite runes_cons_ascii by assumption. }
    rewrite HA. unfold A. cbn [List.length]. lia.
  - now rewrite Hwsr.
  - exists (text sps ++ text dots), (text W1), (text W2), (text (rest t)).
    apply Forall_app in Pmore. destruct Pmore as [Psps Pmore].
    apply Forall_app in Pmore. destruct Pmore as [Pdots Pmore].
    apply Forall_app in Pmore. destruct Pmore as [PL1 Pmore].
    apply Forall_app in Pmore. destruct Pmore as [PW1 Pmore].
    apply Forall_app in Pmore. destruct Pmore as [PE Pmore].
    apply Forall_app in Pmore. destruct Pmore as [PW2 Pmore].
    apply Forall_app in Pmore. destruct Pmore as [PT _].
    split; [|split; [|split; now apply plain_spaces]].
    + unfold more. rewrite !text_app.
      rewrite (plain_text_of_literal "linguist-generated" L1) by auto.
      rewrite (plain_text_of_literal "=" E) by auto.
      rewrite (plain_text_of_literal "true" T) by auto.
      now rewrite !append_assoc.
    + rewrite <- Htext in Hnl. rewrite noNewline_app in Hnl.
      apply andb_true_iff in Hnl. destruct Hnl as [_ Hnl].
      change (String ws (text more)) with (String ws "" ++ text more) in Hnl.
      rewrite noNewline_app in Hnl. apply andb_true_iff in Hnl.
      destruct Hnl as [_ Hnl]. unfold more in Hnl.
      rewrite !text_app, <- append_assoc, noNewline_app in Hnl.
      apply andb_true_iff in Hnl. tauto.
Qed.

(** ** Lines *)

Lemma scanFrom_line (l tl : string) (cur : list ascii) (n : Z) :
  forallb (fun c => negb (isLF c)) (list_ascii_of_string l) = true ->
  n + Z.of_nat (String.length l) < bufio.MaxScanTokenSize ->
  bufio.scanFrom (l ++ LF ++ tl) cur n
  = (bufio.token (rev (list_ascii_of_string l) ++ cur)
       :: fst (bufio.scanFrom tl [] 0),
     snd (bufio.scanFrom tl [] 0)).
Proof.
  revert cur n. induction l as [|c l IH]; intros cur n Hlf Hlen.
  - cbn [append LF chr bufio.scanFrom]. rewrite Ascii.eqb_refl.
    destruct (bufio.scanFrom tl [] 0). reflexivity.
  - cbn [list_ascii_of_string forallb] in Hlf.
    apply andb_true_iff in Hlf. destruct Hlf as [Hc Hl].
    cbn [append bufio.scanFrom]. unfold isLF in Hc.
    apply negb_true_iff in Hc. rewrite Hc.
    cbn [String.length] in Hlen.
    replace (bufio.MaxScanTokenSize <=? n + 1) with false
      by (symmetry; apply Z.leb_gt; lia).
    rewrite IH by (assumption || lia).
    cbn [list_ascii_of_string rev]. now rewrite <- app_assoc.
Qed.

Lemma scanLines_unlines (lines : list string) :
  Forall plainLine lines ->
  bufio.scanLines (unlines lines) = (lines, None).
Proof.
  unfold bufio.scanLines.
  induction 1 as [|l lines (Hlf & Hcr & Hlen) _ IH]; [reflexivity|].
  cbn [unlines fold_right]. fold (unlines lines).
  rewrite scanFrom_line by (assumption || lia).
  rewrite IH. cbn [fst snd]. f_equal. f_equal.
  unfold bufio.token. rewrite app_nil_r, Hcr, rev_involutive.
  apply string_of_list_ascii_of_string.
Qed.

Lemma prefix_app (p s : string) :
  prefix p s = true <-> exists r, s = p ++ r.
Proof.
  revert s. induction p as [|a p IH]; intro s.
  - split; [intros _; now exists s | now destruct s].
  - destruct s as [|b s]; cbn [prefix append].
    + split; [discriminate | intros (r & H); discriminate].
    + destruct (ascii_dec a b) as [->|Hne].
      * split.
        -- intro H. apply IH in H. destruct H as (r & ->). now exists r.
        -- intros (r & H). apply IH. exists r. congruence.
      * split; [discriminate | intros (r & H); congruence].
Qed.

Lemma Contains_spec (s sub : string) :
  Contains s sub = true <-> contains s sub.
Proof.
  unfold contains. induction s as [|c s IH]; cbn [Contains].
  - rewrite orb_false_r, prefix_app. split.
    + intros (r & H). exists "", r. exact H.
    + intros ([|x pre] & post & H); [eauto | discriminate].
  - rewrite orb_true_iff, prefix_app, IH. split.
    + intros [(r & H) | (pre & post & H)].
      * exists "", r. exact H.
      * exists (String c pre), post. simpl. now rewrite H.
    + intros ([|x pre] & post & H).
      * left. eauto.
      * right. simpl in H. injection H as _ H. eauto.
Qed.

Lemma scanFrom_too_long (l tl : string) (cur : list ascii) (n : Z) :
  forallb (fun c => negb (isLF c)) (list_ascii_of_string l) = true ->
  n < bufio.MaxScanTokenSize ->
  bufio.MaxScanTokenSize <= n + Z.of_nat (String.length l) ->
  bufio.scanFrom (l ++ tl) cur n = ([], Some bufio.ErrTooLong).
Proof.
  revert cur n. induction l as [|c l IH]; intros cur n Hlf Hn Hlen.
  - cbn [String.length] in Hlen. lia.
  - cbn [list_ascii_of_string forallb] in Hlf.
    apply andb_true_iff in Hlf. destruct Hlf as [Hc Hl].
    cbn [append bufio.scanFrom]. unfold isLF in Hc.
    apply negb_true_iff in Hc. rewrite Hc.
    destruct (bufio.MaxScanTokenSize <=? n + 1) eqn:E; [reflexivity|].
    apply Z.leb_gt in E. cbn [String.length] in Hlen.
    apply IH; (assumption || lia).
Qed.

Lemma long_line_stops_scan (before : list string) (long tl : string) :
  Forall plainLine before ->
  forallb (fun c => negb (isLF c)) (list_ascii_of_string long) = true ->
  bufio.MaxScanTokenSize <= Z.of_nat (String.length long) ->
  snd (bufio.scanLines (unlines before ++ long ++ tl)) = Some bufio.ErrTooLong.
Proof.
  intros Hb Hlf Hlen. unfold bufio.scanLines.
  induction Hb as [|l before (Hl & _ & Hn) _ IH].
  - cbn [unlines fold_right append].
    rewrite scanFrom_too_long; (reflexivity || assumption).
  - cbn [unlines fold_right]. fold (unlines before).
    rewrite !append_assoc. rewrite scanFrom_line by (assumption || lia).
    exact IH.
Qed.

(** ** The patterns read from .gitattributes *)

Lemma generated_patterns (w : World) (content : string) (lines : list string) :
  readFile w ".gitattributes" = Ok content ->
  bufio.scanLines content = (lines, None) ->
  getGeneratedFilesFromGitattributes w = Ok (flat_map contribution lines).
Proof.
  intros Hr Hs. unfold getGeneratedFilesFromGitattributes.
  rewrite Hr, Hs, scan_loop. reflexivity.
Qed.

(** A line of 64 KiB or more is not skipped: the scanner gives up and no
    pattern is returned at all. *)
Lemma long_line_is_an_error (w : World) (before : list string)
  (long tl : string) :
  readFile w ".gitattributes" = Ok (unlines before ++ long ++ tl) ->
  Forall plainLine before ->
  forallb (fun c => negb (isLF c)) (list_ascii_of_string long) = true ->
  bufio.MaxScanTokenSize <= Z.of_nat (String.length long) ->
  getGeneratedFilesFromGitattributes w = Err bufio.ErrTooLong.
Proof.
  intros Hr Hb Hlf Hlen. unfold getGeneratedFilesFromGitattributes. rewrite Hr.
  pose proof (long_line_stops_scan before long tl Hb Hlf Hlen) as Hs.
  destruct (bufio.scanLines _) as [lines err]. cbn [snd] in Hs. now rewrite Hs.
Qed.

(** The lines the scanner delivers hold no newline. *)
Lemma scanFrom_noNewline (content : string) (cur : list ascii) (n : Z) :
  forallb (fun c => negb (isLF c)) cur = true ->
  Forall (fun l => noNewline l = true) (fst (bufio.scanFrom content cur n)).
Proof.
  assert (Htoken : forall cur, forallb (fun c => negb (isLF c)) cur = true ->
                     noNewline (bufio.token cur) = true).
  { intros cur0 H. unfold noNewline, bufio.token.
    rewrite list_ascii_of_string_of_list_ascii. apply forallb_forall.
    intros c Hc. apply in_rev in Hc. rewrite forallb_forall in H. apply H.
    unfold bufio.dropCR in Hc. destruct cur0 as [|c' tl]; [destruct Hc|].
    destruct (Ascii.eqb c' CR); [now right | exact Hc]. }
  revert cur n. induction content as [|c tl IH]; intros cur n Hcur.
  - cbn [bufio.scanFrom fst]. destruct (n =? 0); constructor; auto.
  - cbn [bufio.scanFrom]. destruct (Ascii.eqb c (ascii_of_nat 10)) eqn:Ec.
    + specialize (IH [] 0 eq_refl).
      destruct (bufio.scanFrom tl [] 0) as [lines err]. cbn [fst] in *.
      constructor; auto.
    + destruct (bufio.MaxScanTokenSize <=? n + 1); [constructor|].
      apply IH. cbn [forallb]. unfold isLF. now rewrite Ec.
Qed.

Lemma scanned_lines_have_no_newline (content : string) (lines : list string)
  (err : option string) :
  bufio.scanLines content = (lines, err) ->
  Forall (fun l => noNewline l = true) lines.
Proof.
  intro H. pose proof (scanFrom_noNewline content [] 0 eq_refl) as Hs.
  unfold bufio.scanLines in H. now rewrite H in Hs.
Qed.

(** C5, as the code has it.  A path is two characters or more, the first
    not [#], the others not white space.  A line made of a path, a white
    space and a text that sets the attribute (anything without a line
    break, [linguist-generated], an equals sign and [true] with any white
    space around the equals sign, anything) adds the path; a line without
    newline that adds a pattern is such a line and the pattern is its path;
    a line without the attribute adds nothing; a line that begins with [#]
    adds nothing; and whenever the scanner reads the file to its end, a
    line that adds nothing is passed over, the lines before and after it
    giving their patterns in order. *)
Theorem gitattributes_patterns :
  contribution "generated.go linguist-generated=true" = ["generated.go"]
  /\ (forall (c0 : ascii) (s : string) (ws : ascii) (attrs : string),
        c0 <> "#"%char ->
        noSpace s = true ->
        (2 <= runeCount (String c0 s))%nat ->
        isSpace (byteZ ws) = true ->
        setsGenerated attrs ->
        contribution (String c0 s ++ String ws attrs) = [String c0 s])
  /\ (forall line p : string,
        noNewline line = true ->
        In p (contribution line) ->
        exists (c0 : ascii) (s : string) (ws : ascii) (attrs : string),
          line = p ++ String ws attrs
          /\ p = String c0 s /\ c0 <> "#"%char /\ noSpace s = true
          /\ (2 <= runeCount p)%nat
          /\ isSpace (byteZ ws) = true
          /\ setsGenerated attrs)
  /\ (forall line, ~ hasGeneratedAttr line -> contribution line = [])
  /\ (forall tl, contribution (String "#" tl) = [])
  /\ (forall (w : World) (content : string) (before after : list string)
             (skipped : string),
        readFile w ".gitattributes" = Ok content ->
        bufio.scanLines content = ((before ++ skipped :: after)%list, None) ->
        contribution skipped = [] ->
        getGeneratedFilesFromGitattributes w
        = Ok (flat_map contribution before ++ flat_map contribution after)%list).
Proof.
  split; [vm_compute; reflexivity|].
  split; [exact path_line_contribution|].
  split; [exact contribution_shape|].
  split; [|split].
  - intros line Hno. apply no_match_no_contribution.
    destruct (FindStringSubmatch re line) eqn:E; [reflexivity|].
    exfalso. apply Hno, match_has_attr. rewrite E. discriminate.
  - intro tl. apply no_match_no_contribution, comment_line_no_match.
  - intros w content before after skipped Hr Hscan Hs.
    rewrite (generated_patterns w _ _ Hr Hscan).
    rewrite flat_map_app. cbn [flat_map]. now rewrite Hs.
Qed.

Lemma gitattributes_patterns_witness :
  contribution ((eAcute ++ ".go") ++ TAB ++ "-diff linguist-generated=true")
  = [eAcute ++ ".go"]
  /\ contribution "*.md text" = []
  /\ getGeneratedFilesFromGitattributes
       (attributesWorld
          (unlines ["a.pb.go linguist-generated=true"; "*.md text";
                    "# generated code"; "dist/app.js linguist-generated=true"]))
     = Ok ["a.pb.go"; "dist/app.js"].
Proof.
  pose proof gitattributes_patterns as (_ & Hpath & _ & Hnone & _ & Hskip).
  split; [|split].
  - apply (Hpath (ascii_of_nat 195) (chr 169 ++ ".go") (ascii_of_nat 9)
             "-diff linguist-generated=true");
      [discriminate | reflexivity | vm_compute; lia | reflexivity |].
    exists "-diff ", "", "", "". repeat split.
  - apply (Hnone "*.md text"). intros (pre & ws1 & ws2 & post & H & _).
    assert (Hc : contains "*.md text" "linguist-generated").
    { exists pre, (ws1 ++ "=" ++ ws2 ++ "true" ++ post). exact H. }
    apply Contains_spec in Hc. discriminate Hc.
  - apply (Hskip (attributesWorld
                    (unlines ["a.pb.go linguist-generated=true"; "*.md text";
                              "# generated code";
                              "dist/app.js linguist-generated=true"]))
             (unlines ["a.pb.go linguist-generated=true"; "*.md text";
                       "# generated code";
                       "dist/app.js linguist-generated=true"])
             ["a.pb.go linguist-generated=true"]
             ["# generated code"; "dist/app.js linguist-generated=true"]
             "*.md text").
    + reflexivity.
    + vm_compute. reflexivity.
    + reflexivity.
Defined.

(** C5 as the specification words it fails: this line does not contain
    [linguist-generated=true], the pattern allows white space around the
    equals sign, and the line adds its path. *)
Lemma spaced_attribute_contributes :
  Contains "foo.go linguist-generated = true" "linguist-generated=true" = false
  /\ ~ contains "foo.go linguist-generated = true" "linguist-generated=true"
  /\ contribution "foo.go linguist-generated = true" = ["foo.go"].
Proof.
  split; [reflexivity|]. split; [|vm_compute; reflexivity].
  intro H. apply Contains_spec in H. discriminate H.
Qed.

(** A path of one character is not read as a path: the pattern asks for two
    characters before the white space. *)
Lemma one_character_path_is_dropped :
  contribution "a linguist-generated=true" = []
  /\ String.length eAcute = 2%nat
  /\ contribution (eAcute ++ " linguist-generated=true") = [].
Proof. repeat split. Qed.

(** Neither is a text whose second character is a white space, nor a
    comment; and a tab, other attributes or a path that is not ASCII do not
    keep a line from adding its path. *)
Lemma what_is_and_is_not_a_path :
  contribution "a b linguist-generated=true" = []
  /\ contribution "#a.go linguist-generated=true" = []
  /\ contribution ("docs/" ++ eAcute ++ TAB ++ "text linguist-generated=true eol=lf")
     = ["docs/" ++ eAcute].
Proof. repeat split. Qed.

(** ** The exclude patterns *)

Lemma NoDup_app_iff {A : Type} (a b : list A) :
  NoDup (a ++ b) <-> NoDup a /\ NoDup b /\ (forall x, In x a -> ~ In x b).
Proof.
  induction a as [|x a IH]; cbn [app].
  - split; [intro H; repeat split; [constructor | exact H | intros ? []]|].
    now intros (_ & H & _).
  - rewrite !NoDup_cons_iff, IH, in_app_iff. split.
    + intros (Hx & Ha & Hb & Hd). repeat split; try tauto.
      intros y [<-|Hy]; [tauto | now apply Hd].
    + intros ((Hx & Ha) & Hb & Hd). repeat split; try assumption.
      * intros [H|H]; [tauto | exact (Hd x (or_introl eq_refl) H)].
      * intros y Hy. apply Hd. now right.
Qed.

Lemma commonExcludes_NoDup : NoDup commonExcludes.
Proof.
  unfold commonExcludes. repeat constructor; simpl; intuition discriminate.
Qed.

(** C2, as the code has it: the list is the patterns read from
    [.gitattributes] (for Git, when the file exists), in the order of the
    file, followed by the three lock-file names, which are distinct; nothing
    is removed, so the list is free of duplicates exactly when the patterns
    read are and none of them is a lock-file name; the command line holds
    one argument per element, in that order. *)
Theorem exclude_patterns_assembly (w : World) (config : Config)
  (patterns : list string) :
  excludePatterns w config = Ok patterns ->
  exists generated,
    patterns = (generated ++ commonExcludes)%list
    /\ (if IsGit config && fileExists w ".gitattributes"
        then getGeneratedFilesFromGitattributes w = Ok generated
        else generated = [])
    /\ NoDup commonExcludes
    /\ (NoDup patterns <->
        NoDup generated /\ forall p, In p generated -> ~ In p commonExcludes)
    /\ snd (diffCommand config patterns)
       = if IsGit config
         then (["diff"; "--cached"; "--"; "."]
                 ++ map (fun p => (":(exclude)" ++ p)%string) patterns)%list
         else (["diff"; "--git"]
                 ++ map (fun p => ("~" ++ p)%string) patterns)%list.
Proof.
  unfold excludePatterns. intro H.
  assert (Hshape : exists generated,
             patterns = (generated ++ commonExcludes)%list
             /\ (if IsGit config && fileExists w ".gitattributes"
                 then getGeneratedFilesFromGitattributes w = Ok generated
                 else generated = [])).
  { destruct (IsGit config && fileExists w ".gitattributes").
    - destruct (getGeneratedFilesFromGitattributes w) as [generated|e];
        [|discriminate].
      injection H as <-. now exists generated.
    - injection H as <-. now exists []. }
  destruct Hshape as (generated & -> & Hgen).
  exists generated.
  split; [reflexivity|]. split; [assumption|].
  split; [apply commonExcludes_NoDup|]. split.
  - rewrite NoDup_app_iff. pose proof commonExcludes_NoDup. tauto.
  - unfold diffCommand. now destruct (IsGit config).
Qed.

Lemma exclude_patterns_assembly_witness :
  exists generated,
    ["dist/app.js"; "pnpm-lock.yaml"; "yarn.lock"; "package-lock.json"]
    = (generated ++ commonExcludes)%list
    /\ getGeneratedFilesFromGitattributes
         (attributesWorld (unlines ["dist/app.js linguist-generated=true"]))
       = Ok generated.
Proof.
  destruct (exclude_patterns_assembly
              (attributesWorld (unlines ["dist/app.js linguist-generated=true"]))
              (sampleConfig true 100)
              ["dist/app.js"; "pnpm-lock.yaml"; "yarn.lock"; "package-lock.json"]
              eq_refl) as (generated & H1 & H2 & _).
  exists generated. split; [exact H1 | exact H2].
Defined.

(** C2 as the specification words it fails: a [.gitattributes] that marks
    [yarn.lock] as generated puts [yarn.lock] twice in the list, and twice
    on the command line of [git diff]. *)
Lemma exclude_patterns_can_repeat :
  excludePatterns lockFileMarkedWorld (sampleConfig true 100)
    = Ok ["dist/app.js"; "yarn.lock";
          "pnpm-lock.yaml"; "yarn.lock"; "package-lock.json"]
  /\ ~ NoDup ["dist/app.js"; "yarn.lock";
              "pnpm-lock.yaml"; "yarn.lock"; "package-lock.json"]
  /\ diffCommand (sampleConfig true 100)
       ["dist/app.js"; "yarn.lock";
        "pnpm-lock.yaml"; "yarn.lock"; "package-lock.json"]
     = ("git", ["diff"; "--cached"; "--"; ".";
                ":(exclude)dist/app.js"; ":(exclude)yarn.lock";
                ":(exclude)pnpm-lock.yaml"; ":(exclude)yarn.lock";
                ":(exclude)package-lock.json"]).
Proof.
  split; [vm_compute; reflexivity|]. split; [|reflexivity].
  intro H. inversion H as [|? ? _ H1]; subst.
  inversion H1 as [|? ? Hin _]; subst.
  apply Hin. right. left. reflexivity.
Qed.

(** * Further properties *)

(** ** truncateDiff *)

(** X1: [truncateDiff] returns an error in three cases only, and the message
    says which: the tokenizer is not available, the diff does not encode, or
    the diff is over a non-negative budget and the tokens kept do not
    decode. *)
Theorem truncateDiff_error_iff (get : Result Codec) (diff : string)
  (maxTokens : Z) (err : string) :
  truncateDiff get diff maxTokens = Return (Err err) <->
  (exists e, get = Err e /\ err = "failed to get tokenizer: " ++ e)
  \/ (exists enc e,
        get = Ok enc /\ Encode enc diff = Err e
        /\ err = "failed to encode diff: " ++ e)
  \/ (exists enc tokens e,
        get = Ok enc /\ Encode enc diff = Ok tokens
        /\ 0 <= maxTokens < len tokens
        /\ Decode enc (firstn (Z.to_nat maxTokens) tokens) = Err e
        /\ err = "failed to decode truncated tokens: " ++ e).
Proof.
  unfold truncateDiff. split.
  - destruct get as [enc|e].
    2:{ intro H. injection H as <-. left. eauto. }
    destruct (Encode enc diff) as [tokens|e] eqn:He.
    2:{ intro H. injection H as <-. right. left. eauto. }
    destruct (len tokens <=? maxTokens) eqn:Hc; [discriminate|].
    apply Z.leb_gt in Hc. unfold sliceTo.
    destruct (maxTokens <? 0) eqn:Hn; [discriminate|].
    apply Z.ltb_ge in Hn.
    replace (len tokens <? maxTokens) with false
      by (symmetry; apply Z.ltb_ge; lia).
    cbn [orb].
    destruct (Decode enc _) as [kept|e] eqn:Hd; [discriminate|].
    intro H. injection H as <-. right. right.
    exists enc, tokens, e. repeat split; (reflexivity || assumption || lia).
  - intros [(e & -> & ->) | [(enc & e & -> & He & ->)
                            | (enc & tokens & e & -> & He & Hr & Hd & ->)]].
    + reflexivity.
    + now rewrite He.
    + rewrite He.
      replace (len tokens <=? maxTokens) with false
        by (symmetry; apply Z.leb_gt; lia).
      unfold sliceTo.
      replace (maxTokens <? 0) with false by (symmetry; apply Z.ltb_ge; lia).
      replace (len tokens <? maxTokens) with false
        by (symmetry; apply Z.ltb_ge; lia).
      cbn [orb]. now rewrite Hd.
Qed.

Lemma truncateDiff_error_iff_witness :
  truncateDiff (Err "unknown encoding") "diff" 7
  = Return (Err "failed to get tokenizer: unknown encoding").
Proof.
  apply (proj2 (truncateDiff_error_iff (Err "unknown encoding") "diff" 7
                  "failed to get tokenizer: unknown encoding")).
  left. exists "unknown encoding". split; reflexivity.
Defined.

Lemma cl100kSample_decode_app (a b : list N) (x : string) :
  Decode cl100kSample (a ++ b) = Ok x ->
  exists xa xb,
    Decode cl100kSample a = Ok xa /\ Decode cl100kSample b = Ok xb
    /\ x = xa ++ xb.
Proof.
  cbn [Decode cl100kSample]. revert x.
  induction a as [|t a IH]; intros x H; cbn [app decodePieces] in *.
  - exists "", x. auto.
  - destruct (pieceOf t) as [piece|]; [|discriminate].
    destruct (decodePieces (a ++ b)) as [s|e]; [|discriminate].
    injection H as <-.
    destruct (IH s eq_refl) as (xa & xb & -> & Hb & ->).
    exists (piece ++ xa), xb. repeat split; [assumption|].
    now rewrite append_assoc.
Qed.

(** X2: when the tokens of the diff decode to the diff, with a codec that
    decodes a sequence of tokens piece by piece (the text of a sequence
    that decodes is the texts of its parts, joined; a sequence may also
    fail to decode), the text kept by a truncation is a prefix of the diff:
    nothing is altered before the notice. *)
Theorem truncateDiff_keeps_a_prefix (enc : Codec) (diff : string)
  (tokens : list N) (maxTokens : Z) :
  Encode enc diff = Ok tokens ->
  Decode enc tokens = Ok diff ->
  (forall a b x,
      Decode enc (a ++ b) = Ok x ->
      exists xa xb,
        Decode enc a = Ok xa /\ Decode enc b = Ok xb /\ x = xa ++ xb) ->
  0 <= maxTokens < len tokens ->
  exists kept dropped,
    truncateDiff (Ok enc) diff maxTokens
    = Return (Ok (kept ++ truncationNotice maxTokens))
    /\ diff = kept ++ dropped.
Proof.
  intros He Hd Hcat Hr.
  rewrite <- (firstn_skipn (Z.to_nat maxTokens) tokens) in Hd.
  destruct (Hcat _ _ _ Hd) as (kept & dropped & Hk & _ & ->).
  exists kept, dropped. split; [|reflexivity].
  unfold truncateDiff. rewrite He.
  replace (len tokens <=? maxTokens) with false
    by (symmetry; apply Z.leb_gt; lia).
  unfold sliceTo.
  replace (maxTokens <? 0) with false by (symmetry; apply Z.ltb_ge; lia).
  replace (len tokens <? maxTokens) with false
    by (symmetry; apply Z.ltb_ge; lia).
  cbn [orb]. now rewrite Hk.
Qed.

Lemma truncateDiff_keeps_a_prefix_witness :
  exists kept dropped,
    truncateDiff (Ok cl100kSample) "hello world" 1
    = Return (Ok (kept ++ truncationNotice 1))
    /\ "hello world" = kept ++ dropped.
Proof.
  apply (truncateDiff_keeps_a_prefix cl100kSample "hello world"
           [15339; 1917]%N 1).
  - reflexivity.
  - reflexivity.
  - exact cl100kSample_decode_app.
  - unfold len. simpl. lia.
Defined.

(** ** What each step leaves behind, exactly *)

Lemma after_nothing (o : Output) : after o "" "" [] = o.
Proof.
  destruct o as [out err sp]. unfold after. cbn [stdout stderr spawned].
  now rewrite !append_nil_r, app_nil_r.
Qed.

Lemma after_after (o : Output) (out1 err1 out2 err2 : string)
  (sp1 sp2 : list Invocation) :
  after (after o out1 err1 sp1) out2 err2 sp2
  = after o (out1 ++ out2) (err1 ++ err2) (sp1 ++ sp2).
Proof.
  unfold after. cbn [stdout stderr spawned].
  now rewrite !append_assoc, <- app_assoc.
Qed.

Lemma spawn_eq (w : World) (name : string) (args : list string)
  (stdin : string) (o : Output) :
  spawn w name args stdin o
  = (Return (process w name args stdin),
     after o "" "" [{| cmdName := name; cmdArgs := args; cmdStdin := stdin |}]).
Proof. unfold spawn, after. now rewrite !append_nil_r. Qed.

Lemma printErr_eq (s : string) (o : Output) :
  printErr s o = (Return tt, after o "" s []).
Proof. unfold printErr, after. now rewrite append_nil_r, app_nil_r. Qed.

Lemma printOut_eq (s : string) (o : Output) :
  printOut s o = (Return tt, after o s "" []).
Proof. unfold printOut, after. now rewrite append_nil_r, app_nil_r. Qed.

Lemma getBranchName_eq (w : World) (isGit : bool) (o : Output) :
  getBranchName w isGit o
  = (Return (branchOf w isGit), after o "" "" [branchCommand isGit]).
Proof.
  unfold getBranchName, branchOf, resultOf, branchCommand, execOutput.
  destruct isGit; unfold bind; rewrite spawn_eq; unfold ret;
    cbn [cmdName cmdArgs cmdStdin];
    match goal with |- context [procErr ?r] => destruct (procErr r) end;
    reflexivity.
Qed.

Lemma getDiff_eq (w : World) (config : Config) (o : Output) :
  getDiff w config o
  = match excludePatterns w config with
    | Err err => (Return (Err err), o)
    | Ok patterns =>
        (Return (match procErr (resultOf w (diffInvocation config patterns)) with
                 | Some err => Err ("failed to get diff: " ++ err)
                 | None =>
                     Ok (procStdout (resultOf w (diffInvocation config patterns)))
                 end),
         after o "" "" [diffInvocation config patterns])
    end.
Proof.
  unfold getDiff. destruct (excludePatterns w config) as [patterns|e];
    [|reflexivity].
  unfold diffInvocation, resultOf. cbn [cmdName cmdArgs cmdStdin].
  destruct (diffCommand config patterns) as [name args]. cbn [fst snd].
  unfold execOutput, bind. rewrite spawn_eq. unfold ret.
  destruct (procErr (process w name args "")); reflexivity.
Qed.

Lemma renderPromptTemplate_eq (w : World) (path : string) (data : PromptData)
  (o : Output) :
  renderPromptTemplate w path data o
  = if negb (String.eqb path "") && fileExists w path then
      match readFile w path with
      | Err err => (Return (Err ("failed to read template file: " ++ err)), o)
      | Ok content =>
          (Return (parseAndExecute w content data),
           after o "" ("Using template from: " ++ path ++ LF) [])
      end
    else (Return (parseAndExecute w DefaultPromptTemplate data),
          after o "" ("Using default embedded template" ++ LF) []).
Proof.
  unfold renderPromptTemplate.
  destruct (negb (String.eqb path "") && fileExists w path).
  - destruct (readFile w path); [|reflexivity].
    unfold bind. rewrite printErr_eq. reflexivity.
  - unfold bind. rewrite printErr_eq. reflexivity.
Qed.

Lemma execRunInherit_eq (w : World) (name : string) (args : list string)
  (stdin : string) (o : Output) :
  execRunInherit w name args stdin o
  = (Return (procErr (resultOf w (
       {| cmdName := name; cmdArgs := args; cmdStdin := stdin |}))),
     after o
       (procStdout (resultOf w
          {| cmdName := name; cmdArgs := args; cmdStdin := stdin |}))
       (procStderr (resultOf w
          {| cmdName := name; cmdArgs := args; cmdStdin := stdin |}))
       [{| cmdName := name; cmdArgs := args; cmdStdin := stdin |}]).
Proof.
  unfold execRunInherit, bind. rewrite spawn_eq, printOut_eq, printErr_eq.
  unfold ret, resultOf. cbn [cmdName cmdArgs cmdStdin].
  rewrite !after_after, !append_nil_r. reflexivity.
Qed.

(** ** Failures before the model is asked *)

(** X3: when the prompt cannot be rendered the generator returns
    [failed to render prompt template: ...] at once: the branch query is the
    only command it has run, no diff is collected, [llm] is not started and
    nothing is written to standard output. *)
Theorem template_failure_stops_generation (w : World) (config : Config)
  (o o' : Output) (e : string) :
  renderPromptTemplate w (PromptPath config)
    {| Branch := branchOf w (IsGit config);
       DataUserContext := UserContext config |}
    (after o "" "" [branchCommand (IsGit config)])
  = (Return (Err e), o') ->
  generateCommitMessage w config o
  = (Return (Some ("failed to render prompt template: " ++ e)), o')
  /\ spawned o' = (spawned o ++ [branchCommand (IsGit config)])%list
  /\ stdout o' = stdout o.
Proof.
  intro H. split.
  - unfold generateCommitMessage. unfold bind at 1. rewrite getBranchName_eq.
    unfold bind at 1. rewrite H. reflexivity.
  - rewrite renderPromptTemplate_eq in H.
    destruct (negb (String.eqb (PromptPath config) "")
              && fileExists w (PromptPath config)).
    + destruct (readFile w (PromptPath config)); injection H as _ <-;
        unfold after; cbn [stdout spawned];
        rewrite ?app_nil_r, ?append_nil_r; auto.
    + injection H as _ <-. unfold after. cbn [stdout spawned].
      rewrite ?app_nil_r, ?append_nil_r. auto.
Qed.

Lemma template_failure_stops_generation_witness :
  exists o',
    generateCommitMessage brokenTemplateWorld
      (templateConfig "/home/dev/prompt.txt") emptyOutput
    = (Return (Some ("failed to render prompt template: "
                     ++ "failed to execute template: template: prompt:1:5: executing "
                     ++ DQUOTE ++ "prompt" ++ DQUOTE
                     ++ " at <.Brunch>: can't evaluate field Brunch in type main.PromptData")),
       o')
    /\ spawned o' = (spawned emptyOutput ++ [branchCommand true])%list
    /\ stdout o' = stdout emptyOutput.
Proof.
  eexists.
  apply (template_failure_stops_generation brokenTemplateWorld
           (templateConfig "/home/dev/prompt.txt") emptyOutput).
  vm_compute. reflexivity.
Defined.

(** X4: when the diff command fails with [e] the generator returns
    [failed to get diff: failed to get diff: e] (both [getDiff] and its
    caller add the words); the branch query and the diff command are the
    only commands run, [llm] is not started and nothing is written to
    standard output. *)
Theorem diff_failure_stops_generation (w : World) (config : Config)
  (o : Output) (prompt log e : string) (patterns : list string) :
  renderPromptTemplate w (PromptPath config)
    {| Branch := branchOf w (IsGit config);
       DataUserContext := UserContext config |}
    (after o "" "" [branchCommand (IsGit config)])
  = (Return (Ok prompt),
     after o "" log [branchCommand (IsGit config)]) ->
  excludePatterns w config = Ok patterns ->
  procErr (resultOf w (diffInvocation config patterns)) = Some e ->
  generateCommitMessage w config o
  = (Return (Some ("failed to get diff: failed to get diff: " ++ e)),
     after o "" log
       [branchCommand (IsGit config); diffInvocation config patterns]).
Proof.
  intros Hr Hp He. unfold generateCommitMessage.
  unfold bind at 1. rewrite getBranchName_eq.
  unfold bind at 1. rewrite Hr.
  unfold bind at 1. rewrite getDiff_eq, Hp, He.
  rewrite after_after, !append_nil_r. reflexivity.
Qed.

Lemma diff_failure_stops_generation_witness :
  generateCommitMessage failingDiffWorld (sampleConfig true 100) emptyOutput
  = (Return (Some ("failed to get diff: failed to get diff: "
                   ++ "exit status 128")),
     after emptyOutput "" ("Using default embedded template" ++ LF)
       [branchCommand true;
        diffInvocation (sampleConfig true 100) commonExcludes]).
Proof.
  apply (diff_failure_stops_generation failingDiffWorld
           (sampleConfig true 100) emptyOutput
           (renderedDefault {| Branch := "main"; DataUserContext := "" |})
           ("Using default embedded template" ++ LF) "exit status 128"
           commonExcludes);
    vm_compute; reflexivity.
Defined.

(** For Git, when [.gitattributes] exists and cannot be parsed (it
    cannot be opened, or the scanner gives up), [getDiff] returns
    [failed to parse .gitattributes: ...] without running [git diff]. *)
Theorem unreadable_gitattributes_blocks_diff (w : World) (config : Config)
  (o : Output) (e : string) :
  IsGit config = true ->
  fileExists w ".gitattributes" = true ->
  getGeneratedFilesFromGitattributes w = Err e ->
  getDiff w config o
  = (Return (Err ("failed to parse .gitattributes: " ++ e)), o).
Proof.
  intros Hg Hf He. rewrite getDiff_eq. unfold excludePatterns.
  now rewrite Hg, Hf, He.
Qed.

Lemma unreadable_gitattributes_blocks_diff_witness :
  getDiff unreadableAttributesWorld (sampleConfig true 100) emptyOutput
  = (Return (Err ("failed to parse .gitattributes: "
                  ++ "open .gitattributes: permission denied")),
     emptyOutput).
Proof.
  apply (unreadable_gitattributes_blocks_diff unreadableAttributesWorld
           (sampleConfig true 100) emptyOutput);
    reflexivity.
Defined.

(** X5: for Jujutsu [.gitattributes] is never looked at: whatever the
    directory holds, the one command run is [jj diff --git] with the three
    lock files excluded, and the result is its output, or its error after
    [failed to get diff: ]. *)
Theorem jujutsu_diff_ignores_gitattributes (w : World) (config : Config)
  (o : Output) :
  IsGit config = false ->
  let cmd := {| cmdName := "jj";
                cmdArgs := ["diff"; "--git"; "~pnpm-lock.yaml"; "~yarn.lock";
                            "~package-lock.json"];
                cmdStdin := "" |} in
  getDiff w config o
  = (Return (match procErr (resultOf w cmd) with
             | Some err => Err ("failed to get diff: " ++ err)
             | None => Ok (procStdout (resultOf w cmd))
             end),
     after o "" "" [cmd]).
Proof.
  intros Hg cmd. rewrite getDiff_eq. unfold excludePatterns. rewrite Hg.
  cbn [andb app]. unfold diffInvocation, diffCommand. rewrite Hg.
  reflexivity.
Qed.

Lemma jujutsu_diff_ignores_gitattributes_witness :
  fst (getDiff lockFileMarkedWorld (sampleConfig false 100) emptyOutput)
  = Return (Ok "")
  /\ map cmdArgs
       (spawned (snd (getDiff lockFileMarkedWorld (sampleConfig false 100)
                        emptyOutput)))
     = [["diff"; "--git"; "~pnpm-lock.yaml"; "~yarn.lock";
         "~package-lock.json"]].
Proof.
  rewrite (jujutsu_diff_ignores_gitattributes lockFileMarkedWorld
             (sampleConfig false 100) emptyOutput eq_refl).
  split; reflexivity.
Defined.

Lemma isJJRepo_eq (w : World) (o : Output) :
  isJJRepo w o
  = (Return (match procErr (resultOf w jjProbe) with
             | None => true
             | Some _ => false
             end),
     after o "" "" [jjProbe]).
Proof.
  unfold isJJRepo, execRun, bind. rewrite spawn_eq. reflexivity.
Qed.

Lemma isGitRepo_eq (w : World) (o : Output) :
  isGitRepo w o
  = if statOk w ".git" then (Return true, o)
    else (Return (match procErr (resultOf w gitProbe) with
                  | None => true
                  | Some _ => false
                  end),
          after o "" "" [gitProbe]).
Proof.
  unfold isGitRepo. destruct (statOk w ".git"); [reflexivity|].
  unfold execRun, bind. rewrite spawn_eq. reflexivity.
Qed.

(** ** How a run ends *)

Lemma truncateDiff_outcome (get : Result Codec) (diff : string)
  (maxTokens : Z) :
  (exists r, truncateDiff get diff maxTokens = Return r)
  \/ (exists msg, truncateDiff get diff maxTokens = Panic msg /\ maxTokens < 0).
Proof.
  destruct (Z.lt_ge_cases maxTokens 0) as [Hneg|Hpos].
  - unfold truncateDiff. destruct get as [enc|e]; [|eauto].
    destruct (Encode enc diff) as [tokens|e]; [|eauto].
    destruct (len tokens <=? maxTokens); [eauto|].
    unfold sliceTo.
    replace (maxTokens <? 0) with true by (symmetry; apply Z.ltb_lt; lia).
    cbn [orb]. right. eauto.
  - left. now apply truncateDiff_total.
Qed.

Lemma generateCommitMessage_outcome (w : World) (config : Config)
  (o o' : Output) (r : Outcome (option string)) :
  generateCommitMessage w config o = (r, o') ->
  (exists err, r = Return err)
  \/ (exists msg, r = Panic msg /\ MaxDiffSize config < 0).
Proof.
  unfold generateCommitMessage.
  unfold bind at 1. rewrite getBranchName_eq.
  destruct (renderPromptTemplate_run w (PromptPath config)
              {| Branch := branchOf w (IsGit config);
                 DataUserContext := UserContext config |}
              (after o "" "" [branchCommand (IsGit config)]))
    as (rendered & (o2 & E2 & _)).
  unfold bind at 1. rewrite E2.
  destruct rendered as [prompt|e]; [|intro H; injection H as <- _; eauto].
  destruct (getDiff_run w config o2) as (collected & sp & (o3 & E3 & _) & _).
  unfold bind at 1. rewrite E3.
  destruct collected as [diff|e]; [|intro H; injection H as <- _; eauto].
  unfold bind at 1, lift.
  destruct (truncateDiff_outcome (tokenizerGet w) diff (MaxDiffSize config))
    as [(t & ->) | (msg & -> & Hneg)].
  - destruct t as [t|e];
      destruct (negb (String.eqb (ModelName config) ""));
      io_unfold; cbv beta iota; intro H; injection H as <- _; eauto.
  - intro H. injection H as <- _. eauto.
Qed.

(** X6: a run of [main] ends in one of three ways: it returns (the message
    was generated), it exits with status 1, or it panics, and it panics only
    when the token budget in force is negative. *)
Theorem main_outcomes (w : World) (o o' : Output) (r : Outcome unit) :
  main w o = (r, o') ->
  r = Return tt \/ r = Exit 1
  \/ (exists msg, r = Panic msg /\ budgetByPrecedence w < 0).
Proof.
  unfold main. destruct (negb (commandExists w "llm")).
  { io_unfold. intro H. injection H as <- _. auto. }
  assert (Htail : forall useGit o1,
             (let* config := resolveConfig w useGit in
              let* _ :=
                if useGit then printErr ("Using Git for version control" ++ LF)
                else printErr ("Using Jujutsu for version control" ++ LF) in
              let* err := generateCommitMessage w config in
              match err with
              | Some e => let* _ := printOut (red ("Error: " ++ e)) in osExit 1
              | None => ret tt
              end) o1 = (r, o') ->
             r = Return tt \/ r = Exit 1
             \/ (exists msg, r = Panic msg /\ budgetByPrecedence w < 0)).
  { intros useGit o1.
    destruct (resolveConfig_run w useGit o1) as (config & o2 & E & Hb & _).
    unfold bind at 1. rewrite E.
    unfold bind at 1.
    destruct useGit; rewrite printErr_eq;
      (unfold bind at 1;
       match goal with
       | |- context [generateCommitMessage w config ?x] =>
           destruct (generateCommitMessage w config x) as [r0 o3] eqn:Eg
       end;
       apply generateCommitMessage_outcome in Eg;
       destruct Eg as [(err & ->) | (msg & -> & Hneg)];
       [ destruct err; io_unfold; intro H; injection H as <- _; auto
       | intro H; injection H as <- _; right; right; exists msg;
         split; [reflexivity | now rewrite <- Hb] ]). }
  unfold bind at 1. rewrite isGitRepo_eq.
  destruct (statOk w ".git");
    unfold bind at 1; rewrite isJJRepo_eq;
    repeat match goal with
           | |- context [procErr ?p] => destruct (procErr p)
           end;
    cbn [negb andb]; try apply Htail.
  io_unfold. intro H. injection H as <- _. auto.
Qed.

Lemma main_outcomes_witness :
  fst (main negativeBudgetWorld emptyOutput) = Return tt
  \/ fst (main negativeBudgetWorld emptyOutput) = Exit 1
  \/ (exists msg,
        fst (main negativeBudgetWorld emptyOutput) = Panic msg
        /\ budgetByPrecedence negativeBudgetWorld < 0).
Proof.
  apply (main_outcomes negativeBudgetWorld emptyOutput
           (snd (main negativeBudgetWorld emptyOutput))).
  vm_compute. reflexivity.
Defined.

(** X7: [main] gives up before any work in two cases, each with one red
    line on standard output and exit status 1.  Without an [llm] command it
    runs nothing at all.  With no [.git] entry, [git rev-parse] failing and
    [jj status] failing, it has run these two probes and nothing else: the
    configuration is not loaded and no diff is asked for. *)
Theorem main_gives_up_early (w : World) (o : Output) :
  (commandExists w "llm" = false ->
   main w o
   = (Exit 1,
      after o (red "Error: 'llm' command is not installed. Please install it and try again.")
        "" []))
  /\ (forall e1 e2,
        commandExists w "llm" = true ->
        statOk w ".git" = false ->
        procErr (resultOf w gitProbe) = Some e1 ->
        procErr (resultOf w jjProbe) = Some e2 ->
        main w o
        = (Exit 1,
           after o (red "Error: Neither Git nor Jujutsu repository detected.")
             "" [gitProbe; jjProbe])).
Proof.
  split.
  - intro H. unfold main. rewrite H. cbn [negb].
    unfold bind. rewrite printOut_eq. reflexivity.
  - intros e1 e2 H Hs H1 H2. unfold main. rewrite H. cbn [negb].
    unfold bind at 1. rewrite isGitRepo_eq, Hs, H1.
    unfold bind at 1. rewrite isJJRepo_eq, H2.
    cbn [negb andb]. unfold bind. rewrite printOut_eq, !after_after.
    reflexivity.
Qed.

Lemma main_gives_up_early_witness :
  main noRepoWorld emptyOutput
  = (Exit 1,
     after emptyOutput
       (red "Error: Neither Git nor Jujutsu repository detected.")
       "" [gitProbe; jjProbe]).
Proof.
  apply (proj2 (main_gives_up_early noRepoWorld emptyOutput)
           "exit status 1" "exit status 1"); reflexivity.
Defined.

(** ** Configuration, the other keys *)

Lemma loadFirst_eq (w : World) (paths : list string) (config : AppConfig)
  (o : Output) :
  loadFirst w paths config o
  = match find (fileExists w) paths with
    | None => (Return (Ok (config, false)), o)
    | Some path =>
        match tomlDecodeFile w path with
        | Err err =>
            (Return (Err ("error loading config from " ++ path ++ ": " ++ err)),
             o)
        | Ok doc =>
            (Return (Ok (decodeInto doc config, true)),
             after o "" ("Loaded configuration from " ++ path ++ LF) [])
        end
    end.
Proof.
  induction paths as [|path paths IH]; cbn [loadFirst find]; [reflexivity|].
  destruct (fileExists w path); [|exact IH].
  destruct (tomlDecodeFile w path); [|reflexivity].
  unfold bind. rewrite printErr_eq. reflexivity.
Qed.

Lemma loadConfig_fields (w : World) (o : Output) :
  exists r o',
    loadConfig w o = (Return r, o')
    /\ stdout o' = stdout o
    /\ match r, loadedFile w with
       | Ok config, Ok file =>
           AppPromptPath config
           = orEnv w "LAZYCOMMIT_TEMPLATE" (AppPromptPath file)
           /\ AppModelName config
              = orEnv w "LAZYCOMMIT_MODEL" (AppModelName file)
       | Err e, Err e' => e = e' /\ o' = o
       | _, _ => False
       end.
Proof.
  unfold loadConfig, loadedFile, orEnv.
  destruct (userHomeDir w) as [homeDir|e].
  2:{ do 2 eexists. split; [reflexivity|]. auto. }
  fold (configPathsOf w homeDir).
  unfold bind at 1. rewrite loadFirst_eq.
  destruct (find (fileExists w) (configPathsOf w homeDir)) as [path|].
  - destruct (tomlDecodeFile w path) as [doc|e].
    + destruct (String.eqb (getenv w "LAZYCOMMIT_MAX_TOKENS") "");
        [|destruct (strconv.Atoi (getenv w "LAZYCOMMIT_MAX_TOKENS"))];
        destruct (String.eqb (getenv w "LAZYCOMMIT_TEMPLATE") "");
        destruct (String.eqb (getenv w "LAZYCOMMIT_MODEL") "");
        io_unfold; cbv beta iota; cbn [negb];
        do 2 eexists; (split; [reflexivity|]);
        cbn [stdout AppPromptPath AppModelName after]; auto using append_nil_r.
    + do 2 eexists. split; [reflexivity|]. auto.
  - destruct (String.eqb (getenv w "LAZYCOMMIT_MAX_TOKENS") "");
      [|destruct (strconv.Atoi (getenv w "LAZYCOMMIT_MAX_TOKENS"))];
      destruct (String.eqb (getenv w "LAZYCOMMIT_TEMPLATE") "");
      destruct (String.eqb (getenv w "LAZYCOMMIT_MODEL") "");
      io_unfold; cbv beta iota; cbn [negb];
      do 2 eexists; (split; [reflexivity|]);
      cbn [stdout AppPromptPath AppModelName]; auto.
Qed.

(** X8: the template path and the model name handed to the generator.  When
    loading succeeds each is its environment variable if that is set to a
    non-empty string, else the key of the first configuration file that
    exists, else empty; when loading fails both are empty, whatever the
    environment holds.  The user context is the first command-line
    argument, or empty. *)
Theorem template_and_model_precedence (w : World) (useGit : bool)
  (o : Output) :
  exists config o',
    resolveConfig w useGit o = (Return config, o')
    /\ match loadedFile w with
       | Ok file =>
           PromptPath config
           = orEnv w "LAZYCOMMIT_TEMPLATE" (AppPromptPath file)
           /\ ModelName config
              = orEnv w "LAZYCOMMIT_MODEL" (AppModelName file)
       | Err _ => PromptPath config = "" /\ ModelName config = ""
       end
    /\ UserContext config
       = match osArgs w with
         | _ :: arg :: _ => arg
         | _ => ""
         end.
Proof.
  unfold resolveConfig.
  destruct (loadConfig_fields w o) as (r & o1 & E & _ & Hr).
  unfold bind at 1. rewrite E.
  assert (Hctx : (if 1 <? len (osArgs w) then nth 1 (osArgs w) "" else "")
                 = match osArgs w with
                   | _ :: arg :: _ => arg
                   | _ => ""
                   end).
  { destruct (osArgs w) as [|a [|b l]]; try reflexivity.
    replace (1 <? len (a :: b :: l)) with true; [reflexivity|].
    symmetry. apply Z.ltb_lt. unfold len. cbn [List.length]. lia. }
  destruct r as [appConfig|e]; destruct (loadedFile w) as [file|e'];
    try contradiction; io_unfold; cbv beta iota;
    do 2 eexists; (split; [reflexivity|]);
    cbn [PromptPath ModelName UserContext]; (split; [|exact Hctx]); auto.
Qed.

Lemma template_and_model_precedence_example :
  exists config o',
    resolveConfig overridesWorld true emptyOutput = (Return config, o')
    /\ PromptPath config = "/home/dev/prompt.txt"
    /\ ModelName config = "gpt-4o-mini".
Proof.
  do 2 eexists. split; [vm_compute; reflexivity|]. split; reflexivity.
Qed.

(** X9: the second configuration file is no fallback for a first one that
    is broken.  When the first path exists and does not decode, loading
    fails although the second file may be fine: [main] prints the warning on
    standard output, logs nothing, and goes on with the built-in defaults,
    the environment variables being left unread. *)
Theorem broken_first_config_file (w : World) (useGit : bool) (o : Output)
  (homeDir p1 p2 e : string) :
  userHomeDir w = Ok homeDir ->
  configPathsOf w homeDir = [p1; p2] ->
  fileExists w p1 = true ->
  tomlDecodeFile w p1 = Err e ->
  resolveConfig w useGit o
  = (Return {| MaxDiffSize := 12500;
               PromptPath := "";
               UserContext := if 1 <? len (osArgs w)
                              then nth 1 (osArgs w) "" else "";
               IsGit := useGit;
               ModelName := "" |},
     after o
       (red ("Warning: Error loading configuration: "
             ++ "error loading config from " ++ p1 ++ ": " ++ e
             ++ ". Using defaults."))
       "" []).
Proof.
  intros Hh Hp H1 He. unfold resolveConfig, loadConfig. rewrite Hh.
  fold (configPathsOf w homeDir). rewrite Hp.
  unfold bind at 1. unfold bind at 1. rewrite loadFirst_eq.
  cbn [find]. rewrite H1, He. unfold ret at 1. cbv beta iota.
  unfold bind at 1. unfold bind at 1. rewrite printOut_eq. unfold ret.
  cbv beta iota. rewrite !append_assoc. reflexivity.
Qed.

Lemma broken_first_config_file_witness :
  fst (resolveConfig twoConfigFilesWorld true emptyOutput)
  = Return {| MaxDiffSize := 12500; PromptPath := ""; UserContext := "";
              IsGit := true; ModelName := "" |}.
Proof.
  rewrite (broken_first_config_file twoConfigFilesWorld true emptyOutput
             "/home/dev" "/home/dev/.config/lazycommit/config.toml"
             "/home/dev/.lazycommit.toml" "toml: line 3: expected value"
             eq_refl eq_refl eq_refl eq_refl).
  reflexivity.
Defined.

(** ** Asking the model *)

Lemma generateCommitMessage_success (w : World) (config : Config) (o : Output)
  (prompt log diff text : string) (patterns : list string) :
  renderPromptTemplate w (PromptPath config)
    {| Branch := branchOf w (IsGit config);
       DataUserContext := UserContext config |}
    (after o "" "" [branchCommand (IsGit config)])
  = (Return (Ok prompt),
     after o "" log [branchCommand (IsGit config)]) ->
  excludePatterns w config = Ok patterns ->
  procErr (resultOf w (diffInvocation config patterns)) = None ->
  procStdout (resultOf w (diffInvocation config patterns)) = diff ->
  truncateDiff (tokenizerGet w) diff (MaxDiffSize config) = Return (Ok text) ->
  let llm := llmInvocation (llmArgs config prompt) text in
  generateCommitMessage w config o
  = (Return (procErr (resultOf w llm)),
     after o (procStdout (resultOf w llm))
       (log ++ modelLine config ++ procStderr (resultOf w llm))
       [branchCommand (IsGit config); diffInvocation config patterns; llm]).
Proof.
  intros Hr Hp He Hd Ht llm. subst llm. unfold generateCommitMessage.
  unfold bind at 1. rewrite getBranchName_eq.
  unfold bind at 1. rewrite Hr.
  unfold bind at 1. rewrite getDiff_eq, Hp, He, Hd.
  unfold bind at 1, lift. rewrite Ht.
  unfold bind at 1, ret at 1. cbv beta iota.
  unfold llmArgs, modelLine.
  destruct (String.eqb (ModelName config) ""); cbn [negb];
    unfold bind at 1; unfold bind at 1; rewrite printErr_eq;
    unfold ret at 1; cbv beta iota; rewrite execRunInherit_eq;
    rewrite !after_after; reflexivity.
Qed.

(** X10: when the prompt renders, the diff is collected and [truncateDiff]
    returns a text, [llm] is the third and last command run: it gets the
    prompt after [-s], the model after [-m] only when one is configured, and
    the text on its standard input; what it writes goes to the program's
    streams, and its error, or none, is what the generator returns. *)
Theorem generation_asks_the_model (w : World) (config : Config) (o : Output)
  (prompt log diff text : string) (patterns : list string) :
  renderPromptTemplate w (PromptPath config)
    {| Branch := branchOf w (IsGit config);
       DataUserContext := UserContext config |}
    (after o "" "" [branchCommand (IsGit config)])
  = (Return (Ok prompt),
     after o "" log [branchCommand (IsGit config)]) ->
  excludePatterns w config = Ok patterns ->
  procErr (resultOf w (diffInvocation config patterns)) = None ->
  procStdout (resultOf w (diffInvocation config patterns)) = diff ->
  truncateDiff (tokenizerGet w) diff (MaxDiffSize config) = Return (Ok text) ->
  let llm := llmInvocation (llmArgs config prompt) text in
  generateCommitMessage w config o
  = (Return (procErr (resultOf w llm)),
     after o (procStdout (resultOf w llm))
       (log ++ modelLine config ++ procStderr (resultOf w llm))
       [branchCommand (IsGit config); diffInvocation config patterns; llm]).
Proof. exact (generateCommitMessage_success w config o prompt log diff text patterns). Qed.

Lemma generation_asks_the_model_witness :
  map cmdArgs
    (spawned (snd (generateCommitMessage bothReposWorld modelConfig
                     emptyOutput)))
  = map cmdArgs
      [branchCommand true; diffInvocation modelConfig commonExcludes;
       llmInvocation
         ["-m"; "gpt-4o-mini"; "-s";
          renderedDefault {| Branch := "main"; DataUserContext := "" |}]
         ("diff" ++ truncationNotice 4)].
Proof.
  rewrite (generation_asks_the_model bothReposWorld modelConfig emptyOutput
             (renderedDefault {| Branch := "main"; DataUserContext := "" |})
             ("Using default embedded template" ++ LF)
             "diff --git a/main.go b/main.go"
             ("diff" ++ truncationNotice 4) commonExcludes);
    vm_compute; reflexivity.
Defined.

(** X11: with a negative budget the generator panics as soon as the diff is
    encoded, whatever the diff (the empty one included): the prompt has been
    rendered and the diff collected, [llm] is never started and nothing is
    written to standard output. *)
Theorem negative_budget_panics_before_the_model (w : World) (config : Config)
  (o : Output) (enc : Codec) (prompt log diff : string) (tokens : list N)
  (patterns : list string) :
  renderPromptTemplate w (PromptPath config)
    {| Branch := branchOf w (IsGit config);
       DataUserContext := UserContext config |}
    (after o "" "" [branchCommand (IsGit config)])
  = (Return (Ok prompt),
     after o "" log [branchCommand (IsGit config)]) ->
  excludePatterns w config = Ok patterns ->
  procErr (resultOf w (diffInvocation config patterns)) = None ->
  procStdout (resultOf w (diffInvocation config patterns)) = diff ->
  tokenizerGet w = Ok enc ->
  Encode enc diff = Ok tokens ->
  MaxDiffSize config < 0 ->
  generateCommitMessage w config o
  = (Panic ("runtime error: slice bounds out of range [:"
            ++ itoa (MaxDiffSize config) ++ "]"),
     after o "" log
       [branchCommand (IsGit config); diffInvocation config patterns]).
Proof.
  intros Hr Hp He Hd Hg Henc Hneg. unfold generateCommitMessage.
  unfold bind at 1. rewrite getBranchName_eq.
  unfold bind at 1. rewrite Hr.
  unfold bind at 1. rewrite getDiff_eq, Hp, He, Hd.
  unfold bind at 1, lift. unfold truncateDiff. rewrite Hg, Henc.
  replace (len tokens <=? MaxDiffSize config) with false
    by (symmetry; apply Z.leb_gt; unfold len; lia).
  unfold sliceTo.
  replace (MaxDiffSize config <? 0) with true
    by (symmetry; apply Z.ltb_lt; lia).
  cbn [orb]. rewrite after_after, !append_nil_r. reflexivity.
Qed.

Lemma negative_budget_panics_before_the_model_witness :
  fst (generateCommitMessage bothReposWorld (sampleConfig true (-1))
         emptyOutput)
  = Panic "runtime error: slice bounds out of range [:-1]".
Proof.
  rewrite (negative_budget_panics_before_the_model bothReposWorld
             (sampleConfig true (-1)) emptyOutput byteCodec
             (renderedDefault {| Branch := "main"; DataUserContext := "" |})
             ("Using default embedded template" ++ LF)
             "diff --git a/main.go b/main.go"
             (map N_of_ascii
                (list_ascii_of_string "diff --git a/main.go b/main.go"))
             commonExcludes);
    vm_compute; reflexivity.
Defined.

(** ** The shape of a pattern *)

(** X12: what [getGeneratedFilesFromGitattributes] takes from a line.  A
    line gives at most one pattern, and a pattern it gives is the beginning
    of the line up to the first white space after its first byte: it does
    not begin with [#], it has a second byte, it holds no white space from
    the second byte on, and white space follows it in the line. *)
Theorem pattern_shape (line p : string) :
  In p (contribution line) ->
  contribution line = [p]
  /\ exists c s ws tl,
       p = String c s /\ c <> "#"%char /\ s <> ""
       /\ noSpace s = true
       /\ line = p ++ String ws tl /\ isSpace (byteZ ws) = true.
Proof.
  unfold contribution, scanStep. cbn [app].
  destruct (1 <? len (FindStringSubmatch re line)) eqn:Hlen; [|intros []].
  intros [<-|[]]. split; [reflexivity|].
  unfold FindStringSubmatch in *.
  pose proof (text_runes line) as Htext.
  pose proof (runesFuel_decoded (String.length line) line) as Hdec.
  pose proof (runesFuel_plain (String.length line) line) as Hplain.
  fold (runes line) in Hdec, Hplain.
  destruct (runes line) as [|x l] eqn:Hrunes; cbn [search] in *.
  { replace (run re {| pos := 0; rest := []; cap1 := None |}) with (@nil thread)
      in Hlen by reflexivity.
    discriminate Hlen. }
  destruct (run re {| pos := 0; rest := x :: l; cap1 := None |})
    as [|t ts] eqn:Hrun.
  { rewrite search_not_at_start in Hlen. discriminate Hlen. }
  assert (Hin : In t (run re {| pos := 0; rest := x :: l; cap1 := None |}))
    by (rewrite Hrun; now left).
  apply re_capture in Hin. cbn [rest] in Hin.
  destruct Hin as (it0 & it1 & used & sp & more & Hl & Hcap & C0 & C1 & Cu & Csp).
  cbn [nth]. rewrite Hcap.
  rewrite Hl in Hdec, Hplain, Htext.
  apply Forall_cons_iff in Hdec. destruct Hdec as [D0 Hdec].
  apply Forall_cons_iff in Hdec. destruct Hdec as [D1 Hdec].
  apply Forall_app in Hdec. destruct Hdec as [Du _].
  apply Forall_cons_iff in Hplain. destruct Hplain as [_ Hplain].
  apply Forall_cons_iff in Hplain. destruct Hplain as [_ Hplain].
  apply Forall_app in Hplain. destruct Hplain as [_ Hplain].
  apply Forall_cons_iff in Hplain. destruct Hplain as [Psp _].
  cbn [classMatches] in Csp.
  destruct (Psp (isSpace_small _ Csp)) as (ws & Hws & Hwsr).
  pose proof D0 as (c & tl0 & Hraw0 & Hkind).
  pose proof D1 as (c1 & tl1 & Hraw1 & _).
  exists c, (tl0 ++ raw it1 ++ text used), ws, (text more).
  rewrite !text_cons, Hraw0. cbn [append].
  split; [reflexivity|]. split; [|split; [|split; [|split]]].
  - intros ->. destruct Hkind as [(_ & Hr & _) | (Hc & _)].
    + cbn [classMatches] in C0. rewrite Hr in C0. cbn in C0. discriminate C0.
    + cbn in Hc. lia.
  - rewrite Hraw1. destruct tl0; discriminate.
  - rewrite !noSpace_app. apply andb_true_iff. split; [|apply andb_true_iff; split].
    + destruct Hkind as [(_ & _ & ->) | (_ & Hh)];
        [reflexivity | now apply highBytes_noSpace].
    + now apply decoded_noSpace.
    + now apply decoded_text_noSpace.
  - rewrite <- Htext.
    change (it0 :: it1 :: (used ++ sp :: more)%list)
      with ((it0 :: it1 :: used) ++ sp :: more)%list.
    rewrite text_app, !text_cons, Hraw0, Hws. cbn [append].
    now rewrite !append_assoc.
  - now rewrite Hwsr.
Qed.

Lemma pattern_shape_witness :
  contribution "dist/app.js  -diff linguist-generated=true" = ["dist/app.js"]
  /\ exists c s ws tl,
       "dist/app.js" = String c s /\ c <> "#"%char /\ s <> ""
       /\ noSpace s = true
       /\ "dist/app.js  -diff linguist-generated=true"
          = "dist/app.js" ++ String ws tl
       /\ isSpace (byteZ ws) = true.
Proof.
  apply (pattern_shape "dist/app.js  -diff linguist-generated=true"
           "dist/app.js").
  vm_compute. left. reflexivity.
Defined.

(** ** .gitattributes with Windows line ends, or a very long line *)

Lemma scanFrom_crlf_line (l tl : string) (cur : list ascii) (n : Z) :
  forallb (fun c => negb (isLF c)) (list_ascii_of_string l) = true ->
  n + Z.of_nat (String.length l) + 1 < bufio.MaxScanTokenSize ->
  bufio.scanFrom (l ++ CRLF ++ tl) cur n
  = (string_of_list_ascii (rev (rev (list_ascii_of_string l) ++ cur))
       :: fst (bufio.scanFrom tl [] 0),
     snd (bufio.scanFrom tl [] 0)).
Proof.
  revert cur n. induction l as [|c l IH]; intros cur n Hlf Hlen.
  - cbn [append CRLF LF chr bufio.scanFrom String.length] in *.
    replace (Ascii.eqb CR (ascii_of_nat 10)) with false by reflexivity.
    replace (bufio.MaxScanTokenSize <=? n + 1) with false
      by (symmetry; apply Z.leb_gt; lia).
    rewrite Ascii.eqb_refl. destruct (bufio.scanFrom tl [] 0).
    unfold bufio.token, bufio.dropCR. rewrite Ascii.eqb_refl. reflexivity.
  - cbn [list_ascii_of_string forallb] in Hlf.
    apply andb_true_iff in Hlf. destruct Hlf as [Hc Hl].
    cbn [append bufio.scanFrom]. unfold isLF in Hc.
    apply negb_true_iff in Hc. rewrite Hc.
    cbn [String.length] in Hlen.
    replace (bufio.MaxScanTokenSize <=? n + 1) with false
      by (symmetry; apply Z.leb_gt; lia).
    rewrite IH by (assumption || lia).
    cbn [list_ascii_of_string rev]. now rewrite <- app_assoc.
Qed.

Lemma scanLines_unlinesCRLF (lines : list string) :
  Forall crlfLine lines ->
  bufio.scanLines (unlinesCRLF lines) = (lines, None).
Proof.
  unfold bufio.scanLines.
  induction 1 as [|l lines (Hlf & Hlen) _ IH]; [reflexivity|].
  cbn [unlinesCRLF fold_right]. fold (unlinesCRLF lines).
  rewrite scanFrom_crlf_line by (assumption || lia).
  rewrite IH. cbn [fst snd]. f_equal. f_equal.
  rewrite app_nil_r, rev_involutive.
  apply string_of_list_ascii_of_string.
Qed.

(** X13: a [.gitattributes] with Windows line ends is read like one
    without: the carriage return before each newline is dropped, and the
    patterns are those of the lines, in order. *)
Theorem crlf_gitattributes (w : World) (lines : list string) :
  readFile w ".gitattributes" = Ok (unlinesCRLF lines) ->
  Forall crlfLine lines ->
  getGeneratedFilesFromGitattributes w = Ok (flat_map contribution lines).
Proof.
  intros Hr Hl. unfold getGeneratedFilesFromGitattributes.
  rewrite Hr, (scanLines_unlinesCRLF lines Hl), scan_loop. reflexivity.
Qed.

Lemma crlf_gitattributes_witness :
  getGeneratedFilesFromGitattributes
    (attributesWorld
       (unlinesCRLF ["a.pb.go linguist-generated=true"; "*.md text"]))
  = Ok (flat_map contribution ["a.pb.go linguist-generated=true"; "*.md text"]).
Proof.
  apply (crlf_gitattributes
           (attributesWorld
              (unlinesCRLF ["a.pb.go linguist-generated=true"; "*.md text"]))
           ["a.pb.go linguist-generated=true"; "*.md text"]).
  - reflexivity.
  - repeat constructor.
Defined.

(** X14: one line of 64 KiB or more in [.gitattributes] loses everything:
    the scanner gives up, the patterns of the lines before it are dropped,
    and for Git [getDiff] fails with
    [failed to parse .gitattributes: bufio.Scanner: token too long] without
    running [git diff]. *)
Theorem overlong_line_blocks_diff (w : World) (config : Config) (o : Output)
  (before : list string) (long tl : string) :
  IsGit config = true ->
  fileExists w ".gitattributes" = true ->
  readFile w ".gitattributes" = Ok (unlines before ++ long ++ tl) ->
  Forall plainLine before ->
  forallb (fun c => negb (isLF c)) (list_ascii_of_string long) = true ->
  bufio.MaxScanTokenSize <= Z.of_nat (String.length long) ->
  getDiff w config o
  = (Return (Err ("failed to parse .gitattributes: "
                  ++ "bufio.Scanner: token too long")), o).
Proof.
  intros Hg Hf Hr Hb Hlf Hlen. rewrite getDiff_eq. unfold excludePatterns.
  rewrite Hg, Hf, (long_line_is_an_error w before long tl Hr Hb Hlf Hlen).
  reflexivity.
Qed.

Lemma overlong_line_blocks_diff_witness :
  getDiff longLineWorld (sampleConfig true 100) emptyOutput
  = (Return (Err ("failed to parse .gitattributes: "
                  ++ "bufio.Scanner: token too long")), emptyOutput).
Proof.
  apply (overlong_line_blocks_diff longLineWorld (sampleConfig true 100)
           emptyOutput ["dist/app.js linguist-generated=true"]
           (doubled 16 "x") "").
  - reflexivity.
  - reflexivity.
  - reflexivity.
  - repeat constructor.
  - vm_compute. reflexivity.
  - vm_compute. discriminate.
Defined.

(** ** A template of the user's own *)

Lemma cut_none (s : string) :
  Contains s "{{" = false -> template.cut "{" "{" s = None.
Proof.
  induction s as [|c s IH]; [reflexivity|].
  cbn [Contains]. intro H. apply orb_false_iff in H. destruct H as [Hp Hc].
  cbn [template.cut]. destruct s as [|d s]; [reflexivity|].
  rewrite (IH Hc).
  destruct (Ascii.eqb c "{") eqn:E1; [|reflexivity].
  destruct (Ascii.eqb d "{") eqn:E2; [|reflexivity].
  apply Ascii.eqb_eq in E1, E2. subst c d.
  exfalso. destruct s; discriminate Hp.
Qed.

Lemma plain_text_template (w : World) (content : string) (data : PromptData) :
  Contains content "{{" = false ->
  parseAndExecute w content data = Ok content.
Proof.
  intro H. unfold parseAndExecute, template.parse.
  cbn [template.parseFuel]. rewrite (cut_none content H).
  destruct content; reflexivity.
Qed.

(** A template file that exists, can be read and holds no [{{] is the
    prompt, byte for byte: the branch and the user context do not appear in
    it. *)
Theorem plain_template_is_verbatim (w : World) (path content : string)
  (data : PromptData) (o : Output) :
  path <> "" ->
  fileExists w path = true ->
  readFile w path = Ok content ->
  Contains content "{{" = false ->
  renderPromptTemplate w path data o
  = (Return (Ok content),
     after o "" ("Using template from: " ++ path ++ LF) []).
Proof.
  intros Hp Hf Hr Hc. rewrite renderPromptTemplate_eq.
  apply String.eqb_neq in Hp. rewrite Hp, Hf, Hr. cbn [negb andb].
  now rewrite plain_text_template.
Qed.

Lemma plain_template_is_verbatim_witness :
  fst (renderPromptTemplate plainTemplateWorld "/home/dev/prompt.txt"
         {| Branch := "main"; DataUserContext := "typo" |} emptyOutput)
  = Return (Ok "Write a commit message. Be brief.").
Proof.
  rewrite (plain_template_is_verbatim plainTemplateWorld
             "/home/dev/prompt.txt" "Write a commit message. Be brief.");
    try reflexivity.
  discriminate.
Defined.

Lemma cut_step (a b c d : ascii) (s : string) :
  template.cut a b (String c (String d s))
  = if Ascii.eqb c a && Ascii.eqb d b then Some ("", s)
    else match template.cut a b (String d s) with
         | Some (x, y) => Some (String c x, y)
         | None => None
         end.
Proof. reflexivity. Qed.

Lemma cut_open (a tl : string) :
  braceSafe a = true ->
  template.cut "{" "{" (a ++ "{{" ++ tl) = Some (a, tl).
Proof.
  unfold braceSafe. induction a as [|c a IH]; intro H; [reflexivity|].
  apply negb_true_iff in H. cbn [append Contains] in H.
  apply orb_false_iff in H. destruct H as [Hp Hc].
  assert (Hd : exists d s, a ++ "{{" ++ tl = String d s
                           /\ (c = "{"%char -> d <> "{"%char)).
  { destruct a as [|d a'].
    - exists "{"%char, ("{" ++ tl). split; [reflexivity|].
      intros -> _.
      assert (Ht : prefix "{{" ("{" ++ "" ++ "{") = true)
        by (apply prefix_app; now exists "").
      cbn [append] in Ht, Hp. congruence.
    - exists d, (a' ++ "{{" ++ tl). split; [reflexivity|].
      intros -> ->.
      assert (Ht : prefix "{{" (String "{" (String "{" a' ++ "{")) = true)
        by (apply prefix_app; now exists (a' ++ "{")).
      cbn [append] in Ht, Hp. congruence. }
  destruct Hd as (d & s & Hs & Hne).
  specialize (IH ltac:(now rewrite Hc)). rewrite Hs in IH.
  change (String c a ++ "{{" ++ tl) with (String c (a ++ "{{" ++ tl)).
  rewrite Hs, cut_step, IH.
  destruct (Ascii.eqb c "{") eqn:E1; [|reflexivity].
  destruct (Ascii.eqb d "{") eqn:E2; [|reflexivity].
  apply Ascii.eqb_eq in E1, E2. now destruct (Hne E1).
Qed.

Lemma cut_close (p tl : string) :
  forallb (fun c => negb (Ascii.eqb c "}")) (list_ascii_of_string p) = true ->
  template.cut "}" "}" (p ++ "}}" ++ tl) = Some (p, tl).
Proof.
  induction p as [|c p IH]; intro H; [reflexivity|].
  cbn [list_ascii_of_string forallb] in H.
  apply andb_true_iff in H. destruct H as [Hc Hp].
  apply negb_true_iff in Hc. specialize (IH Hp).
  assert (Hd : exists d s, p ++ "}}" ++ tl = String d s)
    by (destruct p; cbn; eauto).
  destruct Hd as (d & s & Hs). rewrite Hs in IH.
  change (String c p ++ "}}" ++ tl) with (String c (p ++ "}}" ++ tl)).
  now rewrite Hs, cut_step, IH, Hc.
Qed.

Lemma trimLeft_id (c : ascii) (s : string) :
  template.isBlank c = false -> template.trimLeft (String c s) = String c s.
Proof. intro H. cbn [template.trimLeft]. now rewrite H. Qed.

Lemma alnum_not_blank (c : ascii) :
  template.isAlphaNumeric c = true -> template.isBlank c = false.
Proof.
  destruct c as [[] [] [] [] [] [] [] []]; vm_compute; congruence.
Qed.

Lemma alnum_not_brace (c : ascii) :
  template.isAlphaNumeric c = true -> negb (Ascii.eqb c "}") = true.
Proof.
  destruct c as [[] [] [] [] [] [] [] []]; vm_compute; congruence.
Qed.

Lemma letter_alnum (c : ascii) :
  template.isLetter c = true -> template.isAlphaNumeric c = true.
Proof. unfold template.isAlphaNumeric. now intros ->. Qed.

Lemma trimBlanks_field (f : string) :
  isIdent f = true -> template.trimBlanks (String "." f) = String "." f.
Proof.
  destruct f as [|c n]; [discriminate|]. cbn [isIdent]. intro H.
  apply andb_true_iff in H. destruct H as [Hc Hn].
  assert (Hall : forallb template.isAlphaNumeric (c :: list_ascii_of_string n)
                 = true).
  { cbn [forallb]. now rewrite (letter_alnum c Hc), Hn. }
  unfold template.trimBlanks.
  change (list_ascii_of_string (String "." (String c n)))
    with ("."%char :: c :: list_ascii_of_string n).
  set (body := c :: list_ascii_of_string n) in *.
  assert (Hlast : exists x l, rev ("."%char :: body) = x :: l
                              /\ template.isBlank x = false).
  { cbn [rev]. destruct (rev body) as [|x l] eqn:E.
    - apply (f_equal (@List.length ascii)) in E.
      rewrite length_rev in E. discriminate E.
    - exists x, (l ++ ["."%char])%list. split; [reflexivity|].
      apply alnum_not_blank. rewrite forallb_forall in Hall. apply Hall.
      apply in_rev. rewrite E. now left. }
  destruct Hlast as (x & l & Hrev & Hx).
  rewrite Hrev. cbn [string_of_list_ascii]. rewrite trimLeft_id by assumption.
  change (String x (string_of_list_ascii l))
    with (string_of_list_ascii (x :: l)).
  rewrite list_ascii_of_string_of_list_ascii, <- Hrev, rev_involutive.
  cbn [string_of_list_ascii]. rewrite trimLeft_id by reflexivity.
  subst body. cbn [string_of_list_ascii].
  now rewrite string_of_list_ascii_of_string.
Qed.

Lemma fieldName_ident (f : string) :
  isIdent f = true -> template.fieldName (String "." f) = Some f.
Proof.
  intro H. unfold template.fieldName. rewrite (trimBlanks_field f H).
  destruct f as [|c n]; [discriminate|]. cbn [isIdent] in H. now rewrite H.
Qed.

Lemma ident_no_brace (f : string) :
  isIdent f = true ->
  forallb (fun c => negb (Ascii.eqb c "}"))
    (list_ascii_of_string (String "." f)) = true.
Proof.
  destruct f as [|c n]; [discriminate|]. cbn [isIdent]. intro H.
  apply andb_true_iff in H. destruct H as [Hc Hn].
  cbn [list_ascii_of_string forallb].
  rewrite (alnum_not_brace c (letter_alnum c Hc)). cbn [andb].
  replace (negb (Ascii.eqb "." "}")) with true by reflexivity. cbn [andb].
  rewrite forallb_forall in *. intros x Hx. apply alnum_not_brace. auto.
Qed.

(** The nodes of a spelled template. *)
Lemma execute_text (text t : string) (ns : list template.node)
  (data : PromptData) (buf : string) :
  template.execute text (template.textNode t ++ ns) data buf
  = template.execute text ns data (buf ++ t).
Proof.
  destruct t; [cbn; now rewrite append_nil_r | reflexivity].
Qed.

Lemma braceSafe_no_open (t : string) :
  braceSafe t = true -> Contains t "{{" = false.
Proof.
  unfold braceSafe. intro H. apply negb_true_iff in H.
  destruct (Contains t "{{") eqn:E; [|reflexivity].
  apply Contains_spec in E. apply (contains_app_l t "{") in E.
  apply Contains_spec in E. congruence.
Qed.

Lemma blanks_field (f : string) : template.blanks (String "." f) = 0%nat.
Proof. reflexivity. Qed.

Lemma parse_spelled (text : string) (data : PromptData)
  (l : list (string * string)) (t0 : string) (fuel off : nat) (buf : string) :
  braceSafe t0 = true ->
  forallb segmentOk l = true ->
  (List.length l < fuel)%nat ->
  exists ns,
    template.parseFuel fuel off (t0 ++ spell l) = Some ns
    /\ template.execute text ns data buf
       = match fill text (off + String.length t0) data l with
         | Ok r => Ok (buf ++ t0 ++ r)
         | Err e => Err e
         end.
Proof.
  revert t0 fuel off buf.
  induction l as [|[f t] l IH]; intros t0 fuel off buf H0 Hl Hf.
  - destruct fuel as [|fuel]; [cbn in Hf; lia|].
    cbn [spell template.parseFuel]. rewrite append_nil_r.
    rewrite (cut_none t0 (braceSafe_no_open t0 H0)).
    eexists. split; [reflexivity|].
    rewrite <- (app_nil_r (template.textNode t0)), execute_text.
    cbn [template.execute fill]. now rewrite append_nil_r.
  - destruct fuel as [|fuel]; [cbn in Hf; lia|].
    cbn [forallb] in Hl. apply andb_true_iff in Hl. destruct Hl as [Hseg Hl].
    unfold segmentOk in Hseg. cbn [fst snd] in Hseg.
    apply andb_true_iff in Hseg. destruct Hseg as [Hid Ht].
    cbn [spell template.parseFuel].
    change ("{{." ++ f ++ "}}" ++ t ++ spell l)
      with ("{{" ++ (String "." f ++ "}}" ++ t ++ spell l)).
    rewrite (cut_open t0 _ H0).
    rewrite (cut_close (String "." f) _ (ident_no_brace f Hid)).
    rewrite (fieldName_ident f Hid), blanks_field.
    cbn [List.length] in Hf.
    destruct (IH t fuel
                (off + String.length t0 + 2 + String.length (String "." f) + 2)%nat
                (match template.field text (off + String.length t0 + 2) data f with
                 | Ok v => (buf ++ t0) ++ v
                 | Err _ => ""
                 end) Ht Hl ltac:(lia)) as (ns & Hparse & Hexec).
    rewrite Hparse. eexists. split; [reflexivity|].
    rewrite execute_text. cbn [template.execute fill].
    rewrite Nat.add_0_r.
    destruct (template.field text (off + String.length t0 + 2) data f)
      as [v|e]; [|reflexivity].
    rewrite Hexec. clear Hexec Hparse. cbn [String.length].
    replace (off + String.length t0 + 2 + S (String.length f) + 2
             + String.length t)%nat
      with (off + String.length t0 + 5 + String.length f + String.length t)%nat
      by lia.
    destruct (fill text _ data l); [|reflexivity].
    now rewrite !append_assoc.
Qed.

Lemma length_spell (l : list (string * string)) (t0 : string) :
  (List.length l < S (String.length (t0 ++ spell l)))%nat.
Proof.
  assert (H : forall a b, String.length (a ++ b)
                          = (String.length a + String.length b)%nat).
  { induction a as [|c a IH]; intro b; [reflexivity|]. cbn. now rewrite IH. }
  rewrite H. induction l as [|[f t] l IH]; cbn [List.length spell]; [lia|].
  rewrite !H. cbn [String.length] in *. lia.
Qed.

(** X15: a template file made of texts and of actions [{{.Name}}] renders
    to the texts with each action replaced by the value of the field:
    [Branch] and [UserContext] are the two there are, and the first action
    naming another field makes the rendering fail with
    [failed to execute template: template: prompt:L:B: executing "prompt"
    at <.Name>: can't evaluate field Name in type main.PromptData], where
    [L] is the line of the action's dot, counted from 1, and [B] the byte
    of the dot in that line, counted from 0. *)
Theorem custom_template_substitution (w : World) (path t0 : string)
  (l : list (string * string)) (data : PromptData) (o : Output) :
  path <> "" ->
  fileExists w path = true ->
  readFile w path = Ok (t0 ++ spell l) ->
  braceSafe t0 = true ->
  forallb segmentOk l = true ->
  renderPromptTemplate w path data o
  = (Return (match fill (t0 ++ spell l) (String.length t0) data l with
             | Ok r => Ok (t0 ++ r)
             | Err e => Err ("failed to execute template: " ++ e)
             end),
     after o "" ("Using template from: " ++ path ++ LF) []).
Proof.
  intros Hp Hf Hr H0 Hl. rewrite renderPromptTemplate_eq.
  apply String.eqb_neq in Hp. rewrite Hp, Hf, Hr. cbn [negb andb].
  f_equal. f_equal. unfold parseAndExecute, template.parse.
  destruct (parse_spelled (t0 ++ spell l) data l t0
              (S (String.length (t0 ++ spell l))) 0 ""
              H0 Hl (length_spell l t0)) as (ns & Hparse & Hexec).
  rewrite Hparse, Hexec. cbn [Nat.add]. now destruct (fill _ _ data l).
Qed.

Lemma custom_template_substitution_witness :
  fst (renderPromptTemplate customTemplateWorld "/home/dev/prompt.txt"
         {| Branch := "main"; DataUserContext := "typo" |} emptyOutput)
  = Return (Ok "Branch main. Context: typo.")
  /\ fst (renderPromptTemplate misspeltTemplateWorld "/home/dev/prompt.txt"
            {| Branch := "main"; DataUserContext := "typo" |} emptyOutput)
     = Return (Err ("failed to execute template: template: prompt:3:8: executing "
                    ++ DQUOTE ++ "prompt" ++ DQUOTE
                    ++ " at <.Context>: can't evaluate field Context in type main.PromptData")).
Proof.
  split.
  - rewrite (custom_template_substitution customTemplateWorld
               "/home/dev/prompt.txt" "Branch "
               [("Branch", ". Context: "); ("UserContext", ".")]);
      try reflexivity.
    discriminate.
  - rewrite (custom_template_substitution misspeltTemplateWorld
               "/home/dev/prompt.txt"
               ("Write a commit message." ++ LF ++ "Branch: ")
               [("Branch", LF ++ "Note: "); ("Context", ".")]);
      try reflexivity.
    discriminate.
Defined.

(** ** A whole run *)

Lemma resolveConfig_defaults (w : World) (useGit : bool) (o : Output)
  (homeDir : string) :
  userHomeDir w = Ok homeDir ->
  find (fileExists w) (configPathsOf w homeDir) = None ->
  getenv w "LAZYCOMMIT_MAX_TOKENS" = "" ->
  getenv w "LAZYCOMMIT_TEMPLATE" = "" ->
  getenv w "LAZYCOMMIT_MODEL" = "" ->
  resolveConfig w useGit o
  = (Return {| MaxDiffSize := 12500; PromptPath := "";
               UserContext := userContextOf w; IsGit := useGit;
               ModelName := "" |},
     after o "" ("No configuration file found, using defaults" ++ LF) []).
Proof.
  intros Hh Hf H1 H2 H3. unfold resolveConfig, loadConfig. rewrite Hh.
  fold (configPathsOf w homeDir).
  unfold bind at 1. unfold bind at 1. rewrite loadFirst_eq, Hf, H1, H2, H3.
  cbn [String.eqb negb]. unfold bind at 1. rewrite printErr_eq.
  unfold bind, ret. reflexivity.
Qed.

(** X16: a run in a plain Git checkout with nothing configured.  With a
    [.git] entry, no Jujutsu, no configuration file, none of the three
    variables set, no [.gitattributes] and a staged diff within 12500
    tokens, [main] runs four commands in this order: the Jujutsu probe, the
    branch query, [git diff --cached] with the three lock files excluded,
    and [llm -s prompt] with the diff, unchanged, on its standard input.
    The prompt is the embedded template with the branch and the first
    argument filled in.  What [llm] writes is passed on; [main] returns when
    [llm] succeeds, and otherwise prints the error on standard output and
    exits with status 1. *)
Theorem main_default_run (w : World) (o : Output) (homeDir e diff : string)
  (enc : Codec) (tokens : list N) :
  commandExists w "llm" = true ->
  statOk w ".git" = true ->
  procErr (resultOf w jjProbe) = Some e ->
  userHomeDir w = Ok homeDir ->
  find (fileExists w) (configPathsOf w homeDir) = None ->
  getenv w "LAZYCOMMIT_MAX_TOKENS" = "" ->
  getenv w "LAZYCOMMIT_TEMPLATE" = "" ->
  getenv w "LAZYCOMMIT_MODEL" = "" ->
  fileExists w ".gitattributes" = false ->
  procErr (resultOf w gitDiffDefault) = None ->
  procStdout (resultOf w gitDiffDefault) = diff ->
  tokenizerGet w = Ok enc ->
  Encode enc diff = Ok tokens ->
  len tokens <= 12500 ->
  let prompt :=
    renderedDefault {| Branch := branchOf w true;
                       DataUserContext := userContextOf w |} in
  let llm := resultOf w (llmInvocation ["-s"; prompt] diff) in
  main w o
  = (match procErr llm with
     | None => Return tt
     | Some _ => Exit 1
     end,
     after o
       (procStdout llm
        ++ match procErr llm with
           | None => ""
           | Some err => red ("Error: " ++ err)
           end)
       ("No configuration file found, using defaults" ++ LF
        ++ "Using Git for version control" ++ LF
        ++ "Using default embedded template" ++ LF
        ++ "Using default llm model" ++ LF
        ++ procStderr llm)
       [jjProbe; branchCommand true; gitDiffDefault;
        llmInvocation ["-s"; prompt] diff]).
Proof.
  intros Hllm Hgit Hjj Hh Hf E1 E2 E3 Hattr Hd1 Hd2 Hg Henc Hlen prompt llm.
  unfold main. rewrite Hllm. cbn [negb].
  unfold bind at 1. rewrite isGitRepo_eq, Hgit.
  unfold bind at 1. rewrite isJJRepo_eq, Hjj. cbn [negb andb].
  unfold bind at 1.
  rewrite (resolveConfig_defaults w true _ homeDir Hh Hf E1 E2 E3).
  unfold bind at 1. rewrite printErr_eq.
  set (config := {| MaxDiffSize := 12500; PromptPath := "";
                    UserContext := userContextOf w; IsGit := true;
                    ModelName := "" |}).
  assert (Hpat : excludePatterns w config = Ok commonExcludes).
  { unfold excludePatterns. cbn [IsGit config]. now rewrite Hattr. }
  unfold bind at 1.
  rewrite (generateCommitMessage_success w config _ prompt
             ("Using default embedded template" ++ LF) diff diff
             commonExcludes).
  - change (llmArgs config prompt) with ["-s"; prompt].
    change (modelLine config) with ("Using default llm model" ++ LF).
    change (IsGit config) with true.
    change (diffInvocation config commonExcludes) with gitDiffDefault.
    fold llm. destruct (procErr llm) as [err|].
    + unfold bind, osExit. rewrite printOut_eq, !after_after.
      rewrite !append_nil_r, ?append_assoc. reflexivity.
    + unfold ret. rewrite !after_after.
      rewrite !append_nil_r, ?append_assoc. reflexivity.
  - rewrite renderPromptTemplate_eq. cbn [PromptPath config String.eqb negb andb].
    rewrite parseAndExecute_default, after_after, app_nil_r. reflexivity.
  - exact Hpat.
  - exact Hd1.
  - exact Hd2.
  - unfold truncateDiff. rewrite Hg, Henc. cbn [MaxDiffSize config].
    apply Z.leb_le in Hlen. now rewrite Hlen.
Qed.

Lemma main_default_run_witness :
  main plainGitWorld emptyOutput
  = (Return tt,
     after emptyOutput "Fix parser"
       ("No configuration file found, using defaults" ++ LF
        ++ "Using Git for version control" ++ LF
        ++ "Using default embedded template" ++ LF
        ++ "Using default llm model" ++ LF)
       [jjProbe; branchCommand true; gitDiffDefault;
        llmInvocation
          ["-s"; renderedDefault {| Branch := "main"; DataUserContext := "" |}]
          "diff --git a/main.go b/main.go"]).
Proof.
  apply (main_default_run plainGitWorld emptyOutput "/home/dev"
           "exit status 1" "diff --git a/main.go b/main.go" byteCodec
           (map N_of_ascii
              (list_ascii_of_string "diff --git a/main.go b/main.go")));
    try reflexivity.
  vm_compute. discriminate.
Defined.
